(** * Takeout: flattening a project tree into [.takeout]

    A shallow embedding of [takeout.py] (functions [get_ignored_patterns],
    [create_takeout] and [_delete_folder_after_delay], and the command
    line of the script) and the properties of its specification.

    Conventions of the embedding:
    - a Python [str] is the [string] of its bytes in UTF-8; every operation
      used by the program ([startswith], [endswith], [strip], [count],
      [replace], comparison) is written on that representation. The name
      of a file is the [string] of its bytes: where these are not UTF-8
      text ([Utf8.valid]), Python reads the name with surrogate escapes and
      the strict encoder of the guide refuses it;
    - [os.path] is [posixpath] ([os.sep] is [/]), and [os.rename] replaces
      an existing destination, as it does on POSIX systems;
    - the project is a finite tree of directories holding regular files;
      a directory is listed in the order of the lists of the tree; the
      tree may hold directories named [.git] or [.takeout] like any other,
      while the entries of [root_dir/.takeout] that exist when the run
      starts are given apart;
    - the output folder is a finite map from entry names to contents, and
      [os.listdir] gives its names in an order that the run does not
      choose;
    - what the program prints or shows, and the thread it starts, are
      collected as a list of events; the timer is a rational number, and
      how [time.sleep] ends is given by the relation [sleeps];
    - [create_takeout] is the run in which no call on a file raises;
      [create_takeout_io] adds the exceptions that the names and the files
      of the project cause: a line of the guide that cannot be encoded, a
      file to copy that cannot be read. The other failures of the file
      system (a full disk, a name that is too long, a folder that cannot
      be created or removed) are left out. *)

From Stdlib Require Import Ascii.
From Stdlib Require Import Qcanon.
From stdpp Require Import gmap strings list sorting pretty.

Close Scope Qc_scope.

#[local] Set Warnings "-clear-no-such-hyp".

(** ** Python string operations *)

Module Py.

Definition nl : string := String (ascii_of_nat 10) "".

(** [s.startswith(p)] *)
Fixpoint startswith (s p : string) : bool :=
  match p with
  | "" => true
  | String c p' =>
      match s with
      | "" => false
      | String d s' => bool_decide (c = d) && startswith s' p'
      end
  end.

(** [s.endswith(p)] *)
Fixpoint endswith (s p : string) : bool :=
  bool_decide (s = p) ||
  match s with
  | "" => false
  | String _ s' => endswith s' p
  end.

(** [s[1:]] *)
Definition tail (s : string) : string :=
  match s with
  | "" => ""
  | String _ s' => s'
  end.

(** [s[:n]] and [s[n:]] for a non-negative [n] *)
Fixpoint take (n : nat) (s : string) : string :=
  match n, s with
  | S n', String c s' => String c (take n' s')
  | _, _ => ""
  end.

Fixpoint drop (n : nat) (s : string) : string :=
  match n, s with
  | S n', String _ s' => drop n' s'
  | _, _ => s
  end.

(** [s.count(c)] for a one-character [c] *)
Fixpoint count (c : ascii) (s : string) : nat :=
  match s with
  | "" => 0
  | String d s' => (if bool_decide (d = c) then 1 else 0) + count c s'
  end.

(** [s.replace(c, r)] for one-character [c] and [r] *)
Fixpoint replace (c r : ascii) (s : string) : string :=
  match s with
  | "" => ""
  | String d s' => String (if bool_decide (d = c) then r else d) (replace c r s')
  end.

(** [c * n] for a string [c] *)
Fixpoint repeat (c : string) (n : nat) : string :=
  match n with
  | 0 => ""
  | S n' => c +:+ repeat c n'
  end.

(** [s.rstrip(c)] for a one-character [c] *)
Fixpoint rstrip_char (c : ascii) (s : string) : string :=
  match s with
  | "" => ""
  | String d s' =>
      match rstrip_char c s' with
      | "" => if bool_decide (d = c) then "" else String d ""
      | r => String d r
      end
  end.

(** [s.split(c)] for a one-character [c] *)
Fixpoint split (c : ascii) (s : string) : list string :=
  match s with
  | "" => [""]
  | String d s' =>
      if bool_decide (d = c) then "" :: split c s'
      else match split c s' with
           | h :: t => String d h :: t
           | [] => [String d ""]
           end
  end.

(** [s.rfind(c) + 1] for a one-character [c]: [0] when [c] is absent *)
Fixpoint rfind1 (c : ascii) (s : string) : nat :=
  match s with
  | "" => 0
  | String d s' =>
      match rfind1 c s' with
      | 0 => if bool_decide (d = c) then 1 else 0
      | S i => S (S i)
      end
  end.

(** Whitespace, as [str.isspace] has it, on UTF-8 text: the characters
    U+0009 to U+000D, U+001C to U+0020, U+0085, U+00A0, U+1680,
    U+2000 to U+200A, U+2028, U+2029, U+202F, U+205F and U+3000. *)
Definition space1 (a : ascii) : bool :=
  let n := nat_of_ascii a in
  (9 <=? n) && (n <=? 13) || (28 <=? n) && (n <=? 32).

Definition space2 (a b : ascii) : bool :=
  let '(m, n) := (nat_of_ascii a, nat_of_ascii b) in
  (m =? 194) && ((n =? 133) || (n =? 160)).

Definition space3 (a b c : ascii) : bool :=
  let '(m, n, k) := (nat_of_ascii a, nat_of_ascii b, nat_of_ascii c) in
  (m =? 225) && (n =? 154) && (k =? 128)
  || (m =? 226) && (n =? 128)
     && ((128 <=? k) && (k <=? 138) || (k =? 168) || (k =? 169) || (k =? 175))
  || (m =? 226) && (n =? 129) && (k =? 159)
  || (m =? 227) && (n =? 128) && (k =? 128).

(** Removal of the leading whitespace characters; with [back] the string
    is read backwards, so that the bytes of a character arrive last
    byte first. *)
Fixpoint strip_front (back : bool) (s : string) : string :=
  match s with
  | String a s1 =>
      if space1 a then strip_front back s1
      else match s1 with
           | String b s2 =>
               if (if back then space2 b a else space2 a b)
               then strip_front back s2
               else match s2 with
                    | String c s3 =>
                        if (if back then space3 c b a else space3 a b c)
                        then strip_front back s3
                        else s
                    | "" => s
                    end
           | "" => s
           end
  | "" => ""
  end.

Definition lstrip (s : string) : string := strip_front false s.
Definition rstrip (s : string) : string :=
  String.rev (strip_front true (String.rev s)).

(** [s.strip()] *)
Definition strip (s : string) : string := rstrip (lstrip s).

(** [str(b)] for a [bool] *)
Definition str_bool (b : bool) : string := if b then "True" else "False".

End Py.

(** ** [posixpath] *)

Module Path.

Definition sep : ascii := "/"%char.

(** [os.path.join(a, b)] *)
Definition join (a b : string) : string :=
  if Py.startswith b "/" then b
  else if bool_decide (a = "") || Py.endswith a "/" then a +:+ b
  else a +:+ "/" +:+ b.

(** [os.path.basename(p)]: [p[p.rfind(sep) + 1:]] *)
Definition basename (p : string) : string := Py.drop (Py.rfind1 sep p) p.

(** [os.path.dirname(p)] *)
Definition dirname (p : string) : string :=
  let head := Py.take (Py.rfind1 sep p) p in
  if negb (bool_decide (head = ""))
     && negb (bool_decide (head = Py.repeat "/" (String.length head)))
  then Py.rstrip_char sep head
  else head.

(** One turn of the loop of [normpath] on an absolute path: empty and
    [.] components are skipped, [..] drops the last component kept (and
    is itself dropped at the root). *)
Definition norm_step (comps : list string) (comp : string) : list string :=
  if bool_decide (comp = "") || bool_decide (comp = ".") then comps
  else if bool_decide (comp = "..") then removelast comps
  else comps ++ [comp].

(** The components of [os.path.abspath(p)], that is
    [abspath(p).lstrip(sep).split(sep)] with no component for the root;
    [cwd] is [os.getcwd()], an absolute path. *)
Definition abs_parts (cwd p : string) : list string :=
  foldl norm_step [] (Py.split sep (if Py.startswith p "/" then p else join cwd p)).

(** [os.path.commonprefix([l1, l2])] on lists of components *)
Fixpoint commonprefix (l1 l2 : list string) : list string :=
  match l1, l2 with
  | x :: l1', y :: l2' => if bool_decide (x = y) then x :: commonprefix l1' l2' else []
  | _, _ => []
  end.

(** [os.path.relpath(path, start)] for a non-empty [path] *)
Definition relpath (cwd path start : string) : string :=
  let start_list := abs_parts cwd start in
  let path_list := abs_parts cwd path in
  let i := length (commonprefix start_list path_list) in
  let rel_list := replicate (length start_list - i) ".." ++ List.skipn i path_list in
  match rel_list with
  | [] => "."
  | c :: cs => foldl join c cs
  end.

End Path.


(** ** Text that can be encoded *)

Module Utf8.

(** A continuation byte, [0x80] to [0xBF]. *)
Definition cont (a : ascii) : bool :=
  let n := nat_of_ascii a in (128 <=? n) && (n <=? 191).

(** The second byte after a lead byte of a sequence of three: no overlong
    form after [0xE0], no surrogate after [0xED]. *)
Definition second3 (a b : ascii) : bool :=
  let '(n, m) := (nat_of_ascii a, nat_of_ascii b) in
  if n =? 224 then (160 <=? m) && (m <=? 191)
  else if n =? 237 then (128 <=? m) && (m <=? 159)
  else cont b.

(** The second byte after a lead byte of a sequence of four: no overlong
    form after [0xF0], nothing above U+10FFFF after [0xF4]. *)
Definition second4 (a b : ascii) : bool :=
  let '(n, m) := (nat_of_ascii a, nat_of_ascii b) in
  if n =? 240 then (144 <=? m) && (m <=? 191)
  else if n =? 244 then (128 <=? m) && (m <=? 143)
  else cont b.

(** Whether the bytes [s] are the UTF-8 form of a text, that is, whether
    the [str] they stand for can be encoded by the strict [utf-8] codec:
    a name whose bytes are not is read by [os.walk] with surrogate
    escapes, which the codec refuses. *)
Fixpoint valid (s : string) : bool :=
  match s with
  | "" => true
  | String a s1 =>
      let n := nat_of_ascii a in
      if n <=? 127 then valid s1
      else
        match s1 with
        | "" => false
        | String b s2 =>
            if (194 <=? n) && (n <=? 223) then cont b && valid s2
            else
              match s2 with
              | "" => false
              | String c s3 =>
                  if (224 <=? n) && (n <=? 239) then second3 a b && cont c && valid s3
                  else
                    match s3 with
                    | "" => false
                    | String d s4 =>
                        (240 <=? n) && (n <=? 244) && second4 a b && cont c && cont d
                        && valid s4
                    end
              end
        end
  end.

End Utf8.


(** ** The data of a run *)

(** The project tree as [os.walk] lists it: the names of the regular files
    of a directory and its sub-directories, each in listing order. *)
#[local] Unset Elimination Schemes.
Inductive tree : Type :=
| Dir (files : list string) (subdirs : list (string * tree)).
#[local] Set Elimination Schemes.

(** What iterating over [.takeoutignore] gives: the file may be missing,
    opening or decoding it may raise (with the text of the exception), or
    it yields its lines, each with its line ending. *)
Inductive ignore_file : Type :=
| Missing
| Unreadable (e : string)
| Lines (ls : list string).

(** The contents of an entry of the output folder: text written there, or
    the bytes and metadata that [shutil.copy2] took from a source path. *)
Inductive content : Type :=
| Written (text : string)
| CopyOf (path : string).

(** Entries directly inside [takeout_dir], by name. *)
Abbreviation folder := (gmap string content).

(** What the run does to the outside: it prints a line, shows a message
    box, starts a thread that runs [_delete_folder_after_delay] on [path]
    and [delay] (with its [daemon] flag), or waits for that thread with
    [join]. *)
Inductive event : Type :=
| Print (text : string)
| ShowInfo (title message : string)
| ThreadStart (daemon : bool) (path : string) (delay : Qc)
| ThreadJoin.

(** One item of [os.walk]: [(dirpath, dirnames, filenames)]. *)
Record walk_item : Type := WalkItem {
  dirpath : string;
  dirnames : list string;
  filenames : list string
}.

(** [file_paths]: a [dict] from base name to the list of source paths, in
    insertion order of the keys. *)
Abbreviation index := (list (string * list string)).

(** A line of the structure guide: [f.write] of a directory line at
    [level], or of a file line at [level]. *)
Inductive guide_line : Type :=
| DirLine (level : nat) (name : string)
| FileLine (level : nat) (name : string).

Definition guide_name : string := "structure_guide.txt".

(** ** [get_ignored_patterns] *)

(** The test of the comprehension: [line.strip() and not line.startswith('#')] *)
Definition pattern_line (line : string) : bool :=
  negb (bool_decide (Py.strip line = "")) && negb (Py.startswith line "#").

Definition get_ignored_patterns (f : ignore_file) : gset string * list event :=
  match f with
  | Missing => (∅, [])
  | Lines ls => (list_to_set (Py.strip <$> filter (λ line, pattern_line line) ls), [])
  | Unreadable e => (∅, [Print ("Error reading .takeoutignore file: " +:+ e)])
  end.

(** ** The walk and its filters *)

(** The test of the comprehension that replaces [dirnames[:]]. *)
Definition keep_dir (ignore_patterns : gset string) (d : string) : bool :=
  bool_decide (d +:+ "/" ∉ ignore_patterns)
  && bool_decide (d ∉ [".git"; ".takeout"]).

(** [any(name.endswith(p[1:]) for p in ignore_patterns if p.startswith('*.'))] *)
Definition wildcard_match (ignore_patterns : gset string) (name : string) : bool :=
  existsb (λ p, Py.endswith name (Py.tail p))
          (filter (λ p, Py.startswith p "*.") (elements ignore_patterns)).

(** The test under which a file name is skipped. *)
Definition ignored_file (ignore_patterns : gset string) (name : string) : bool :=
  bool_decide (name ∈ ignore_patterns) || wildcard_match ignore_patterns name.

(** [os.walk(top, topdown=True)] below a non-empty [top], consumed by a loop
    that keeps in [dirnames] the names accepted by [keep] before the walk
    descends. *)
Fixpoint walk (keep : string → bool) (top : string) (t : tree) : list walk_item :=
  match t with
  | Dir files subdirs =>
      WalkItem top (filter (λ d, keep d) subdirs.*1) files
      :: flat_map (λ sub, if keep sub.1 then walk keep (Path.join top sub.1) sub.2 else [])
                  subdirs
  end.

(** [os.walk(root_dir)]: scanning the empty path fails, the error is
    swallowed and nothing is produced. *)
Definition os_walk (keep : string → bool) (root_dir : string) (t : tree) : list walk_item :=
  if bool_decide (root_dir = "") then [] else walk keep root_dir t.

(** ** The file index *)

(** [if filename not in file_paths: file_paths[filename] = []] followed by
    [file_paths[filename].append(file_path)] *)
Fixpoint index_add (filename file_path : string) (file_paths : index) : index :=
  match file_paths with
  | [] => [(filename, [file_path])]
  | (k, paths) :: rest =>
      if bool_decide (k = filename) then (k, paths ++ [file_path]) :: rest
      else (k, paths) :: index_add filename file_path rest
  end.

(** [file_paths.get(filename)] *)
Fixpoint index_lookup (filename : string) (file_paths : index) : option (list string) :=
  match file_paths with
  | [] => None
  | (k, paths) :: rest =>
      if bool_decide (k = filename) then Some paths else index_lookup filename rest
  end.

(** The body of the inner loop over [filenames]. *)
Definition index_file (ignore_patterns : gset string) (dirpath : string)
    (file_paths : index) (filename : string) : index :=
  if ignored_file ignore_patterns filename then file_paths
  else index_add filename (Path.join dirpath filename) file_paths.

Definition index_item (ignore_patterns : gset string)
    (file_paths : index) (it : walk_item) : index :=
  foldl (index_file ignore_patterns (dirpath it)) file_paths (filenames it).

Definition build_index (ignore_patterns : gset string) (root_dir : string) (t : tree) : index :=
  foldl (index_item ignore_patterns) [] (os_walk (keep_dir ignore_patterns) root_dir t).

(** ** The run *)

(** The result of a run that returns: the entries of [takeout_dir], the
    counter of copied files and what was shown. *)
Record result : Type := Result {
  takeout : folder;
  copied : nat;
  output : list event
}.

(** How a call ends. *)
Inductive outcome : Type :=
| Returned
| Raised (e : string).


Section Run.

(** [os.getcwd()], the text of a [float] in an f-string, and the order in
    which [os.listdir] gives the entries of a folder. *)
Context (cwd : string) (str_float : Qc → string) (listdir : folder → list string).

(** *** The structure guide *)

(** [level] of the second walk. *)
Definition level (root_dir root : string) : nat :=
  if bool_decide (Path.relpath cwd root root_dir = ".") then 0
  else Py.count Path.sep (Path.relpath cwd root root_dir) + 1.

(** [sorted(files)] *)
Definition sorted (files : list string) : list string := merge_sort String.le files.

(** The lines written for one item of the walk. *)
Definition guide_block (ignore_patterns : gset string) (root_dir : string)
    (it : walk_item) : list guide_line :=
  DirLine (level root_dir (dirpath it)) (Path.basename (dirpath it))
  :: (FileLine (level root_dir (dirpath it) + 1)
        <$> filter (λ file, negb (ignored_file ignore_patterns file)) (sorted (filenames it))).

Definition guide_lines (ignore_patterns : gset string) (root_dir : string) (t : tree)
    : list guide_line :=
  flat_map (guide_block ignore_patterns root_dir)
           (os_walk (keep_dir ignore_patterns) root_dir t).

(** The text of a line, with its indentation of four spaces per level. *)
Definition render (l : guide_line) : string :=
  match l with
  | DirLine level name => Py.repeat "    " level +:+ name +:+ "/" +:+ Py.nl
  | FileLine level name => Py.repeat "    " level +:+ name +:+ Py.nl
  end.

(** Everything written to [structure_guide.txt] when no call of [f.write]
    raises; [write_guide] has the calls one by one, with their failure. *)
Definition guide_text (ignore_patterns : gset string) (root_dir : string) (t : tree) : string :=
  "Project Structure for: " +:+ Path.basename root_dir +:+ Py.nl +:+ Py.nl
  +:+ String.concat "" (render <$> guide_lines ignore_patterns root_dir t).

(** *** The copies *)

(** [shutil.copy2(src, os.path.join(takeout_dir, name))] on a source that
    can be read; [create_takeout_io] has the failure on one that cannot. *)
Definition copy2 (src name : string) (d : folder) : folder := <[name := CopyOf src]> d.

Definition unique_name (root_dir path filename : string) : string :=
  let relative_dir := Path.relpath cwd (Path.dirname path) root_dir in
  Py.replace Path.sep "_" (Path.join relative_dir filename).

(** The calls of [shutil.copy2] made for one item of [file_paths.items()],
    each as the source path and the name given in [takeout_dir]. *)
Definition group_copies (root_dir : string) (g : string * list string)
    : list (string * string) :=
  match g.2 with
  | [path] => [(path, g.1)]
  | paths => (λ path, (path, unique_name root_dir path g.1)) <$> paths
  end.

(** One call of [shutil.copy2] followed by [copied_files_count += 1]. *)
Definition copy_step (st : folder * nat) (c : string * string) : folder * nat :=
  (copy2 c.1 c.2 st.1, S st.2).

(** The body of the loop over [file_paths.items()], on the folder and the
    counter. *)
Definition copy_group (root_dir : string) (st : folder * nat) (g : string * list string)
    : folder * nat :=
  foldl copy_step st (group_copies root_dir g).

Definition copy_all (root_dir : string) (file_paths : index) (d : folder) : folder * nat :=
  foldl (copy_group root_dir) (d, 0) file_paths.

(** *** The conversion to [.txt] *)

(** [os.rename] inside one folder: a missing source raises, an existing
    destination is replaced. *)
Definition rename (src dst : string) (d : folder) : option folder :=
  c ← d !! src; Some (<[dst := c]> (delete src d)).

Definition convert_item (d : folder) (item_name : string) : option folder :=
  if bool_decide (item_name ≠ guide_name) then rename item_name (item_name +:+ ".txt") d
  else Some d.

(** The loop over [os.listdir(takeout_dir)], the listing being taken once
    before the loop. *)
Fixpoint convert_all (items : list string) (d : folder) : option folder :=
  match items with
  | [] => Some d
  | item_name :: rest => d' ← convert_item d item_name; convert_all rest d'
  end.

(** *** The deferred deletion *)

(** What a block of the thread leaves: what it printed, whether the folder
    is still there, and how the block ended. *)
Abbreviation effect := (list event * bool * outcome)%type.

(** The body of the [try]: [if os.path.exists(path)], then
    [shutil.rmtree(path)] and the line that reports the deletion. [present]
    tells whether [path] exists when the delay has elapsed and [failure]
    is the exception that [shutil.rmtree] raises there, if any. *)
Definition delete_if_present (path : string) (present : bool) (failure : option string)
    : effect :=
  if present then
    match failure with
    | Some e => ([], true, Raised e)
    | None => ([Print ("Automatically deleted '" +:+ path +:+ "'.")], false, Returned)
    end
  else ([], false, Returned).

(** [try: body] followed by [except Exception as e: handler] *)
Definition try_except (body : effect) (handler : string → list event) : effect :=
  match body with
  | (log, still, Raised e) => (log ++ handler e, still, Returned)
  | (log, still, Returned) => (log, still, Returned)
  end.

(** [_delete_folder_after_delay(path, delay)], run by the thread. [slept]
    is how [time.sleep(delay)] ends: the call stands before the [try], so
    what it raises leaves the function. *)
Definition _delete_folder_after_delay (path : string) (delay : Qc) (slept : outcome)
    (present : bool) (failure : option string) : effect :=
  let scheduled :=
    Print (Py.nl +:+ "Scheduled deletion of '" +:+ path +:+ "' in "
           +:+ str_float delay +:+ " seconds.") in
  match slept with
  | Raised e => ([scheduled], present, Raised e)
  | Returned =>
      let '(log, still, how) :=
        try_except (delete_if_present path present failure)
          (λ e, [Print ("Error during scheduled deletion of '" +:+ path +:+ "': " +:+ e)]) in
      (scheduled :: log, still, how)
  end.

(** *** [create_takeout] *)

(** [old] holds the entries of [root_dir/.takeout] when the run starts, if
    that folder exists. Both walks are given the tree [t]: what the run
    changes in the project lies below [.takeout], where no walk goes. The
    result is [None] when an exception leaves the function; the calls
    that write the guide and copy the files are taken not to raise here,
    and [create_takeout_io] is the run in which they may. *)
Definition create_takeout (root_dir : string) (t : tree) (ignore : ignore_file)
    (old : option folder) (convert_to_txt empty_before : bool) (delete_timer : Qc)
    (use_gui : bool) : option result :=
  let out :=
    [Print "Starting takeout process...";
     Print ("  - Project Directory: " +:+ root_dir);
     Print ("  - Convert to .txt: " +:+ Py.str_bool convert_to_txt);
     Print ("  - Empty before process: " +:+ Py.str_bool empty_before);
     Print ("  - Auto-delete timer: " +:+ str_float delete_timer +:+ "s")] in
  let takeout_dir := Path.join root_dir ".takeout" in
  let existing := if empty_before then None else old in
  let d := default ∅ existing in
  let '(ignore_patterns, log) := get_ignored_patterns ignore in
  let out := out ++ log
    ++ [Print ("  - Loaded " +:+ pretty (size ignore_patterns) +:+ " ignore patterns.")] in
  let file_paths := build_index ignore_patterns root_dir t in
  let d := <[guide_name := Written (guide_text ignore_patterns root_dir t)]> d in
  let '(d, copied_files_count) := copy_all root_dir file_paths d in
  let out := out ++ [Print ("  - Copied " +:+ pretty copied_files_count +:+ " files.")] in
  d ← (if convert_to_txt then convert_all (listdir d) d else Some d);
  let out := if convert_to_txt
             then out ++ [Print "  - Converting files to .txt format..."] else out in
  let success_message := "Project takeout created successfully in:" +:+ Py.nl +:+ takeout_dir in
  let scheduled := bool_decide (0 < delete_timer)%Qc in
  let out := if scheduled then out ++ [ThreadStart true takeout_dir delete_timer] else out in
  let success_message :=
    if scheduled
    then success_message +:+ Py.nl +:+ Py.nl
         +:+ "NOTE: This folder will be automatically deleted in "
         +:+ str_float delete_timer +:+ " seconds."
    else success_message in
  Some (Result d copied_files_count
          (out ++ [if use_gui then ShowInfo "Success" success_message
                   else Print (Py.nl +:+ success_message)])).

(** *** The run in stages *)

(** The folder and the counter when the copies are done. *)
Definition staged (root_dir : string) (t : tree) (ignore : ignore_file)
    (old : option folder) (empty_before : bool) : folder * nat :=
  let ignore_patterns := (get_ignored_patterns ignore).1 in
  copy_all root_dir (build_index ignore_patterns root_dir t)
    (<[guide_name := Written (guide_text ignore_patterns root_dir t)]>
       (default ∅ (if empty_before then None else old))).

(** The message that closes a run. *)
Definition success_message (root_dir : string) (delete_timer : Qc) : string :=
  "Project takeout created successfully in:" +:+ Py.nl +:+ Path.join root_dir ".takeout"
  +:+ (if bool_decide (0 < delete_timer)%Qc
       then Py.nl +:+ Py.nl +:+ "NOTE: This folder will be automatically deleted in "
            +:+ str_float delete_timer +:+ " seconds."
       else "").

(** Everything a run that returns has shown, in order. *)
Definition run_output (root_dir : string) (ignore : ignore_file)
    (convert_to_txt empty_before : bool) (delete_timer : Qc) (use_gui : bool)
    (copied_files_count : nat) : list event :=
  [Print "Starting takeout process...";
   Print ("  - Project Directory: " +:+ root_dir);
   Print ("  - Convert to .txt: " +:+ Py.str_bool convert_to_txt);
   Print ("  - Empty before process: " +:+ Py.str_bool empty_before);
   Print ("  - Auto-delete timer: " +:+ str_float delete_timer +:+ "s")]
  ++ (get_ignored_patterns ignore).2
  ++ [Print ("  - Loaded " +:+ pretty (size (get_ignored_patterns ignore).1)
             +:+ " ignore patterns.");
      Print ("  - Copied " +:+ pretty copied_files_count +:+ " files.")]
  ++ (if convert_to_txt then [Print "  - Converting files to .txt format..."] else [])
  ++ (if bool_decide (0 < delete_timer)%Qc
      then [ThreadStart true (Path.join root_dir ".takeout") delete_timer] else [])
  ++ [if use_gui then ShowInfo "Success" (success_message root_dir delete_timer)
      else Print (Py.nl +:+ success_message root_dir delete_timer)].

End Run.


(** ** Well-formed trees *)

(** A name that a directory entry can bear: not empty, neither [.] nor
    [..], and free of the separator. *)
Definition valid_name (a : string) : bool :=
  negb (bool_decide (a = "")) && negb (bool_decide (a = "."))
  && negb (bool_decide (a = "..")) && bool_decide (Py.count Path.sep a = 0).

Fixpoint well_formed (t : tree) : bool :=
  match t with
  | Dir files subdirs =>
      forallb valid_name files
      && forallb (λ sub, valid_name sub.1 && well_formed sub.2) subdirs
  end.


(** ** The run and the failures of its calls on files *)

(** No name of the tree is refused by the encoder. *)
Fixpoint encodable (t : tree) : bool :=
  match t with
  | Dir files subdirs =>
      forallb Utf8.valid files
      && forallb (λ sub, Utf8.valid sub.1 && encodable sub.2) subdirs
  end.

(** [f.write(text)] on a file opened with [encoding='utf-8']: the text
    written so far, or [None] once a call has raised UnicodeEncodeError. *)
Definition f_write (written : option string) (text : string) : option string :=
  w ← written; if Utf8.valid text then Some (w +:+ text) else None.

Section Files.

Context (cwd : string) (str_float : Qc → string) (listdir : folder → list string).

(** Whether [shutil.copy2] can read the file at a path; it raises
    otherwise. *)
Context (readable : string → bool).

(** The block that writes [structure_guide.txt], call by call. *)
Definition write_guide (ignore_patterns : gset string) (root_dir : string) (t : tree)
    : option string :=
  foldl f_write (Some "")
    (("Project Structure for: " +:+ Path.basename root_dir +:+ Py.nl +:+ Py.nl)
     :: (render <$> guide_lines cwd ignore_patterns root_dir t)).

(** [create_takeout] with the exceptions of its calls on files: the run
    raises when a line of the guide cannot be encoded or when a file to
    copy cannot be read, and goes as [create_takeout] otherwise. *)
Definition create_takeout_io (root_dir : string) (t : tree) (ignore : ignore_file)
    (old : option folder) (convert_to_txt empty_before : bool) (delete_timer : Qc)
    (use_gui : bool) : option result :=
  let ignore_patterns := (get_ignored_patterns ignore).1 in
  _ ← write_guide ignore_patterns root_dir t;
  if forallb (λ c, readable c.1)
       (flat_map (group_copies cwd root_dir) (build_index ignore_patterns root_dir t))
  then create_takeout cwd str_float listdir root_dir t ignore old convert_to_txt
         empty_before delete_timer use_gui
  else None.

End Files.


(** ** Paths and directories of a tree *)

(** The components that [normpath] keeps of an absolute path. *)
Definition parts (p : string) : list string :=
  foldl Path.norm_step [] (Py.split Path.sep p).

(** What [join] puts between its arguments. *)
Definition glue (x : string) : string :=
  if bool_decide (x = "") || Py.endswith x "/" then "" else "/".

(** What [abspath] puts before its argument. *)
Definition pfx (cwd p : string) : string :=
  if Py.startswith p "/" then "" else cwd +:+ glue cwd.

(** A path made of names ends with a name. *)
Definition ends_plain (x : string) : Prop := x ≠ "" ∧ Py.endswith x "/" = false.

(** The name under which a file [f] found in the directory of components
    [ds] below the root is copied when its base name is shared: the
    components and the name, joined by underscores; at the root the only
    component is [.]. *)
Definition flat_name (ds : list string) (f : string) : string :=
  String.concat "_" (match ds with [] => ["."] | _ => ds end ++ [f]).

Definition files_of (t : tree) : list string :=
  match t with Dir files _ => files end.

Definition subdirs_of (t : tree) : list (string * tree) :=
  match t with Dir _ subdirs => subdirs end.

(** [at_path t ds t']: going down from [t] through the sub-directories
    named [ds], in that order, leads to the directory [t']. *)
Inductive at_path : tree → list string → tree → Prop :=
| at_here t : at_path t [] t
| at_sub t d sub ds t' :
    (d, sub) ∈ subdirs_of t → at_path sub ds t' → at_path t (d :: ds) t'.

(** The tree without its directories named [.git] or [.takeout], at every
    depth. *)
Fixpoint without_vcs (t : tree) : tree :=
  match t with
  | Dir files subdirs =>
      Dir files
        (flat_map (λ sub, if bool_decide (sub.1 ∈ [".git"; ".takeout"]) then []
                          else [(sub.1, without_vcs sub.2)]) subdirs)
  end.

(** ** Views of the index and of the listing *)

(** The files that the first walk records, in order: base name and path. *)
Definition index_entries (ignore_patterns : gset string) (items : list walk_item)
    : list (string * string) :=
  flat_map (λ it, (λ f, (f, Path.join (dirpath it) f))
                    <$> filter (λ f, negb (ignored_file ignore_patterns f)) (filenames it))
           items.

(** The paths recorded under the base name [k], in order. *)
Definition group_of (k : string) (entries : list (string * string)) : list string :=
  snd <$> filter (λ e, e.1 = k) entries.

Definition add_entry (file_paths : index) (e : string * string) : index :=
  index_add e.1 e.2 file_paths.

(** [os.listdir] gives the name of every entry once, in some order. *)
Definition lists_entries (listdir : folder → list string) : Prop :=
  ∀ d, NoDup (listdir d) ∧ ∀ n, n ∈ listdir d ↔ is_Some (d !! n).

(** A listing in lexicographic order, as some file systems give it. *)
Definition sorted_listdir (d : folder) : list string :=
  merge_sort String.le (elements (dom d)).

(** ** The claims in the words of the specification *)

(** The lines of the guide as the specification words them: for the
    directory [name] at [depth], its line, then its surviving files in
    lexicographic order one level deeper, then the same for each
    sub-directory that is not pruned. *)
Fixpoint guide_of (ignore_patterns : gset string) (depth : nat) (name : string)
    (t : tree) : list guide_line :=
  match t with
  | Dir files subdirs =>
      DirLine depth name
      :: (FileLine (S depth)
            <$> merge_sort String.le
                  (filter (λ file, negb (ignored_file ignore_patterns file)) files))
      ++ flat_map (λ sub, if keep_dir ignore_patterns sub.1
                          then guide_of ignore_patterns (S depth) sub.1 sub.2 else [])
                  subdirs
  end.

(** The patterns as the claim words them: each line gives its trimmed
    text, unless that text is empty or starts with [#]. *)
Definition patterns_as_claimed (ls : list string) : gset string :=
  list_to_set (filter (λ p, p ≠ "" ∧ Py.startswith p "#" = false) (Py.strip <$> ls)).

(** ** Projects used as examples *)

(** The tree holding exactly [a/x.txt] and [b/x.txt]. *)
Definition two_dirs : tree :=
  Dir [] [("a", Dir ["x.txt"] []); ("b", Dir ["x.txt"] [])].

(** A project that holds [notes] next to [notes.txt]. *)
Definition siblings : tree := Dir ["notes"; "notes.txt"] [].

(** A project whose only file is [structure_guide], without extension. *)
Definition bare_guide : tree := Dir ["structure_guide"] [].


(** A project whose ignore file is there but cannot be read. *)
Definition guarded : tree := Dir [".takeoutignore"; "a.txt"] [].

(** The tree holding exactly [a/x], [b/x] and [c/x]. *)
Definition three_dirs : tree :=
  Dir [] [("a", Dir ["x"] []); ("b", Dir ["x"] []); ("c", Dir ["x"] [])].

(** ** The command line *)

(** The configuration at the head of the script. *)
Definition USE_GUI : bool := false.
Definition CONVERT_TO_TXT_NO_GUI_DEFAULT : bool := true.
Definition AUTO_DELETE_TIMER_SECONDS : Qc := 0%Qc.

(** What [parser.parse_args()] gives: the flags [--gui], [--no-gui] and
    [--convert-txt], the value of [--timer] when it is given (a finite
    number here), and [empty_flag], which [--no-empty] makes false. *)
Record args : Type := Args {
  gui : bool;
  no_gui : bool;
  convert_txt : bool;
  timer : option Qc;
  empty_flag : bool
}.

Definition run_with_gui (a : args) : bool :=
  if gui a then true else if no_gui a then false else USE_GUI.

(** How the script goes on: with [setup_gui()], or with a run on
    [os.getcwd()], of which the result is [None] when an exception left
    [create_takeout] and was printed. *)
Inductive launch : Type :=
| Gui
| Cli (r : option result).

Section Main.

Context (cwd : string) (str_float : Qc → string) (listdir : folder → list string).
Context (readable : string → bool).

Definition main (a : args) (t : tree) (ignore : ignore_file) (old : option folder)
    : launch :=
  if run_with_gui a then Gui
  else
    let project_dir := cwd in
    let convert := convert_txt a || CONVERT_TO_TXT_NO_GUI_DEFAULT in
    let empty_before_run := empty_flag a in
    let delete_timer_run :=
      match timer a with
      | Some seconds => seconds
      | None => AUTO_DELETE_TIMER_SECONDS
      end in
    Cli (create_takeout_io cwd str_float listdir readable project_dir t ignore old convert
           empty_before_run delete_timer_run false).

End Main.

(** ** Views of a tree and of the guide *)

(** The tree without the directories that a walk keeping [keep] does not
    enter, at every depth. *)
Fixpoint pruned (keep : string → bool) (t : tree) : tree :=
  match t with
  | Dir files subdirs =>
      Dir files
        (flat_map (λ sub, if keep sub.1 then [(sub.1, pruned keep sub.2)] else []) subdirs)
  end.

(** The lines of the guide that name a file, and those that name a
    directory. *)
Definition is_file_line (l : guide_line) : bool :=
  match l with
  | FileLine _ _ => true
  | DirLine _ _ => false
  end.

Definition is_dir_line (l : guide_line) : bool :=
  match l with
  | DirLine _ _ => true
  | FileLine _ _ => false
  end.

(** A name without underscore. *)
Definition plain (a : string) : bool := bool_decide (Py.count "_" a = 0).

(** No file and no directory of the tree has an underscore in its name. *)
Fixpoint plain_names (t : tree) : bool :=
  match t with
  | Dir files subdirs =>
      forallb plain files && forallb (λ sub, plain sub.1 && plain_names sub.2) subdirs
  end.

(** ** Induction on trees *)

Lemma tree_induction (P : tree → Prop) :
  (∀ files subdirs, Forall (λ sub, P sub.2) subdirs → P (Dir files subdirs)) →
  ∀ t, P t.
Proof.
  intros step. fix IH 1. intros [files subdirs]. apply step.
  induction subdirs as [|sub rest IHrest]; constructor; [apply IH | apply IHrest].
Qed.

(** ** Facts on strings *)

Lemma sapp_nil_l (s : string) : "" +:+ s = s.
Proof. reflexivity. Qed.

Lemma sapp_cons (a : ascii) (s t : string) : String a s +:+ t = String a (s +:+ t).
Proof. reflexivity. Qed.

Lemma sapp_nil_r (s : string) : s +:+ "" = s.
Proof. induction s as [|a s IH]; [done|]. by rewrite sapp_cons, IH. Qed.

Lemma sapp_assoc (s t u : string) : (s +:+ t) +:+ u = s +:+ t +:+ u.
Proof. induction s as [|a s IH]; [done|]. by rewrite !sapp_cons, IH. Qed.

Lemma sapp_length (s t : string) :
  String.length (s +:+ t) = String.length s + String.length t.
Proof. induction s as [|a s IH]; [done|]. rewrite sapp_cons. simpl. by rewrite IH. Qed.

Lemma sapp_eq_nil (s t : string) : s +:+ t = "" → s = "" ∧ t = "".
Proof. destruct s; [done|]. by rewrite sapp_cons. Qed.

Lemma count_app (c : ascii) (s t : string) :
  Py.count c (s +:+ t) = Py.count c s + Py.count c t.
Proof.
  induction s as [|a s IH]; [done|]. rewrite sapp_cons. simpl. rewrite IH. lia.
Qed.

Lemma split_nonempty (c : ascii) (s : string) : Py.split c s ≠ [].
Proof.
  destruct s as [|a s]; [done|]. simpl. case_bool_decide; [done|].
  by destruct (Py.split c s).
Qed.

Lemma split_app (c : ascii) (s t : string) :
  Py.split c (s +:+ String c t) = Py.split c s ++ Py.split c t.
Proof.
  induction s as [|a s IH].
  - rewrite sapp_nil_l. simpl. by rewrite bool_decide_eq_true_2.
  - rewrite sapp_cons. simpl. rewrite IH. case_bool_decide; [done|].
    pose proof (split_nonempty c s). by destruct (Py.split c s).
Qed.

Lemma split_plain (c : ascii) (a : string) : Py.count c a = 0 → Py.split c a = [a].
Proof.
  induction a as [|d a IH]; [done|]. simpl. case_bool_decide; [done|].
  intros Hc. by rewrite IH.
Qed.

Lemma split_repeat (c : ascii) (s : string) (k : nat) :
  Py.split c (s +:+ Py.repeat (String c "") k) = Py.split c s ++ replicate k "".
Proof.
  revert s. induction k as [|k IH]; intros s.
  - simpl. by rewrite sapp_nil_r, app_nil_r.
  - simpl. rewrite sapp_cons, sapp_nil_l, split_app.
    specialize (IH ""). rewrite sapp_nil_l in IH. by rewrite IH.
Qed.

Lemma rfind1_app (c : ascii) (s a : string) :
  Py.count c a = 0 → Py.rfind1 c (s +:+ String c a) = S (String.length s).
Proof.
  intros Ha. assert (Py.rfind1 c a = 0) as Hr.
  { induction a as [|d a IH]; [done|]. simpl in *. case_bool_decide; [done|].
    by rewrite IH. }
  induction s as [|d s IH].
  - rewrite sapp_nil_l. simpl. by rewrite Hr, bool_decide_eq_true_2.
  - rewrite sapp_cons. simpl. by rewrite IH.
Qed.

Lemma take_app (s t : string) : Py.take (String.length s) (s +:+ t) = s.
Proof.
  induction s as [|a s IH]; [by destruct t|]. rewrite sapp_cons. simpl. by rewrite IH.
Qed.

Lemma drop_app (s t : string) : Py.drop (String.length s) (s +:+ t) = t.
Proof. induction s as [|a s IH]; [done|]. by rewrite sapp_cons. Qed.

Lemma endswith_app (s p : string) : Py.endswith (s +:+ p) p = true.
Proof.
  induction s as [|a s IH].
  - rewrite sapp_nil_l. destruct p; cbn [Py.endswith]; by rewrite bool_decide_eq_true_2.
  - rewrite sapp_cons. cbn [Py.endswith]. rewrite IH. apply orb_true_r.
Qed.

Lemma endswith_inv (s p : string) : Py.endswith s p = true → ∃ x, s = x +:+ p.
Proof.
  induction s as [|a s IH]; simpl.
  - rewrite orb_false_r. intros ->%bool_decide_eq_true. by exists "".
  - intros [->%bool_decide_eq_true|H]%orb_true_iff; [by exists ""|].
    destruct (IH H) as [x ->]. by exists (String a x).
Qed.

Lemma endswith_plain (s a : string) (c : ascii) :
  a ≠ "" → Py.count c a = 0 → Py.endswith (s +:+ a) (String c "") = false.
Proof.
  intros Ha Hc. apply not_true_is_false. intros [x Hx]%endswith_inv.
  revert x Hx. induction s as [|z s IH]; intros x Hx.
  - rewrite sapp_nil_l in Hx. subst a. rewrite count_app in Hc. simpl in Hc.
    rewrite bool_decide_eq_true_2 in Hc by done. lia.
  - rewrite sapp_cons in Hx. destruct x as [|y x].
    + rewrite sapp_nil_l in Hx. injection Hx as _ Hx.
      by apply sapp_eq_nil in Hx as [_ ?].
    + rewrite sapp_cons in Hx. injection Hx as _ Hx. eauto.
Qed.


Lemma endswith_sep_app (p d : string) (c : ascii) :
  d ≠ "" → Py.endswith (p +:+ d) (String c "") = Py.endswith d (String c "").
Proof.
  intros Hd. induction p as [|a p IH]; [done|].
  rewrite sapp_cons. cbn [Py.endswith]. rewrite IH.
  rewrite bool_decide_eq_false_2; [done|].
  intros [= _ H]. by apply sapp_eq_nil in H as [_ ?].
Qed.

Lemma startswith_plain (a : string) (c : ascii) :
  Py.count c a = 0 → Py.startswith a (String c "") = false.
Proof.
  destruct a as [|d a]; [done|]. simpl. case_bool_decide; [done|].
  intros _. rewrite bool_decide_eq_false_2; [done|congruence].
Qed.

Lemma startswith_app (d s : string) (c : ascii) :
  d ≠ "" → Py.startswith (d +:+ s) (String c "") = Py.startswith d (String c "").
Proof.
  destruct d as [|a d]; [done|]. intros _. rewrite sapp_cons. simpl.
  by destruct (d +:+ s), d.
Qed.

Lemma repeat_S (c : ascii) (k : nat) :
  Py.repeat (String c "") (S k) = String c (Py.repeat (String c "") k).
Proof. reflexivity. Qed.

Lemma repeat_snoc (c : ascii) (k : nat) :
  Py.repeat (String c "") k +:+ String c "" = Py.repeat (String c "") (S k).
Proof.
  induction k as [|k IH]; [done|]. by rewrite !repeat_S, sapp_cons, IH, repeat_S.
Qed.

Lemma rstrip_char_decomp (c : ascii) (s : string) :
  ∃ k, s = Py.rstrip_char c s +:+ Py.repeat (String c "") k.
Proof.
  induction s as [|d s [k IH]]; [by exists 0|]. simpl.
  destruct (Py.rstrip_char c s) as [|e r] eqn:Hr.
  - rewrite sapp_nil_l in IH. case_bool_decide as Hd.
    + subst d. exists (S k). by rewrite sapp_nil_l, repeat_S, <-IH.
    + exists k. by rewrite sapp_cons, sapp_nil_l, <-IH.
  - exists k. by rewrite sapp_cons, <-IH.
Qed.

Lemma rstrip_char_snoc (c : ascii) (s : string) :
  Py.rstrip_char c (s +:+ String c "") = Py.rstrip_char c s.
Proof.
  induction s as [|d s IH].
  - rewrite sapp_nil_l. simpl. by rewrite bool_decide_eq_true_2.
  - rewrite sapp_cons. simpl. by rewrite IH.
Qed.

Lemma rstrip_char_repeat (c : ascii) (k : nat) :
  Py.rstrip_char c (Py.repeat (String c "") k) = "".
Proof.
  induction k as [|k IH]; [done|]. rewrite repeat_S. simpl.
  by rewrite IH, bool_decide_eq_true_2.
Qed.

Lemma repeat_length (c : ascii) (k : nat) :
  String.length (Py.repeat (String c "") k) = k.
Proof. induction k as [|k IH]; [done|]. rewrite repeat_S. simpl. by rewrite IH. Qed.

Lemma replace_app (c r : ascii) (s t : string) :
  Py.replace c r (s +:+ t) = Py.replace c r s +:+ Py.replace c r t.
Proof.
  induction s as [|a s IH]; [done|]. rewrite sapp_cons. simpl.
  by rewrite IH, sapp_cons.
Qed.

Lemma replace_plain (c r : ascii) (a : string) :
  Py.count c a = 0 → Py.replace c r a = a.
Proof.
  induction a as [|d a IH]; [done|]. simpl. case_bool_decide; [done|].
  intros Hc. by rewrite IH.
Qed.

Lemma valid_name_spec (a : string) :
  valid_name a = true ↔ a ≠ "" ∧ a ≠ "." ∧ a ≠ ".." ∧ Py.count Path.sep a = 0.
Proof.
  unfold valid_name. rewrite !andb_true_iff, !negb_true_iff, !bool_decide_eq_false,
    bool_decide_eq_true. tauto.
Qed.

(** ** Text that can be encoded *)

Lemma valid_app (s t : string) :
  Utf8.valid s = true → Utf8.valid t = true → Utf8.valid (s +:+ t) = true.
Proof.
  intros Hs Ht.
  assert (∀ n s, String.length s ≤ n → Utf8.valid s = true →
                 Utf8.valid (s +:+ t) = true) as Hn;
    [|by apply (Hn (String.length s))].
  clear s Hs. intros n. induction n as [|n IH]; intros s Hle Hs.
  { destruct s; [done|simpl in Hle; lia]. }
  destruct s as [|a s1]; [done|]. rewrite sapp_cons. cbn [Utf8.valid] in *. cbn in Hle.
  destruct (nat_of_ascii a <=? 127); [apply IH; [lia|done]|].
  destruct s1 as [|b s2]; [done|]. rewrite sapp_cons. cbn in Hle.
  destruct ((194 <=? nat_of_ascii a) && (nat_of_ascii a <=? 223)).
  { apply andb_true_iff in Hs as [-> Hs]. apply IH; [lia|done]. }
  destruct s2 as [|c s3]; [done|]. rewrite sapp_cons. cbn in Hle.
  destruct ((224 <=? nat_of_ascii a) && (nat_of_ascii a <=? 239)).
  { apply andb_true_iff in Hs as [-> Hs]. apply IH; [lia|done]. }
  destruct s3 as [|d s4]; [done|]. rewrite sapp_cons. cbn in Hle.
  apply andb_true_iff in Hs as [-> Hs]. apply IH; [lia|done].
Qed.

Lemma valid_repeat (c : string) (n : nat) :
  Utf8.valid c = true → Utf8.valid (Py.repeat c n) = true.
Proof. intros Hc. induction n as [|n IH]; [done|]. cbn. by apply valid_app. Qed.

(** ** Facts on paths *)

Lemma join_glue (x y : string) :
  Py.startswith y "/" = false → Path.join x y = x +:+ glue x +:+ y.
Proof.
  intros Hy. unfold Path.join, glue. rewrite Hy.
  by destruct (bool_decide (x = "") || Py.endswith x "/").
Qed.

Lemma glue_pfx (cwd p : string) : glue (pfx cwd p) = "".
Proof.
  unfold pfx. destruct (Py.startswith p "/"); [done|].
  unfold glue at 2. destruct (bool_decide (cwd = "")) eqn:Hc; simpl.
  { apply bool_decide_eq_true in Hc as ->. done. }
  destruct (Py.endswith cwd "/") eqn:He.
  - rewrite sapp_nil_r. unfold glue. by rewrite He, orb_true_r.
  - unfold glue. by rewrite endswith_app, orb_true_r.
Qed.

Lemma abs_parts_pfx (cwd p : string) :
  Path.abs_parts cwd p = parts (pfx cwd p +:+ p).
Proof.
  unfold Path.abs_parts, parts, pfx. destruct (Py.startswith p "/") eqn:Hp; [done|].
  by rewrite join_glue, sapp_assoc.
Qed.

Lemma sapp_one (c : ascii) (a : string) : String c "" +:+ a = String c a.
Proof. reflexivity. Qed.

Lemma parts_snoc (q a : string) :
  valid_name a = true → parts (q +:+ "/" +:+ a) = parts q ++ [a].
Proof.
  intros (Ha1 & Ha2 & Ha3 & Ha4)%valid_name_spec. unfold parts.
  rewrite sapp_one. unfold Path.sep in *.
  rewrite split_app, foldl_app, (split_plain _ a Ha4). simpl.
  unfold Path.norm_step at 1. by rewrite !bool_decide_eq_false_2.
Qed.

Lemma parts_repeat (q : string) (k : nat) :
  parts (q +:+ Py.repeat "/" k) = parts q.
Proof.
  unfold parts, Path.sep. rewrite split_repeat, foldl_app.
  generalize (foldl Path.norm_step [] (Py.split "/" q)).
  induction k as [|k IH]; [done|]. intros l. simpl. apply IH.
Qed.

Lemma parts_slash (q : string) : parts (q +:+ "/") = parts q.
Proof. apply (parts_repeat q 1). Qed.

Lemma parts_glue (x a : string) :
  valid_name a = true → parts (x +:+ glue x +:+ a) = parts x ++ [a].
Proof.
  intros Ha. unfold glue. destruct (bool_decide (x = "")) eqn:Hx; simpl.
  { apply bool_decide_eq_true in Hx as ->. rewrite !sapp_nil_l.
    apply valid_name_spec in Ha as Hv. unfold parts.
    rewrite split_plain by tauto. simpl. unfold Path.norm_step.
    by rewrite !bool_decide_eq_false_2 by tauto. }
  destruct (Py.endswith x "/") eqn:He.
  - apply endswith_inv in He as [x' ->]. rewrite sapp_nil_l, sapp_assoc, parts_slash.
    by apply parts_snoc.
  - by apply parts_snoc.
Qed.

Lemma glue_app (p d : string) : d ≠ "" → glue (p +:+ d) = glue d.
Proof.
  intros Hd. unfold glue. rewrite endswith_sep_app by done.
  rewrite !bool_decide_eq_false_2; [done..|].
  by intros [_ ?]%sapp_eq_nil.
Qed.

Lemma pfx_app (cwd d s : string) : d ≠ "" → pfx cwd (d +:+ s) = pfx cwd d.
Proof. intros Hd. unfold pfx. by rewrite startswith_app. Qed.

Lemma abs_parts_join (cwd d a : string) :
  valid_name a = true → Path.abs_parts cwd (Path.join d a) = Path.abs_parts cwd d ++ [a].
Proof.
  intros Ha. apply valid_name_spec in Ha as Hv.
  rewrite join_glue by (apply startswith_plain; tauto).
  rewrite !abs_parts_pfx. destruct (decide (d = "")) as [->|Hd].
  - rewrite !sapp_nil_l, sapp_nil_r.
    assert (pfx cwd a = pfx cwd "") as ->.
    { unfold pfx. by rewrite startswith_plain by tauto. }
    rewrite <-(parts_glue _ a Ha). by rewrite glue_pfx, sapp_nil_l.
  - rewrite pfx_app by done. rewrite <-(parts_glue _ a Ha).
    by rewrite glue_app, !sapp_assoc.
Qed.

Lemma abs_parts_joins (cwd top : string) (ds : list string) :
  Forall (λ d, valid_name d = true) ds →
  Path.abs_parts cwd (foldl Path.join top ds) = Path.abs_parts cwd top ++ ds.
Proof.
  intros Hds. revert top. induction Hds as [|d ds Hd _ IH]; intros top; simpl.
  - by rewrite app_nil_r.
  - by rewrite IH, abs_parts_join, <-app_assoc.
Qed.

Lemma glue_ends (d : string) : d ≠ "" → ∃ h, d +:+ glue d = h +:+ "/".
Proof.
  intros Hd. unfold glue. rewrite bool_decide_eq_false_2 by done. simpl.
  destruct (Py.endswith d "/") eqn:He; [|by eexists].
  apply endswith_inv in He as [h ->]. exists h. by rewrite sapp_nil_r.
Qed.

Lemma rstrip_glue (d : string) :
  Py.rstrip_char "/" (d +:+ glue d) = Py.rstrip_char "/" d.
Proof.
  unfold glue. destruct (bool_decide (d = "") || Py.endswith d "/").
  - by rewrite sapp_nil_r.
  - apply rstrip_char_snoc.
Qed.

Lemma head_join (d a : string) :
  d ≠ "" → Py.count "/" a = 0 →
  Py.take (Py.rfind1 "/" (d +:+ glue d +:+ a)) (d +:+ glue d +:+ a) = d +:+ glue d.
Proof.
  intros Hd Ha. destruct (glue_ends d Hd) as [h Hh].
  rewrite <-sapp_assoc, Hh, sapp_assoc, sapp_one, rfind1_app by done.
  replace (S (String.length h)) with (String.length (h +:+ "/"))
    by (rewrite sapp_length; simpl; lia).
  rewrite <-(sapp_one "/" a), <-sapp_assoc. apply take_app.
Qed.

Lemma abs_parts_dirname (cwd d a : string) :
  d ≠ "" → valid_name a = true →
  Path.abs_parts cwd (Path.dirname (Path.join d a)) = Path.abs_parts cwd d.
Proof.
  intros Hd (Ha1 & Ha2 & Ha3 & Ha4)%valid_name_spec.
  rewrite join_glue by (by apply startswith_plain).
  unfold Path.dirname, Path.sep. rewrite head_join by done.
  destruct (rstrip_char_decomp "/" d) as [k Hk].
  destruct (Py.rstrip_char "/" d) as [|e r] eqn:Hr.
  - rewrite sapp_nil_l in Hk. destruct k as [|k]; [done|]. clear Hr. subst d.
    assert (glue (Py.repeat "/" (S k)) = "") as ->.
    { unfold glue. by rewrite <-repeat_snoc, endswith_app, orb_true_r. }
    rewrite sapp_nil_r, repeat_length.
    rewrite (bool_decide_eq_true_2 (Py.repeat "/" (S k) = Py.repeat "/" (S k))) by done.
    by rewrite andb_false_r.
  - rewrite rstrip_glue, Hr.
    rewrite bool_decide_eq_false_2 by (by intros [? _]%sapp_eq_nil).
    rewrite bool_decide_eq_false_2.
    2:{ intros Hall. pose proof (rstrip_glue d) as Hg. rewrite Hall in Hg.
        rewrite rstrip_char_repeat in Hg. congruence. }
    simpl. rewrite Hk. rewrite !abs_parts_pfx, pfx_app by done.
    by rewrite <-sapp_assoc, parts_repeat.
Qed.

Lemma basename_join (d a : string) :
  valid_name a = true → Path.basename (Path.join d a) = a.
Proof.
  intros (Ha1 & Ha2 & Ha3 & Ha4)%valid_name_spec.
  rewrite join_glue by (by apply startswith_plain).
  unfold Path.basename, Path.sep in *. destruct (decide (d = "")) as [->|Hd].
  - rewrite !sapp_nil_l.
    assert (Py.rfind1 "/" a = 0) as ->; [|done].
    clear -Ha4. induction a as [|c a IH]; [done|]. simpl in *.
    case_bool_decide; [done|]. by rewrite IH.
  - destruct (glue_ends d Hd) as [h Hh].
    rewrite <-sapp_assoc, Hh, sapp_assoc, sapp_one, rfind1_app by done.
    replace (S (String.length h)) with (String.length (h +:+ "/"))
      by (rewrite sapp_length; simpl; lia).
    rewrite <-(sapp_one "/" a), <-sapp_assoc. apply drop_app.
Qed.

Lemma commonprefix_app (l ds : list string) : Path.commonprefix l (l ++ ds) = l.
Proof.
  induction l as [|x l IH]; [by destruct ds|]. simpl.
  by rewrite bool_decide_eq_true_2, IH.
Qed.

Lemma relpath_under (cwd path start : string) (ds : list string) :
  Path.abs_parts cwd path = Path.abs_parts cwd start ++ ds →
  Path.relpath cwd path start =
    match ds with [] => "." | c :: cs => foldl Path.join c cs end.
Proof.
  intros Hp. unfold Path.relpath. rewrite Hp, commonprefix_app, Nat.sub_diag.
  simpl. by rewrite drop_app_length.
Qed.

Lemma join_plain (x a : string) :
  ends_plain x → valid_name a = true →
  Path.join x a = x +:+ "/" +:+ a ∧ ends_plain (x +:+ "/" +:+ a).
Proof.
  intros [Hx He] (Ha1 & Ha2 & Ha3 & Ha4)%valid_name_spec. split.
  - rewrite join_glue by (by apply startswith_plain). unfold glue.
    by rewrite He, bool_decide_eq_false_2.
  - split; [by intros [? _]%sapp_eq_nil|].
    rewrite <-sapp_assoc. by apply endswith_plain.
Qed.

Lemma valid_ends_plain (a : string) : valid_name a = true → ends_plain a.
Proof.
  intros (Ha1 & Ha2 & Ha3 & Ha4)%valid_name_spec. split; [done|].
  by apply (endswith_plain "" a).
Qed.

Lemma sconcat_cons (s c d : string) (cs : list string) :
  String.concat s (c :: d :: cs) = c +:+ s +:+ String.concat s (d :: cs).
Proof. reflexivity. Qed.

Lemma joins_concat (x : string) (cs : list string) :
  ends_plain x → Forall (λ d, valid_name d = true) cs →
  foldl Path.join x cs = String.concat "/" (x :: cs).
Proof.
  intros Hx Hcs. revert x Hx. induction Hcs as [|c cs Hc _ IH]; intros x Hx; [done|].
  destruct (join_plain x c Hx Hc) as [Hj Hp]. cbn [foldl]. rewrite Hj, IH by done.
  rewrite sconcat_cons. destruct cs; [done|]. by rewrite !sconcat_cons, !sapp_assoc.
Qed.

Lemma joins_ends_plain (x : string) (cs : list string) :
  ends_plain x → Forall (λ d, valid_name d = true) cs → ends_plain (foldl Path.join x cs).
Proof.
  intros Hx Hcs. revert x Hx. induction Hcs as [|c cs Hc _ IH]; intros x Hx; [done|].
  destruct (join_plain x c Hx Hc) as [Hj Hp]. cbn [foldl]. rewrite Hj. by apply IH.
Qed.

Lemma concat_count (c : string) (cs : list string) :
  Forall (λ d, valid_name d = true) (c :: cs) →
  Py.count "/" (String.concat "/" (c :: cs)) = length cs.
Proof.
  revert c. induction cs as [|d cs IH]; intros c Hv.
  - apply Forall_inv in Hv. by apply valid_name_spec in Hv as (_ & _ & _ & ?).
  - inversion Hv as [|?? Hc Hcs]; subst. rewrite sconcat_cons.
    rewrite !count_app, IH by done.
    apply valid_name_spec in Hc as (_ & _ & _ & Hc). unfold Path.sep in Hc.
    rewrite Hc. simpl. done.
Qed.

Lemma concat_not_dot (c : string) (cs : list string) :
  Forall (λ d, valid_name d = true) (c :: cs) → String.concat "/" (c :: cs) ≠ ".".
Proof.
  intros Hv Heq. destruct cs as [|d cs].
  - apply Forall_inv in Hv. apply valid_name_spec in Hv. simpl in Heq. tauto.
  - pose proof (concat_count c (d :: cs) Hv) as Hn. by rewrite Heq in Hn.
Qed.

Lemma replace_concat (l : list string) :
  Forall (λ d, valid_name d = true) l →
  Py.replace "/" "_" (String.concat "/" l) = String.concat "_" l.
Proof.
  induction 1 as [|c cs Hc Hcs IH]; [done|].
  apply valid_name_spec in Hc as (_ & _ & _ & Hc).
  destruct cs as [|d cs]; [by apply replace_plain|].
  by rewrite !sconcat_cons, !replace_app, IH, replace_plain.
Qed.

Lemma concat_snoc (s : string) (c : string) (cs : list string) (f : string) :
  String.concat s ((c :: cs) ++ [f]) = String.concat s (c :: cs) +:+ s +:+ f.
Proof.
  revert c. induction cs as [|d cs IH]; intros c; [done|].
  change (String.concat s ((c :: d :: cs) ++ [f]))
    with (c +:+ s +:+ String.concat s ((d :: cs) ++ [f])).
  by rewrite IH, sconcat_cons, !sapp_assoc.
Qed.

Section PathsBelowRoot.

Context (cwd root_dir : string).

Lemma level_depth (root : string) (ds : list string) :
  Path.abs_parts cwd root = Path.abs_parts cwd root_dir ++ ds →
  Forall (λ d, valid_name d = true) ds →
  level cwd root_dir root = length ds.
Proof.
  intros Hp Hv. unfold level. rewrite (relpath_under _ _ _ ds Hp).
  destruct ds as [|c cs]; [done|].
  inversion Hv as [|?? Hc Hcs]; subst.
  rewrite joins_concat by auto using valid_ends_plain.
  rewrite bool_decide_eq_false_2 by by apply concat_not_dot.
  unfold Path.sep. rewrite concat_count by done. simpl. lia.
Qed.

Lemma unique_name_flat (d f : string) (ds : list string) :
  d ≠ "" →
  Path.abs_parts cwd d = Path.abs_parts cwd root_dir ++ ds →
  Forall (λ d, valid_name d = true) ds →
  valid_name f = true →
  unique_name cwd root_dir (Path.join d f) f = flat_name ds f.
Proof.
  intros Hd Hp Hv Hf. unfold unique_name, flat_name.
  rewrite (relpath_under _ _ _ ds) by by rewrite abs_parts_dirname.
  apply valid_name_spec in Hf as Hf'. destruct ds as [|c cs].
  - assert (ends_plain ".") as Hdot by done.
    destruct (join_plain "." f Hdot Hf) as [-> _].
    rewrite !replace_app, (replace_plain _ _ f) by tauto. done.
  - inversion Hv as [|?? Hc Hcs]; subst.
    rewrite joins_concat by auto using valid_ends_plain.
    assert (ends_plain (String.concat "/" (c :: cs))) as Hplain.
    { rewrite <-joins_concat by auto using valid_ends_plain.
      auto using joins_ends_plain, valid_ends_plain. }
    destruct (join_plain _ f Hplain Hf) as [-> _].
    rewrite concat_snoc, !replace_app, replace_concat, (replace_plain _ _ f) by tauto.
    done.
Qed.

End PathsBelowRoot.

(** ** Directories of a tree *)

Lemma walk_items (keep : string → bool) (top : string) (t : tree) (it : walk_item) :
  it ∈ walk keep top t ↔
  ∃ ds t', at_path t ds t' ∧ Forall (λ d, keep d = true) ds
           ∧ it = WalkItem (foldl Path.join top ds)
                           (filter (λ d, keep d) (subdirs_of t').*1) (files_of t').
Proof.
  revert top it. induction t as [files subdirs IH] using tree_induction; intros top it.
  cbn [walk]. rewrite elem_of_cons, list_elem_of_In, in_flat_map. split.
  - intros [->|(sub & Hsub & Hit)].
    + exists [], (Dir files subdirs). split_and!; [constructor|done..].
    + destruct (keep sub.1) eqn:Hk; [|by destruct Hit].
      apply list_elem_of_In in Hsub, Hit.
      rewrite Forall_forall in IH. apply (IH sub Hsub) in Hit as (ds & t' & Hat & Hds & ->).
      exists (sub.1 :: ds), t'. split_and!; [|by constructor|done].
      apply at_sub with sub.2; [by destruct sub|done].
  - intros (ds & t' & Hat & Hds & ->). inversion Hat as [|? d sub ds' ? Hin Hat']; subst.
    + by left.
    + right. exists (d, sub). apply list_elem_of_In in Hin as Hin'. split; [done|].
      inversion Hds as [|?? Hd Hds']; subst. cbn [fst snd]. rewrite Hd.
      apply list_elem_of_In. rewrite Forall_forall in IH.
      apply (IH (d, sub) Hin). eauto.
Qed.

Lemma at_path_well_formed (t t' : tree) (ds : list string) :
  at_path t ds t' → well_formed t = true →
  Forall (λ d, valid_name d = true) ds ∧ well_formed t' = true.
Proof.
  induction 1 as [|t d sub ds t' Hin _ IH]; [done|]. intros Hwf.
  destruct t as [files subdirs]. cbn in Hwf, Hin.
  apply andb_true_iff in Hwf as [_ Hsubs]. rewrite forallb_forall in Hsubs.
  apply list_elem_of_In, Hsubs, andb_true_iff in Hin as [Hd Hsub].
  destruct (IH Hsub). auto.
Qed.

Lemma walk_without_vcs (keep : string → bool) (top : string) (t : tree) :
  (∀ d, keep d = true → d ∉ [".git"; ".takeout"]) →
  walk keep top (without_vcs t) = walk keep top t.
Proof.
  intros Hkeep. revert top. induction t as [files subdirs IH] using tree_induction; intros top.
  cbn [walk without_vcs]. f_equal.
  - f_equal. clear IH. induction subdirs as [|[d sub] rest IHrest]; [done|].
    cbn [flat_map fst snd]. rewrite fmap_app, filter_app, IHrest, fmap_cons, filter_cons.
    case_bool_decide as Hd; cbn [fst].
    + destruct (keep d) eqn:Hk; [by apply Hkeep in Hk|done].
    + rewrite (fmap_cons fst), fmap_nil, (filter_cons _ d), filter_nil. cbn [fst].
      by destruct (decide (keep d)).
  - induction IH as [|[d sub] rest Hsub _ IHrest]; [done|].
    cbn [flat_map fst snd]. rewrite flat_map_app, IHrest.
    case_bool_decide as Hd; cbn [flat_map fst snd].
    + destruct (keep d) eqn:Hk; [by apply Hkeep in Hk|done].
    + rewrite app_nil_r. cbn in Hsub. by rewrite Hsub.
Qed.

Lemma keep_dir_not_vcs (ignore_patterns : gset string) (d : string) :
  keep_dir ignore_patterns d = true → d ∉ [".git"; ".takeout"].
Proof. unfold keep_dir. by intros [_ ?%bool_decide_eq_true]%andb_true_iff. Qed.

(** ** The index, entry by entry *)

Lemma index_item_entries (ignore_patterns : gset string) (items : list walk_item)
    (file_paths : index) :
  foldl (index_item ignore_patterns) file_paths items
  = foldl add_entry file_paths (index_entries ignore_patterns items).
Proof.
  revert file_paths. induction items as [|it items IH]; intros file_paths; [done|].
  cbn [foldl index_entries flat_map]. rewrite foldl_app, IH. f_equal.
  unfold index_item. generalize (dirpath it) as dp. intros dp.
  generalize (filenames it) as fs. intros fs. revert file_paths.
  induction fs as [|f fs IHfs]; intros file_paths; [done|].
  cbn [foldl]. rewrite IHfs, filter_cons. unfold index_file.
  destruct (ignored_file ignore_patterns f); [done|].
  by rewrite decide_True.
Qed.

Lemma index_lookup_add (k f p : string) (file_paths : index) :
  index_lookup k (index_add f p file_paths)
  = if decide (k = f) then Some (default [] (index_lookup f file_paths) ++ [p])
    else index_lookup k file_paths.
Proof.
  induction file_paths as [|[k' ps] rest IH]; simpl.
  - case_bool_decide; by case_decide.
  - case_bool_decide as Hk'; simpl.
    + subst k'. destruct (decide (k = f)) as [->|Hk].
      * by rewrite bool_decide_eq_true_2.
      * by rewrite bool_decide_eq_false_2.
    + rewrite IH. destruct (decide (k = f)) as [->|Hk].
      * by rewrite bool_decide_eq_false_2.
      * done.
Qed.

Lemma index_lookup_entries (k : string) (entries : list (string * string))
    (file_paths : index) :
  index_lookup k (foldl add_entry file_paths entries)
  = match index_lookup k file_paths, group_of k entries with
    | None, [] => None
    | o, g => Some (default [] o ++ g)
    end.
Proof.
  revert file_paths. induction entries as [|[f p] entries IH]; intros file_paths.
  - cbn. destruct (index_lookup k file_paths); [|done]. by rewrite app_nil_r.
  - cbn [foldl]. rewrite IH. unfold add_entry at 1. cbn [fst snd].
    rewrite index_lookup_add. unfold group_of. rewrite filter_cons. cbn [fst].
    destruct (decide (k = f)) as [->|Hk].
    + rewrite decide_True by done. rewrite fmap_cons. cbn [snd].
      destruct (index_lookup f file_paths); simpl; by rewrite <-?app_assoc.
    + by rewrite decide_False by done.
Qed.

Lemma index_add_keys (f p : string) (file_paths : index) :
  (index_add f p file_paths).*1
  = if decide (f ∈ file_paths.*1) then file_paths.*1 else file_paths.*1 ++ [f].
Proof.
  induction file_paths as [|[k ps] rest IH]; [done|]. simpl.
  case_bool_decide as Hk.
  - subst. rewrite decide_True by set_solver. done.
  - cbn. rewrite IH. destruct (decide (f ∈ rest.*1)).
    + by rewrite decide_True by set_solver.
    + by rewrite decide_False by set_solver.
Qed.

Lemma entries_keys_nodup (entries : list (string * string)) (file_paths : index) :
  NoDup file_paths.*1 → NoDup (foldl add_entry file_paths entries).*1.
Proof.
  revert file_paths. induction entries as [|[f p] entries IH]; intros file_paths Hnd; [done|].
  cbn [foldl]. apply IH. unfold add_entry. cbn [fst snd]. rewrite index_add_keys.
  case_decide; [done|]. apply NoDup_app. split_and!; [done| |apply NoDup_singleton].
  intros x Hx ->%list_elem_of_singleton. done.
Qed.

Lemma index_elem_lookup (k : string) (ps : list string) (file_paths : index) :
  NoDup file_paths.*1 → (k, ps) ∈ file_paths ↔ index_lookup k file_paths = Some ps.
Proof.
  induction file_paths as [|[k' ps'] rest IH]; [by rewrite elem_of_nil|].
  rewrite fmap_cons, NoDup_cons. cbn [fst]. intros [Hk' Hnd]. rewrite elem_of_cons. simpl.
  case_bool_decide as Hkk.
  - subst k'. split; [intros [[= ->]|Hin]; [done|]|by intros [= ->]; left].
    destruct Hk'. apply list_elem_of_fmap. by exists (k, ps).
  - rewrite <-IH by done. naive_solver.
Qed.

(** ** The copies, call by call *)

Lemma copy_all_flat (cwd root_dir : string) (file_paths : index) (d : folder) :
  copy_all cwd root_dir file_paths d
  = foldl copy_step (d, 0) (flat_map (group_copies cwd root_dir) file_paths).
Proof.
  unfold copy_all. generalize (d, 0) as st. intros st. revert st.
  induction file_paths as [|g rest IH]; intros st; [done|].
  cbn [foldl flat_map]. by rewrite foldl_app, IH.
Qed.

Lemma copies_count (cs : list (string * string)) (st : folder * nat) :
  (foldl copy_step st cs).2 = st.2 + length cs.
Proof.
  revert st. induction cs as [|c cs IH]; intros st; simpl; [lia|].
  rewrite IH. simpl. lia.
Qed.

Lemma copies_lookup (cs : list (string * string)) (st : folder * nat) (n : string) :
  (foldl copy_step st cs).1 !! n
  = match last (filter (λ c, c.2 = n) cs) with
    | Some c => Some (CopyOf c.1)
    | None => st.1 !! n
    end.
Proof.
  revert st. induction cs as [|c cs IH]; intros st; [done|].
  cbn [foldl]. rewrite IH, filter_cons. unfold copy_step, copy2. cbn [fst].
  destruct (decide (c.2 = n)) as [Hc|Hc].
  - destruct (filter (λ c0, c0.2 = n) cs) as [|c' l] eqn:Hf.
    + simpl. by rewrite Hc, lookup_insert_eq.
    + rewrite last_cons_cons. destruct (last (c' :: l)) eqn:Hl; [done|].
      by apply last_None in Hl.
  - destruct (last (filter (λ c0, c0.2 = n) cs)); [done|].
    by rewrite lookup_insert_ne.
Qed.

(** ** The conversion, item by item *)

Lemma sapp_inj_r (s n x : string) : n +:+ s = x +:+ s → n = x.
Proof.
  revert x. induction n as [|a n IH]; intros x Heq.
  - destruct x as [|b x]; [done|]. apply (f_equal String.length) in Heq.
    rewrite sapp_nil_l, sapp_length in Heq. simpl in Heq. lia.
  - destruct x as [|b x].
    + apply (f_equal String.length) in Heq.
      rewrite sapp_nil_l, sapp_length in Heq. simpl in Heq. lia.
    + rewrite !sapp_cons in Heq. injection Heq as -> Heq. f_equal. by apply IH.
Qed.

Lemma sapp_neq_self (x s : string) : s ≠ "" → x ≠ x +:+ s.
Proof.
  intros Hs Heq. apply (f_equal String.length) in Heq. rewrite sapp_length in Heq.
  destruct s; [done|]. simpl in Heq. lia.
Qed.

Lemma convert_all_total (items : list string) (d : folder) :
  NoDup items → (∀ n, n ∈ items → is_Some (d !! n)) → is_Some (convert_all items d).
Proof.
  revert d. induction items as [|x rest IH]; intros d Hnd Hin; [done|].
  apply NoDup_cons in Hnd as [Hx Hnd]. cbn [convert_all]. unfold convert_item.
  case_bool_decide as Hg; cbn.
  - destruct (Hin x) as [c Hc]; [by left|]. unfold rename. rewrite Hc. cbn.
    apply IH; [done|]. intros n Hn.
    destruct (decide (n = x +:+ ".txt")) as [->|Hnx]; [by rewrite lookup_insert_eq|].
    rewrite lookup_insert_ne by congruence.
    rewrite lookup_delete_ne by (intros ->; done).
    apply Hin. by right.
  - apply IH; [done|]. intros n Hn. apply Hin. by right.
Qed.

Lemma convert_all_spec (items : list string) (d : folder) :
  NoDup items →
  (∀ n, n ∈ items → is_Some (d !! n)) →
  (∀ n, n ∈ items → n ≠ guide_name → d !! (n +:+ ".txt") = None) →
  ∃ res, convert_all items d = Some res
    ∧ (∀ n, n ∈ items → n ≠ guide_name → res !! (n +:+ ".txt") = d !! n ∧ res !! n = None)
    ∧ (∀ m, ¬ (m ∈ items ∧ m ≠ guide_name) →
            (∀ n, n ∈ items → n ≠ guide_name → m ≠ n +:+ ".txt") →
            res !! m = d !! m).
Proof.
  revert d. induction items as [|x rest IH]; intros d Hnd Hin Hfree.
  { exists d. split_and!; [done| |done]. by intros n ?%elem_of_nil. }
  apply NoDup_cons in Hnd as [Hx Hnd]. cbn [convert_all]. unfold convert_item.
  case_bool_decide as Hg; cbn.
  - destruct (Hin x) as [c Hc]; [by left|]. unfold rename. rewrite Hc. cbn.
    assert (d !! (x +:+ ".txt") = None) as Hxt by (apply Hfree; [by left|done]).
    set (d' := <[x +:+ ".txt" := c]> (delete x d)).
    destruct (IH d') as (res & Hres & Hmoved & Hkept); [done| | |].
    + intros n Hn. unfold d'.
      destruct (decide (n = x +:+ ".txt")) as [->|Hnx]; [by rewrite lookup_insert_eq|].
      rewrite lookup_insert_ne by congruence.
      rewrite lookup_delete_ne by (intros ->; done).
      apply Hin. by right.
    + intros n Hn Hng. unfold d'. rewrite lookup_insert_ne.
      2:{ intros ->%sapp_inj_r. done. }
      destruct (decide (x = n +:+ ".txt")) as [->|Hxn]; [by rewrite lookup_delete_eq|].
      rewrite lookup_delete_ne by done. apply Hfree; [by right|done].
    + exists res. split; [done|].
      assert (res !! (x +:+ ".txt") = Some c ∧ res !! x = None) as [Hr1 Hr2].
      { split.
        - rewrite Hkept; [by unfold d'; rewrite lookup_insert_eq| |].
          + intros [Hin' _]. destruct (Hin (x +:+ ".txt")) as [? Hs]; [by right|].
            by rewrite Hxt in Hs.
          + intros n Hn _ ->%sapp_inj_r. done.
        - rewrite Hkept; [| |].
          + unfold d'. rewrite lookup_insert_ne
              by (intros Heq; symmetry in Heq; by apply sapp_neq_self in Heq).
            by rewrite lookup_delete_eq.
          + by intros [? _].
          + intros n Hn Hng ->. rewrite Hfree in Hc; [done|by right|done]. }
      split.
      * intros n [->|Hn]%elem_of_cons Hng; [by rewrite Hc|].
        destruct (Hmoved n Hn Hng) as [-> ->]. split; [|done]. unfold d'.
        rewrite lookup_insert_ne, lookup_delete_ne; [done| |].
        -- intros ->. done.
        -- intros <-. destruct (Hin (x +:+ ".txt")) as [? Hs]; [by right|].
           by rewrite Hxt in Hs.
      * intros m Hm Hnot. rewrite Hkept.
        -- unfold d'. rewrite lookup_insert_ne, lookup_delete_ne; [done| |].
           ++ intros <-. apply Hm. split; [by left|done].
           ++ intros <-. apply (Hnot x); [by left|done..].
        -- intros [? ?]. apply Hm. split; [by right|done].
        -- intros n Hn Hng. apply Hnot; [by right|done].
  - subst x.
    destruct (IH d) as (res & Hres & Hmoved & Hkept); [done| | |].
    + intros n Hn. apply Hin. by right.
    + intros n Hn. apply Hfree. by right.
    + exists res. split; [done|]. split.
      * intros n [->|Hn]%elem_of_cons Hng; [done|]. by apply Hmoved.
      * intros m Hm Hnot. apply Hkept.
        -- intros [? ?]. apply Hm. split; [by right|done].
        -- intros n Hn Hng. apply Hnot; [by right|done].
Qed.

Lemma convert_all_suffixes (items : list string) (d : folder) :
  NoDup items → (∀ n, n ∈ items ↔ is_Some (d !! n)) →
  (∀ n, is_Some (d !! n) → n ≠ guide_name → d !! (n +:+ ".txt") = None) →
  ∃ res, convert_all items d = Some res
    ∧ (∀ n c, d !! n = Some c → n ≠ guide_name → res !! (n +:+ ".txt") = Some c)
    ∧ (∀ c, d !! guide_name = Some c → res !! guide_name = Some c)
    ∧ (∀ m c, res !! m = Some c →
         (m = guide_name ∧ d !! guide_name = Some c)
         ∨ ∃ n, m = n +:+ ".txt" ∧ n ≠ guide_name ∧ d !! n = Some c).
Proof.
  intros Hnd Hdom Hfree.
  destruct (convert_all_spec items d) as (res & Hres & Hmoved & Hkept); [done|..].
  { intros n. apply Hdom. }
  { intros n Hn. apply Hfree. by apply Hdom. }
  exists res. split_and!; [done|..].
  - intros n c Hn Hng. destruct (Hmoved n) as [-> _]; [apply Hdom; by eexists|done..].
  - intros c Hc. rewrite Hkept; [done|tauto|].
    intros n Hn Hng Heq. rewrite Heq, Hfree in Hc; [done|by apply Hdom|done].
  - intros m c Hm.
    destruct (decide (Exists (λ n, n ≠ guide_name ∧ m = n +:+ ".txt") items)) as [Hex|Hex].
    + apply Exists_exists in Hex as (n & Hn & Hng & ->). right. exists n.
      destruct (Hmoved n Hn Hng) as [Heq _]. by rewrite <-Heq.
    + rewrite Exists_exists in Hex.
      destruct (decide (m ∈ items ∧ m ≠ guide_name)) as [[Hin Hmg]|Hnot].
      { destruct (Hmoved m Hin Hmg) as [_ Heq]. congruence. }
      assert (res !! m = d !! m) as Heq.
      { apply Hkept; [done|]. intros n Hn Hng ->. apply Hex. eauto. }
      rewrite Heq in Hm. left.
      destruct (decide (m = guide_name)) as [->|Hmg]; [done|]. destruct Hnot.
      split; [|done]. apply Hdom. by eexists.
Qed.

Lemma txt_not_bare (x : string) : x +:+ ".txt" ≠ "structure_guide".
Proof.
  intros Heq. pose proof (endswith_app x ".txt") as He. by rewrite Heq in He.
Qed.

Lemma convert_all_guide (items : list string) (d res : folder) :
  d !! "structure_guide" = None → convert_all items d = Some res →
  res !! guide_name = d !! guide_name.
Proof.
  revert d. induction items as [|x rest IH]; intros d Hbare Hres.
  { by injection Hres as ->. }
  cbn [convert_all] in Hres. unfold convert_item in Hres.
  case_bool_decide as Hg; cbn in Hres; [|by apply IH].
  unfold rename in Hres. destruct (d !! x) as [c|] eqn:Hc; [|done]. cbn in Hres.
  apply IH in Hres.
  - rewrite Hres, lookup_insert_ne, lookup_delete_ne; [done..|].
    change guide_name with ("structure_guide" +:+ ".txt").
    intros ->%sapp_inj_r. congruence.
  - rewrite lookup_insert_ne by apply txt_not_bare.
    destruct (decide (x = "structure_guide")) as [->|]; [by rewrite lookup_delete_eq|].
    by rewrite lookup_delete_ne.
Qed.

(** ** What the walk visits *)

Lemma os_walk_without_vcs (ignore_patterns : gset string) (root_dir : string) (t : tree) :
  os_walk (keep_dir ignore_patterns) root_dir (without_vcs t)
  = os_walk (keep_dir ignore_patterns) root_dir t.
Proof.
  unfold os_walk. case_bool_decide; [done|].
  apply walk_without_vcs, keep_dir_not_vcs.
Qed.

Lemma os_walk_items (keep : string → bool) (root_dir : string) (t : tree) (it : walk_item) :
  it ∈ os_walk keep root_dir t →
  root_dir ≠ "" ∧
  ∃ ds t', at_path t ds t' ∧ Forall (λ d, keep d = true) ds
           ∧ it = WalkItem (foldl Path.join root_dir ds)
                           (filter (λ d, keep d) (subdirs_of t').*1) (files_of t').
Proof.
  unfold os_walk. case_bool_decide; [by intros ?%elem_of_nil|].
  intros Hit%walk_items. done.
Qed.

Lemma index_entries_elem (ignore_patterns : gset string) (items : list walk_item)
    (e : string * string) :
  e ∈ index_entries ignore_patterns items ↔
  ∃ it, it ∈ items ∧ e.1 ∈ filenames it ∧ ignored_file ignore_patterns e.1 = false
        ∧ e.2 = Path.join (dirpath it) e.1.
Proof.
  unfold index_entries. rewrite list_elem_of_In, in_flat_map. split.
  - intros (it & Hit%list_elem_of_In & He%list_elem_of_In).
    apply list_elem_of_fmap in He as (f & -> & Hf%list_elem_of_filter).
    destruct Hf as [Hign Hf]. exists it. cbn. split_and!; [done..| |done].
    by destruct (ignored_file ignore_patterns f).
  - intros (it & Hit & Hf & Hign & Hp). exists it. split; [by apply list_elem_of_In|].
    apply list_elem_of_In, list_elem_of_fmap. exists e.1. split.
    + destruct e. cbn in *. by subst.
    + apply list_elem_of_filter. by rewrite Hign.
Qed.

Lemma build_index_lookup (ignore_patterns : gset string) (root_dir : string) (t : tree)
    (k : string) :
  index_lookup k (build_index ignore_patterns root_dir t)
  = match group_of k (index_entries ignore_patterns
                        (os_walk (keep_dir ignore_patterns) root_dir t)) with
    | [] => None
    | g => Some g
    end.
Proof.
  unfold build_index. rewrite index_item_entries, index_lookup_entries. cbn.
  by destruct (group_of _ _).
Qed.

Lemma build_index_elem (ignore_patterns : gset string) (root_dir : string) (t : tree)
    (k : string) (paths : list string) :
  (k, paths) ∈ build_index ignore_patterns root_dir t ↔
  index_lookup k (build_index ignore_patterns root_dir t) = Some paths.
Proof.
  apply index_elem_lookup. unfold build_index. rewrite index_item_entries.
  apply entries_keys_nodup. constructor.
Qed.

Lemma build_index_paths (ignore_patterns : gset string) (root_dir : string) (t : tree)
    (k p : string) (paths : list string) :
  (k, paths) ∈ build_index ignore_patterns root_dir t → p ∈ paths →
  ignored_file ignore_patterns k = false ∧
  ∃ it, it ∈ os_walk (keep_dir ignore_patterns) root_dir t
        ∧ k ∈ filenames it ∧ p = Path.join (dirpath it) k.
Proof.
  rewrite build_index_elem, build_index_lookup. intros Hg Hp.
  assert (p ∈ group_of k (index_entries ignore_patterns
                            (os_walk (keep_dir ignore_patterns) root_dir t))) as Hin.
  { destruct (group_of _ _); [done|]. by injection Hg as ->. }
  unfold group_of in Hin. apply list_elem_of_fmap in Hin as ([f q] & -> & Hf).
  apply list_elem_of_filter in Hf as [Hk Hf]. cbn in Hk. subst f.
  apply index_entries_elem in Hf as (it & Hit & Hfile & Hign & Hq). cbn in *. eauto.
Qed.

(** ** The run, stage by stage *)

Lemma create_takeout_stages (cwd : string) (str_float : Qc → string)
    (listdir : folder → list string) (root_dir : string) (t : tree) (ignore : ignore_file)
    (old : option folder) (convert_to_txt empty_before : bool) (delete_timer : Qc)
    (use_gui : bool) :
  create_takeout cwd str_float listdir root_dir t ignore old convert_to_txt empty_before
    delete_timer use_gui
  = (λ d, Result d (staged cwd root_dir t ignore old empty_before).2
            (run_output str_float root_dir ignore convert_to_txt empty_before delete_timer
               use_gui (staged cwd root_dir t ignore old empty_before).2))
    <$> (if convert_to_txt
         then convert_all (listdir (staged cwd root_dir t ignore old empty_before).1)
                (staged cwd root_dir t ignore old empty_before).1
         else Some (staged cwd root_dir t ignore old empty_before).1).
Proof.
  unfold create_takeout, staged, run_output, success_message.
  destruct (get_ignored_patterns ignore) as [ignore_patterns log]. cbn [fst snd].
  destruct (copy_all _ _ _ _) as [d n]. cbn [fst snd].
  destruct convert_to_txt; cbn.
  - destruct (convert_all (listdir d) d) as [d'|]; [|done]. cbn.
    destruct (bool_decide (0 < delete_timer)%Qc);
      cbn [app]; by rewrite ?sapp_nil_r, <-?app_assoc, ?sapp_assoc.
  - destruct (bool_decide (0 < delete_timer)%Qc);
      cbn [app]; by rewrite ?sapp_nil_r, ?app_nil_r, <-?app_assoc, ?sapp_assoc.
Qed.

Lemma create_takeout_returns (cwd : string) (str_float : Qc → string)
    (listdir : folder → list string) (root_dir : string) (t : tree) (ignore : ignore_file)
    (old : option folder) (convert_to_txt empty_before : bool) (delete_timer : Qc)
    (use_gui : bool) :
  lists_entries listdir →
  is_Some (create_takeout cwd str_float listdir root_dir t ignore old convert_to_txt
             empty_before delete_timer use_gui).
Proof.
  intros Hls. rewrite create_takeout_stages, fmap_is_Some.
  destruct convert_to_txt; [|done].
  destruct (Hls (staged cwd root_dir t ignore old empty_before).1) as [Hnd Hin].
  apply convert_all_total; [done|]. intros n. apply Hin.
Qed.

(** When the copies are done, an entry holds the source of the last call
    of [shutil.copy2] made under its name; a name under which no call was
    made is as it was once the guide was written. *)
Lemma staged_lookup (cwd root_dir : string) (t : tree) (ignore : ignore_file)
    (old : option folder) (empty_before : bool) (n : string) :
  (staged cwd root_dir t ignore old empty_before).1 !! n
  = match last (filter (λ c, c.2 = n)
                  (flat_map (group_copies cwd root_dir)
                     (build_index (get_ignored_patterns ignore).1 root_dir t))) with
    | Some c => Some (CopyOf c.1)
    | None =>
        <[guide_name := Written (guide_text cwd (get_ignored_patterns ignore).1 root_dir t)]>
          (default ∅ (if empty_before then None else old)) !! n
    end.
Proof. unfold staged. by rewrite copy_all_flat, copies_lookup. Qed.

(** Where no entry of the folder bears the name of another followed by
    [.txt], the conversion gives every entry but the guide its name
    followed by [.txt], keeps the guide, and leaves nothing else. *)
Lemma conversion_appends_txt (cwd : string) (str_float : Qc → string)
    (listdir : folder → list string) (root_dir : string) (t : tree) (ignore : ignore_file)
    (old : option folder) (empty_before : bool) (delete_timer : Qc) (use_gui : bool) :
  lists_entries listdir →
  (∀ n, is_Some ((staged cwd root_dir t ignore old empty_before).1 !! n) →
        n ≠ guide_name →
        (staged cwd root_dir t ignore old empty_before).1 !! (n +:+ ".txt") = None) →
  ∃ r, create_takeout cwd str_float listdir root_dir t ignore old true empty_before
         delete_timer use_gui = Some r
    ∧ (∀ n c, (staged cwd root_dir t ignore old empty_before).1 !! n = Some c →
              n ≠ guide_name → takeout r !! (n +:+ ".txt") = Some c)
    ∧ takeout r !! guide_name
      = (staged cwd root_dir t ignore old empty_before).1 !! guide_name
    ∧ (∀ m c, takeout r !! m = Some c →
         m = guide_name
         ∨ ∃ n, m = n +:+ ".txt" ∧ n ≠ guide_name
                ∧ (staged cwd root_dir t ignore old empty_before).1 !! n = Some c).
Proof.
  intros Hls Hfree. rewrite create_takeout_stages.
  set (D := (staged cwd root_dir t ignore old empty_before).1) in *.
  destruct (Hls D) as [Hnd Hin].
  destruct (convert_all_suffixes (listdir D) D Hnd Hin Hfree)
    as (res & -> & Hmoved & Hguide & Honly).
  eexists. split; [done|]. cbn [takeout]. split_and!; [done| |].
  - assert (is_Some (D !! guide_name)) as [c Hc].
    { unfold D. rewrite staged_lookup. destruct (last _); [done|].
      by rewrite lookup_insert_eq. }
    rewrite Hc. by apply Hguide.
  - intros m c [[-> _]|?]%Honly; [by left|by right].
Qed.

Lemma indexed_path (ignore_patterns : gset string) (root_dir : string) (t : tree)
    (k p : string) (paths : list string) :
  well_formed t = true →
  (k, paths) ∈ build_index ignore_patterns root_dir t → p ∈ paths →
  root_dir ≠ "" ∧
  ∃ ds t', at_path t ds t'
           ∧ Forall (λ d, keep_dir ignore_patterns d = true) ds
           ∧ Forall (λ d, valid_name d = true) ds
           ∧ k ∈ files_of t' ∧ valid_name k = true
           ∧ p = Path.join (foldl Path.join root_dir ds) k.
Proof.
  intros Hwf Hk Hp.
  destruct (build_index_paths _ _ _ _ _ _ Hk Hp) as (_ & it & Hit & Hf & ->).
  apply os_walk_items in Hit as (Hroot & ds & t' & Hat & Hkeep & ->).
  cbn [dirpath filenames] in *.
  destruct (at_path_well_formed _ _ _ Hat Hwf) as [Hds Hwf'].
  split; [done|]. exists ds, t'. split_and!; [done..| |done].
  destruct t' as [files subdirs]. cbn in Hwf', Hf.
  apply andb_true_iff in Hwf' as [Hfiles _]. rewrite forallb_forall in Hfiles.
  by apply Hfiles, list_elem_of_In.
Qed.

Lemma join_path_inj (root_dir f k : string) (ds ds' : list string) :
  Forall (λ d, valid_name d = true) ds → Forall (λ d, valid_name d = true) ds' →
  valid_name f = true → valid_name k = true →
  Path.join (foldl Path.join root_dir ds) f = Path.join (foldl Path.join root_dir ds') k →
  ds = ds' ∧ f = k.
Proof.
  intros Hds Hds' Hf Hk Heq. apply (f_equal (Path.abs_parts "")) in Heq.
  rewrite !abs_parts_join, !abs_parts_joins, <-!app_assoc in Heq by done.
  apply app_inv_head in Heq.
  apply (app_inj_2 _ _ [f] [k]) in Heq as [-> [= ->]]; done.
Qed.

(** ** Files that the walk meets *)

Lemma walked_item (keep : string → bool) (root_dir : string) (t t' : tree)
    (ds : list string) :
  root_dir ≠ "" → at_path t ds t' → Forall (λ d, keep d = true) ds →
  WalkItem (foldl Path.join root_dir ds) (filter (λ d, keep d) (subdirs_of t').*1)
    (files_of t') ∈ os_walk keep root_dir t.
Proof.
  intros Hroot Hat Hds. unfold os_walk. rewrite bool_decide_eq_false_2 by done.
  apply walk_items. eauto.
Qed.

Lemma group_of_elem (k p : string) (entries : list (string * string)) :
  p ∈ group_of k entries ↔ (k, p) ∈ entries.
Proof.
  unfold group_of. rewrite list_elem_of_fmap. split.
  - intros ([f q] & -> & [Hf Hin]%list_elem_of_filter). cbn in *. by subst.
  - intros Hin. exists (k, p). split; [done|]. by apply list_elem_of_filter.
Qed.

Lemma build_index_entry (ignore_patterns : gset string) (root_dir : string) (t : tree)
    (k p : string) :
  (k, p) ∈ index_entries ignore_patterns (os_walk (keep_dir ignore_patterns) root_dir t) ↔
  ∃ paths, (k, paths) ∈ build_index ignore_patterns root_dir t ∧ p ∈ paths.
Proof.
  rewrite <-group_of_elem. split.
  - intros Hin. exists (group_of k (index_entries ignore_patterns
                           (os_walk (keep_dir ignore_patterns) root_dir t))).
    split; [|done]. rewrite build_index_elem, build_index_lookup.
    destruct (group_of _ _); [by apply elem_of_nil in Hin|done].
  - intros (paths & Hk & Hp). rewrite build_index_elem, build_index_lookup in Hk.
    destruct (group_of _ _); [done|]. by injection Hk as ->.
Qed.

Lemma group_copies_source (cwd root_dir : string) (g : string * list string) (p : string) :
  p ∈ g.2 → ∃ n, (p, n) ∈ group_copies cwd root_dir g.
Proof.
  intros Hp. unfold group_copies. destruct g as [k paths]. cbn [fst snd] in *.
  destruct paths as [|q [|q' rest]]; [by apply elem_of_nil in Hp| |].
  - apply list_elem_of_singleton in Hp as ->. exists k. by left.
  - eexists. apply list_elem_of_fmap. by exists p.
Qed.

Lemma recorded_file (ignore_patterns : gset string) (root_dir : string) (t t' : tree)
    (ds : list string) (f : string) :
  root_dir ≠ "" →
  at_path t ds t' → Forall (λ d, keep_dir ignore_patterns d = true) ds →
  f ∈ files_of t' → ignored_file ignore_patterns f = false →
  ∃ paths, (f, paths) ∈ build_index ignore_patterns root_dir t
           ∧ Path.join (foldl Path.join root_dir ds) f ∈ paths.
Proof.
  intros Hroot Hat Hds Hf Hign.
  pose proof (walked_item _ _ _ _ _ Hroot Hat Hds) as Hit.
  apply build_index_entry, index_entries_elem. eexists. split; [exact Hit|]. done.
Qed.

Lemma copies_elem (cwd root_dir : string) (file_paths : index) (c : string * string) :
  c ∈ flat_map (group_copies cwd root_dir) file_paths ↔
  ∃ g, g ∈ file_paths ∧ c ∈ group_copies cwd root_dir g.
Proof.
  rewrite list_elem_of_In, in_flat_map. split; intros (g & Hg & Hc); exists g.
  - by rewrite !list_elem_of_In.
  - by rewrite <-!list_elem_of_In.
Qed.

Lemma group_copies_sources (cwd root_dir : string) (g : string * list string) :
  (group_copies cwd root_dir g).*1 = g.2.
Proof.
  unfold group_copies. destruct g as [k paths]. cbn [fst snd].
  destruct paths as [|q [|q' rest]]; [done..|].
  rewrite <-list_fmap_compose. apply list_fmap_id.
Qed.

Lemma nothing_ignored (f : string) : ignored_file ∅ f = false.
Proof.
  unfold ignored_file, wildcard_match. rewrite elements_empty.
  by rewrite bool_decide_eq_false_2 by set_solver.
Qed.

(** ** Entries of the folder after the copies *)

Lemma last_filter_elem {A} (P : A → Prop) `{∀ x, Decision (P x)} (l : list A) (x : A) :
  x ∈ l → P x → ∃ y, last (filter P l) = Some y ∧ y ∈ l ∧ P y.
Proof.
  intros Hx HP. destruct (last (filter P l)) as [y|] eqn:Hl.
  - exists y. apply last_Some_elem_of, list_elem_of_filter in Hl as [? ?]. done.
  - apply last_None in Hl. assert (x ∈ filter P l) as Hin by by apply list_elem_of_filter.
    rewrite Hl in Hin. by apply elem_of_nil in Hin.
Qed.

Lemma last_filter_none {A} (P : A → Prop) `{∀ x, Decision (P x)} (l : list A) :
  (∀ x, x ∈ l → ¬ P x) → last (filter P l) = None.
Proof.
  intros Hl. destruct (last (filter P l)) as [y|] eqn:Hy; [|done].
  apply last_Some_elem_of, list_elem_of_filter in Hy as [? ?]. naive_solver.
Qed.

Lemma staged_copy (cwd root_dir : string) (t : tree) (ignore : ignore_file)
    (old : option folder) (empty_before : bool) (p n : string) :
  (p, n) ∈ flat_map (group_copies cwd root_dir)
             (build_index (get_ignored_patterns ignore).1 root_dir t) →
  ∃ q, (staged cwd root_dir t ignore old empty_before).1 !! n = Some (CopyOf q)
       ∧ (q, n) ∈ flat_map (group_copies cwd root_dir)
                    (build_index (get_ignored_patterns ignore).1 root_dir t).
Proof.
  intros Hp. rewrite staged_lookup.
  destruct (last_filter_elem (λ c : string * string, c.2 = n) _ _ Hp eq_refl)
    as ([q m] & -> & Hq & Hm).
  cbn in Hm. subst m. by exists q.
Qed.

Lemma staged_holds (cwd root_dir : string) (t : tree) (ignore : ignore_file)
    (old : option folder) (empty_before : bool) (p n : string) :
  (p, n) ∈ flat_map (group_copies cwd root_dir)
             (build_index (get_ignored_patterns ignore).1 root_dir t) →
  (∀ q, (q, n) ∈ flat_map (group_copies cwd root_dir)
                   (build_index (get_ignored_patterns ignore).1 root_dir t) → q = p) →
  (staged cwd root_dir t ignore old empty_before).1 !! n = Some (CopyOf p).
Proof.
  intros Hp Honly.
  destruct (staged_copy cwd root_dir t ignore old empty_before p n Hp) as (q & -> & Hq).
  by rewrite (Honly q Hq).
Qed.

Lemma staged_untouched (cwd root_dir : string) (t : tree) (ignore : ignore_file)
    (old : option folder) (empty_before : bool) (m : string) :
  (∀ c, c ∈ flat_map (group_copies cwd root_dir)
              (build_index (get_ignored_patterns ignore).1 root_dir t) → c.2 ≠ m) →
  (staged cwd root_dir t ignore old empty_before).1 !! m
  = <[guide_name := Written (guide_text cwd (get_ignored_patterns ignore).1 root_dir t)]>
      (default ∅ (if empty_before then None else old)) !! m.
Proof. intros Hm. by rewrite staged_lookup, last_filter_none. Qed.

(** ** The run and the files it cannot read *)

Lemma create_takeout_io_some (cwd : string) (str_float : Qc → string)
    (listdir : folder → list string) (readable : string → bool) (root_dir : string)
    (t : tree) (ignore : ignore_file) (old : option folder)
    (convert_to_txt empty_before : bool) (delete_timer : Qc) (use_gui : bool)
    (r : result) :
  create_takeout_io cwd str_float listdir readable root_dir t ignore old convert_to_txt
    empty_before delete_timer use_gui = Some r ↔
  is_Some (write_guide cwd (get_ignored_patterns ignore).1 root_dir t)
  ∧ (∀ c, c ∈ flat_map (group_copies cwd root_dir)
                (build_index (get_ignored_patterns ignore).1 root_dir t) →
          readable c.1 = true)
  ∧ create_takeout cwd str_float listdir root_dir t ignore old convert_to_txt
      empty_before delete_timer use_gui = Some r.
Proof.
  unfold create_takeout_io.
  destruct (write_guide _ _ _ _) as [text|]; cbn;
    [|split; [done|]; by intros ([? [=]] & _)].
  destruct (forallb _ _) eqn:Hall.
  - rewrite forallb_forall in Hall. split; [|tauto]. intros Hr.
    split_and!; [by eexists| |done]. intros c Hc. by apply Hall, list_elem_of_In.
  - split; [done|]. intros (_ & Hread & _).
    assert (forallb (λ c, readable c.1)
              (flat_map (group_copies cwd root_dir)
                 (build_index (get_ignored_patterns ignore).1 root_dir t)) = true)
      as Htrue; [|congruence].
    apply forallb_forall. intros c Hc. by apply Hread, list_elem_of_In.
Qed.

(** ** Pruned directories *)

Lemma kept_not_vcs (ignore_patterns : gset string) (ds : list string) :
  Forall (λ d, keep_dir ignore_patterns d = true) ds → (".git" ∉ ds) ∧ (".takeout" ∉ ds).
Proof.
  rewrite Forall_forall. intros Hds.
  split; intros Hin%Hds%keep_dir_not_vcs; set_solver.
Qed.

(** C1. Whatever the ignore patterns are, the walk never enters a directory
    named [.git] or [.takeout]: every directory it visits, and every path
    it records in the file index, is reached from the root through
    directories bearing other names; the path of a file that lies below
    such a directory, at any depth, is in no list of the index; and the
    index, the structure guide and the whole run are the same as on the
    tree from which every such directory has been removed. *)
Theorem vcs_directories_pruned (cwd : string) (str_float : Qc → string)
    (listdir : folder → list string) (ignore_patterns : gset string)
    (root_dir : string) (t : tree) :
  (∀ it, it ∈ os_walk (keep_dir ignore_patterns) root_dir t →
     ∃ ds t', at_path t ds t' ∧ (".git" ∉ ds) ∧ (".takeout" ∉ ds)
              ∧ dirpath it = foldl Path.join root_dir ds ∧ filenames it = files_of t')
  ∧ (∀ k paths p, (k, paths) ∈ build_index ignore_patterns root_dir t → p ∈ paths →
     ∃ ds t', at_path t ds t' ∧ (".git" ∉ ds) ∧ (".takeout" ∉ ds)
              ∧ k ∈ files_of t' ∧ p = Path.join (foldl Path.join root_dir ds) k)
  ∧ (well_formed t = true →
     ∀ ds f k paths,
       Forall (λ d, valid_name d = true) ds → valid_name f = true →
       ".git" ∈ ds ∨ ".takeout" ∈ ds →
       (k, paths) ∈ build_index ignore_patterns root_dir t →
       Path.join (foldl Path.join root_dir ds) f ∉ paths)
  ∧ build_index ignore_patterns root_dir (without_vcs t)
    = build_index ignore_patterns root_dir t
  ∧ guide_text cwd ignore_patterns root_dir (without_vcs t)
    = guide_text cwd ignore_patterns root_dir t
  ∧ (∀ ignore old convert_to_txt empty_before delete_timer use_gui,
       create_takeout cwd str_float listdir root_dir (without_vcs t) ignore old
         convert_to_txt empty_before delete_timer use_gui
       = create_takeout cwd str_float listdir root_dir t ignore old
           convert_to_txt empty_before delete_timer use_gui).
Proof.
  assert (∀ it, it ∈ os_walk (keep_dir ignore_patterns) root_dir t →
     ∃ ds t', at_path t ds t' ∧ (".git" ∉ ds) ∧ (".takeout" ∉ ds)
              ∧ dirpath it = foldl Path.join root_dir ds ∧ filenames it = files_of t')
    as Hwalk.
  { intros it (_ & ds & t' & Hat & Hkeep & ->)%os_walk_items.
    destruct (kept_not_vcs _ _ Hkeep). exists ds, t'. done. }
  assert (∀ pats, build_index pats root_dir (without_vcs t) = build_index pats root_dir t)
    as Hindex.
  { intros pats. unfold build_index. by rewrite os_walk_without_vcs. }
  assert (∀ pats, guide_text cwd pats root_dir (without_vcs t)
                  = guide_text cwd pats root_dir t) as Hguide.
  { intros pats. unfold guide_text, guide_lines. by rewrite os_walk_without_vcs. }
  split_and!; [done| | |done|done|].
  - intros k paths p Hk Hp.
    destruct (build_index_paths _ _ _ _ _ _ Hk Hp) as (_ & it & Hit & Hf & ->).
    destruct (Hwalk it Hit) as (ds & t' & Hat & Hgit & Htk & -> & Hfiles).
    exists ds, t'. by rewrite <-Hfiles.
  - intros Hwf ds f k paths Hds Hf Hvcs Hk Hin.
    destruct (indexed_path _ _ _ _ _ _ Hwf Hk Hin)
      as (_ & ds' & t' & _ & Hkeep & Hds' & _ & Hvk & Heq).
    apply join_path_inj in Heq as [-> _]; [|done..].
    destruct (kept_not_vcs _ _ Hkeep). tauto.
  - intros. unfold create_takeout.
    destruct (get_ignored_patterns ignore) as [pats log].
    by rewrite Hindex, Hguide.
Qed.

(** ** Ignored files *)

Lemma startswith_app_refl (p s : string) : Py.startswith (p +:+ s) p = true.
Proof.
  induction p as [|c p IH]; [by destruct s|]. rewrite sapp_cons. simpl.
  by rewrite bool_decide_eq_true_2, IH.
Qed.

Lemma ignored_by_pattern (ignore_patterns : gset string) (f : string) :
  f ∈ ignore_patterns
  ∨ (∃ ext, "*." +:+ ext ∈ ignore_patterns ∧ Py.endswith f ("." +:+ ext) = true) →
  ignored_file ignore_patterns f = true.
Proof.
  unfold ignored_file. intros [Hf|(ext & Hp & He)].
  - by rewrite bool_decide_eq_true_2.
  - apply orb_true_iff. right. unfold wildcard_match. apply existsb_exists.
    exists ("*." +:+ ext). split; [|done].
    apply list_elem_of_In, list_elem_of_filter. split.
    + by rewrite startswith_app_refl.
    + by apply elem_of_elements.
Qed.

(** C2. A file whose name is a pattern of the ignore set, or ends in [.ext]
    while [*.ext] is a pattern, is excluded wherever it lies: its name is
    no key of the file index, every path of the index and every source of
    a copy is that of a file with another name, the path of a file of that
    name in any directory is in no list of the index, and no file line of
    the structure guide bears the name, at any level. *)
Theorem ignored_files_excluded (cwd : string) (ignore_patterns : gset string)
    (root_dir : string) (t : tree) (f : string) :
  f ∈ ignore_patterns
  ∨ (∃ ext, "*." +:+ ext ∈ ignore_patterns ∧ Py.endswith f ("." +:+ ext) = true) →
  index_lookup f (build_index ignore_patterns root_dir t) = None
  ∧ (∀ k paths, (k, paths) ∈ build_index ignore_patterns root_dir t →
       k ≠ f ∧ ∀ p, p ∈ paths →
         ∃ it, it ∈ os_walk (keep_dir ignore_patterns) root_dir t
               ∧ k ∈ filenames it ∧ p = Path.join (dirpath it) k)
  ∧ (well_formed t = true → valid_name f = true →
     ∀ ds k paths,
       Forall (λ d, valid_name d = true) ds →
       (k, paths) ∈ build_index ignore_patterns root_dir t →
       Path.join (foldl Path.join root_dir ds) f ∉ paths)
  ∧ (∀ c, c ∈ flat_map (group_copies cwd root_dir) (build_index ignore_patterns root_dir t) →
       ∃ k it, k ≠ f ∧ it ∈ os_walk (keep_dir ignore_patterns) root_dir t
               ∧ k ∈ filenames it ∧ c.1 = Path.join (dirpath it) k)
  ∧ (∀ level, FileLine level f ∉ guide_lines cwd ignore_patterns root_dir t).
Proof.
  intros Hign%ignored_by_pattern.
  assert (∀ k paths, (k, paths) ∈ build_index ignore_patterns root_dir t →
       k ≠ f ∧ ∀ p, p ∈ paths →
         ∃ it, it ∈ os_walk (keep_dir ignore_patterns) root_dir t
               ∧ k ∈ filenames it ∧ p = Path.join (dirpath it) k) as Hidx.
  { intros k paths Hk. split.
    - intros ->. apply build_index_elem in Hk as Hl. rewrite build_index_lookup in Hl.
      destruct (group_of _ _) as [|p g] eqn:Hg; [done|]. injection Hl as <-.
      destruct (build_index_paths _ _ _ _ p _ Hk) as [Hno _]; [by left|]. congruence.
    - intros p Hp. by destruct (build_index_paths _ _ _ _ _ _ Hk Hp) as [_ ?]. }
  split_and!; [|done| | |].
  - destruct (index_lookup f _) as [paths|] eqn:Hl; [|done].
    apply build_index_elem, Hidx in Hl as [? _]. done.
  - intros Hwf Hf ds k paths Hds Hk Hin. destruct (Hidx k paths Hk) as [Hne _].
    destruct (indexed_path _ _ _ _ _ _ Hwf Hk Hin)
      as (_ & ds' & t' & _ & _ & Hds' & _ & Hvk & Heq).
    by apply join_path_inj in Heq as [_ ->].
  - intros c (g & Hg%list_elem_of_In & Hc%list_elem_of_In)%list_elem_of_In%in_flat_map.
    destruct g as [k paths]. destruct (Hidx k paths Hg) as [Hk Hpaths].
    assert (c.1 ∈ paths) as Hsrc.
    { unfold group_copies in Hc. cbn [fst snd] in Hc.
      destruct paths as [|p [|q rest]].
      - by apply elem_of_nil in Hc.
      - apply list_elem_of_singleton in Hc as ->. by left.
      - apply list_elem_of_fmap in Hc as (x & -> & Hx). done. }
    destruct (Hpaths _ Hsrc) as (it & Hit & Hf & Hp). by exists k, it.
  - intros level Hline. unfold guide_lines in Hline.
    apply list_elem_of_In, in_flat_map in Hline as (it & _ & Hin%list_elem_of_In).
    unfold guide_block in Hin. apply elem_of_cons in Hin as [|Hin]; [done|].
    apply list_elem_of_fmap in Hin as (f' & [= _ <-] & [Hf _]%list_elem_of_filter).
    by rewrite Hign in Hf.
Qed.

Lemma ignored_files_excluded_witness :
  ("*." +:+ "md" ∈ ({["*.md"]} : gset string)
   ∧ Py.endswith "README.md" ("." +:+ "md") = true)
  ∧ index_lookup "README.md"
      (build_index {["*.md"]} "/p" (Dir ["README.md"] [("src", Dir ["main.go"] [])]))
    = None.
Proof.
  assert ("*." +:+ "md" ∈ ({["*.md"]} : gset string)
          ∧ Py.endswith "README.md" ("." +:+ "md") = true) as Hpat.
  { split; [|reflexivity]. by apply elem_of_singleton. }
  split; [exact Hpat|].
  apply (ignored_files_excluded "/" {["*.md"]} "/p"
           (Dir ["README.md"] [("src", Dir ["main.go"] [])]) "README.md").
  right. by exists "md".
Defined.

(** ** The layout of the structure guide *)

Lemma StronglySorted_filter {A} (R : relation A) (P : A → Prop) `{∀ x, Decision (P x)}
    (l : list A) :
  StronglySorted R l → StronglySorted R (filter P l).
Proof.
  induction 1 as [|x l Hl IH Hx]; [constructor|]. rewrite filter_cons.
  case_decide; [|done]. constructor; [done|].
  apply Forall_forall. intros y [_ Hy]%list_elem_of_filter.
  rewrite Forall_forall in Hx. auto.
Qed.

Lemma sorted_filter (P : string → Prop) `{∀ x, Decision (P x)} (l : list string) :
  filter P (sorted l) = sorted (filter P l).
Proof.
  unfold sorted. apply (StronglySorted_unique String.le).
  - apply StronglySorted_filter, StronglySorted_merge_sort; apply _.
  - apply StronglySorted_merge_sort; apply _.
  - by rewrite !merge_sort_Permutation.
Qed.

Lemma guide_walk (cwd : string) (ignore_patterns : gset string) (root_dir : string)
    (t : tree) (top : string) (ds : list string) :
  well_formed t = true →
  Path.abs_parts cwd top = Path.abs_parts cwd root_dir ++ ds →
  Forall (λ d, valid_name d = true) ds →
  flat_map (guide_block cwd ignore_patterns root_dir)
           (walk (keep_dir ignore_patterns) top t)
  = guide_of ignore_patterns (length ds) (Path.basename top) t.
Proof.
  revert top ds. induction t as [files subdirs IH] using tree_induction.
  intros top ds Hwf Htop Hds. cbn [walk flat_map guide_of].
  unfold guide_block at 1. cbn [dirpath filenames].
  rewrite (level_depth cwd root_dir top ds Htop Hds), Nat.add_1_r, sorted_filter.
  cbn [app]. f_equal. f_equal.
  cbn [well_formed] in Hwf. apply andb_true_iff in Hwf as [_ Hsubs].
  induction IH as [|[d sub] rest Hsub _ IHrest]; [done|].
  cbn [forallb fst snd] in Hsubs.
  apply andb_true_iff in Hsubs as [[Hd Hwsub]%andb_true_iff Hrest].
  cbn [flat_map fst snd]. rewrite flat_map_app, IHrest by done. f_equal.
  destruct (keep_dir ignore_patterns d); [|done]. cbn in Hsub.
  rewrite (Hsub (Path.join top d) (ds ++ [d])).
  - by rewrite length_app, Nat.add_1_r, basename_join.
  - done.
  - by rewrite abs_parts_join, Htop, <-app_assoc.
  - apply Forall_app. auto.
Qed.

(** ** Writing the guide *)

Lemma concat_empty_cons (x : string) (l : list string) :
  String.concat "" (x :: l) = x +:+ String.concat "" l.
Proof. destruct l; [by rewrite sapp_nil_r|done]. Qed.

Lemma f_write_all (w : string) (texts : list string) :
  foldl f_write (Some w) texts
  = if forallb Utf8.valid texts then Some (w +:+ String.concat "" texts) else None.
Proof.
  revert w. induction texts as [|x texts IH]; intros w; [by rewrite sapp_nil_r|].
  rewrite concat_empty_cons. cbn [foldl forallb].
  assert (f_write (Some w) x = if Utf8.valid x then Some (w +:+ x) else None) as ->
    by done.
  destruct (Utf8.valid x); cbn [andb].
  - by rewrite IH, sapp_assoc.
  - clear IH. by induction texts.
Qed.

Lemma write_guide_text (cwd : string) (ignore_patterns : gset string) (root_dir : string)
    (t : tree) :
  write_guide cwd ignore_patterns root_dir t
  = if forallb Utf8.valid
         (("Project Structure for: " +:+ Path.basename root_dir +:+ Py.nl +:+ Py.nl)
          :: (render <$> guide_lines cwd ignore_patterns root_dir t))
    then Some (guide_text cwd ignore_patterns root_dir t) else None.
Proof.
  unfold write_guide. rewrite f_write_all. destruct (forallb _ _); [|done].
  unfold guide_text. by rewrite sapp_nil_l, concat_empty_cons, !sapp_assoc.
Qed.

Lemma render_valid (l : guide_line) :
  Utf8.valid (match l with DirLine _ name | FileLine _ name => name end) = true →
  Utf8.valid (render l) = true.
Proof.
  destruct l as [level name|level name]; intros Hname; cbn [render];
    repeat apply valid_app; try done; by apply valid_repeat.
Qed.

Lemma guide_of_valid (ignore_patterns : gset string) (depth : nat) (name : string)
    (t : tree) :
  Utf8.valid name = true → encodable t = true →
  Forall (λ l, Utf8.valid (render l) = true) (guide_of ignore_patterns depth name t).
Proof.
  revert depth name. induction t as [files subdirs IH] using tree_induction.
  intros depth name Hname Ht. cbn [encodable] in Ht.
  apply andb_true_iff in Ht as [Hfiles Hsubs]. rewrite forallb_forall in Hfiles.
  cbn [guide_of]. constructor; [by apply render_valid|]. apply Forall_app. split.
  - apply Forall_forall. intros l (f & -> & Hf)%list_elem_of_fmap. apply render_valid.
    rewrite merge_sort_Permutation in Hf. apply list_elem_of_filter in Hf as [_ Hf].
    by apply Hfiles, list_elem_of_In.
  - induction IH as [|[d sub] rest Hsub _ IHrest]; [constructor|].
    cbn [forallb fst snd] in Hsubs.
    apply andb_true_iff in Hsubs as [[Hd Hesub]%andb_true_iff Hrest].
    cbn [flat_map fst snd]. apply Forall_app. split; [|by apply IHrest].
    destruct (keep_dir ignore_patterns d); [|constructor]. by apply Hsub.
Qed.

(** A name that the encoder refuses makes the writing raise. *)
Remark unencodable_name_raises :
  Utf8.valid (String (ascii_of_nat 255) "") = false
  ∧ well_formed (Dir [String (ascii_of_nat 255) ""] []) = true
  ∧ write_guide "/home/u" ∅ "/p" (Dir [String (ascii_of_nat 255) ""] []) = None.
Proof. by vm_compute. Qed.

(** C5. Whenever the writing of [structure_guide.txt] does not raise, the
    text written is a title line naming the base name of the root
    directory and an empty line, followed by the lines of [guide_of]: for
    every directory that is visited a line with four spaces per level of
    depth (none for the root), its name and [/], then a line for each of
    its surviving files one level deeper, these being in lexicographic
    order. The writing does not raise when the base name of the root and
    the names of the tree are UTF-8 text. A run that returns leaves this
    text in the entry [structure_guide.txt], unless a copy or a renamed
    entry takes that name. *)
Theorem structure_guide_layout (cwd : string) (ignore_patterns : gset string)
    (root_dir : string) (t : tree) :
  root_dir ≠ "" → well_formed t = true →
  (∀ text, write_guide cwd ignore_patterns root_dir t = Some text →
     text
     = "Project Structure for: " +:+ Path.basename root_dir +:+ Py.nl +:+ Py.nl
       +:+ String.concat ""
             (render <$> guide_of ignore_patterns 0 (Path.basename root_dir) t))
  ∧ (Utf8.valid (Path.basename root_dir) = true → encodable t = true →
     write_guide cwd ignore_patterns root_dir t
     = Some ("Project Structure for: " +:+ Path.basename root_dir +:+ Py.nl +:+ Py.nl
             +:+ String.concat ""
                   (render <$> guide_of ignore_patterns 0 (Path.basename root_dir) t)))
  ∧ (∀ level name,
       render (DirLine level name) = Py.repeat "    " level +:+ name +:+ "/" +:+ Py.nl
       ∧ render (FileLine level name) = Py.repeat "    " level +:+ name +:+ Py.nl)
  ∧ (∀ files : list string,
       Sorted String.le (merge_sort String.le files)
       ∧ merge_sort String.le files ≡ₚ files)
  ∧ (∀ str_float listdir readable ignore old convert_to_txt empty_before delete_timer
       use_gui r,
       (get_ignored_patterns ignore).1 = ignore_patterns →
       create_takeout_io cwd str_float listdir readable root_dir t ignore old
         convert_to_txt empty_before delete_timer use_gui = Some r →
       (∀ c, c ∈ flat_map (group_copies cwd root_dir)
                   (build_index ignore_patterns root_dir t) → c.2 ≠ guide_name) →
       (convert_to_txt = true →
        (staged cwd root_dir t ignore old empty_before).1 !! "structure_guide" = None) →
       takeout r !! guide_name
       = Some (Written
                 ("Project Structure for: " +:+ Path.basename root_dir +:+ Py.nl +:+ Py.nl
                  +:+ String.concat ""
                        (render <$> guide_of ignore_patterns 0
                                      (Path.basename root_dir) t)))).
Proof.
  intros Hroot Hwf.
  assert (guide_lines cwd ignore_patterns root_dir t
          = guide_of ignore_patterns 0 (Path.basename root_dir) t) as Hlines.
  { unfold guide_lines, os_walk. rewrite bool_decide_eq_false_2 by done.
    by rewrite (guide_walk cwd ignore_patterns root_dir t root_dir [])
      by (by rewrite ?app_nil_r). }
  assert (guide_text cwd ignore_patterns root_dir t
          = "Project Structure for: " +:+ Path.basename root_dir +:+ Py.nl +:+ Py.nl
            +:+ String.concat ""
                  (render <$> guide_of ignore_patterns 0 (Path.basename root_dir) t))
    as Htext.
  { unfold guide_text. by rewrite Hlines. }
  split_and!.
  - intros text. rewrite write_guide_text, Htext. by destruct (forallb _ _); intros [= <-].
  - intros Hbase Hnames. rewrite write_guide_text, Htext, Hlines.
    assert (forallb Utf8.valid
              (("Project Structure for: " +:+ Path.basename root_dir +:+ Py.nl +:+ Py.nl)
               :: (render <$> guide_of ignore_patterns 0 (Path.basename root_dir) t))
            = true) as ->; [|done].
    cbn [forallb]. apply andb_true_iff. split; [by repeat apply valid_app|].
    apply forallb_forall. intros x (l & -> & Hl)%list_elem_of_In%list_elem_of_fmap.
    pose proof (guide_of_valid ignore_patterns 0 _ t Hbase Hnames) as Hall.
    rewrite Forall_forall in Hall. by apply Hall.
  - done.
  - intros files. split; [apply Sorted_merge_sort; apply _|apply merge_sort_Permutation].
  - intros str_float listdir readable ignore old convert_to_txt empty_before delete_timer
      use_gui r Hpats Hr Hfree Hbare.
    apply create_takeout_io_some in Hr as (_ & _ & Hr).
    rewrite create_takeout_stages in Hr. rewrite <-Htext.
    assert ((staged cwd root_dir t ignore old empty_before).1 !! guide_name
            = Some (Written (guide_text cwd ignore_patterns root_dir t))) as Hguide.
    { rewrite staged_untouched by by rewrite Hpats.
      by rewrite Hpats, lookup_insert_eq. }
    destruct convert_to_txt.
    + destruct (convert_all _ _) as [res|] eqn:Hres; [|done]. injection Hr as <-.
      cbn [takeout]. rewrite <-Hguide. apply (convert_all_guide _ _ _ (Hbare eq_refl) Hres).
    + by injection Hr as <-.
Qed.

Lemma structure_guide_layout_witness :
  write_guide "/home/u" {["*.md"]} "/p/proj"
    (Dir ["b.c"; "README.md"; "a.c"] [("src", Dir ["main.go"] [("deep", Dir ["z"] [])])])
  = Some ("Project Structure for: proj" +:+ Py.nl +:+ Py.nl
          +:+ "proj/" +:+ Py.nl
          +:+ "    a.c" +:+ Py.nl
          +:+ "    b.c" +:+ Py.nl
          +:+ "    src/" +:+ Py.nl
          +:+ "        main.go" +:+ Py.nl
          +:+ "        deep/" +:+ Py.nl
          +:+ "            z" +:+ Py.nl).
Proof.
  destruct (structure_guide_layout "/home/u" {["*.md"]} "/p/proj"
              (Dir ["b.c"; "README.md"; "a.c"]
                 [("src", Dir ["main.go"] [("deep", Dir ["z"] [])])]))
    as (_ & Hwrite & _).
  - discriminate.
  - reflexivity.
  - rewrite Hwrite; [|reflexivity..]. vm_compute. reflexivity.
Defined.

(** ** Names of the copies *)

Lemma joins_nonempty (top : string) (ds : list string) :
  top ≠ "" → Forall (λ d, valid_name d = true) ds → foldl Path.join top ds ≠ "".
Proof.
  intros Htop Hds. revert top Htop.
  induction Hds as [|d ds Hd _ IH]; intros top Htop; [done|].
  cbn [foldl]. apply IH. apply valid_name_spec in Hd as (_ & _ & _ & Hd).
  rewrite join_glue by by apply startswith_plain. by intros [? _]%sapp_eq_nil.
Qed.

Lemma group_copies_shared (cwd root_dir filename p : string) (paths : list string) :
  length paths ≠ 1 → p ∈ paths →
  (p, unique_name cwd root_dir p filename) ∈ group_copies cwd root_dir (filename, paths).
Proof.
  intros Hlen Hp. unfold group_copies. cbn [fst snd].
  destruct paths as [|q [|q' rest]]; [by apply elem_of_nil in Hp|done|].
  apply list_elem_of_fmap. by exists p.
Qed.

(** C8. A file lying directly in [root_dir] whose base name is shared is
    copied under its base name preceded by [._]: [.] joined with the name,
    the separator replaced by an underscore. *)
Theorem root_collision_name (cwd root_dir f : string) :
  root_dir ≠ "" → valid_name f = true →
  unique_name cwd root_dir (Path.join root_dir f) f = "._" +:+ f
  ∧ Py.replace Path.sep "_" (Path.join "." f) = "._" +:+ f
  ∧ (∀ paths, length paths ≠ 1 → Path.join root_dir f ∈ paths →
       (Path.join root_dir f, "._" +:+ f) ∈ group_copies cwd root_dir (f, paths)).
Proof.
  intros Hroot Hf.
  assert (unique_name cwd root_dir (Path.join root_dir f) f = "._" +:+ f) as Hname.
  { rewrite (unique_name_flat cwd root_dir root_dir f []); [done..| |done|done].
    by rewrite app_nil_r. }
  split_and!; [done| |].
  - assert (ends_plain ".") as Hdot by done.
    destruct (join_plain "." f Hdot Hf) as [-> _].
    apply valid_name_spec in Hf as (_ & _ & _ & Hf).
    by rewrite !replace_app, (replace_plain _ _ f).
  - intros paths Hlen Hp. rewrite <-Hname. by apply group_copies_shared.
Qed.

Lemma root_collision_name_witness :
  unique_name "/home/u" "/p/proj" (Path.join "/p/proj" "x.txt") "x.txt" = "._x.txt".
Proof.
  apply (root_collision_name "/home/u" "/p/proj" "x.txt"); [discriminate|reflexivity].
Defined.

Lemma walked_file (cwd : string) (ignore_patterns : gset string) (root_dir : string)
    (t : tree) (k p : string) (paths : list string) :
  well_formed t = true →
  (k, paths) ∈ build_index ignore_patterns root_dir t → p ∈ paths →
  ∃ ds t', at_path t ds t' ∧ k ∈ files_of t'
           ∧ p = Path.join (foldl Path.join root_dir ds) k
           ∧ unique_name cwd root_dir p k = flat_name ds k.
Proof.
  intros Hwf Hk Hp.
  destruct (indexed_path _ _ _ _ _ _ Hwf Hk Hp)
    as (Hroot & ds & t' & Hat & _ & Hds & Hf & Hvk & ->).
  exists ds, t'. split_and!; [done..|].
  apply unique_name_flat; [by apply joins_nonempty|by apply abs_parts_joins|done..].
Qed.

(** The names of two copies can be the same although their directories
    differ: an underscore in a name is read like a separator. *)
Remark flat_name_clash : flat_name ["a_b"] "x.txt" = flat_name ["a"; "b"] "x.txt".
Proof. reflexivity. Qed.




Lemma sorted_listdir_lists : lists_entries sorted_listdir.
Proof.
  intros d. unfold sorted_listdir. split.
  - rewrite merge_sort_Permutation. apply NoDup_elements.
  - intros n. by rewrite merge_sort_Permutation, elem_of_elements, elem_of_dom.
Qed.


(** ** The ignore file *)

(** The claim C6 as stated fails when the ignore file cannot be read for
    lack of permission: the loader prints the failure and gives the empty
    set, so that nothing is ignored; the file, which lies in [root_dir],
    is then recorded and copied like any other, and [shutil.copy2] raises
    on it: the run does not go to its end. *)
Lemma unreadable_ignore_file_aborts :
  get_ignored_patterns (Unreadable "[Errno 13] Permission denied: '/p/.takeoutignore'")
  = (∅, [Print ("Error reading .takeoutignore file: "
                +:+ "[Errno 13] Permission denied: '/p/.takeoutignore'")])
  ∧ ("/p/.takeoutignore", ".takeoutignore")
    ∈ flat_map (group_copies "/home/u" "/p") (build_index ∅ "/p" guarded)
  ∧ create_takeout_io "/home/u" (λ _, "0.0") sorted_listdir
      (λ path, bool_decide (path ≠ "/p/.takeoutignore")) "/p" guarded
      (Unreadable "[Errno 13] Permission denied: '/p/.takeoutignore'") None
      true true 0%Qc false
    = None.
Proof. split_and!; [done|by vm_compute; left|by vm_compute]. Qed.

(** C6, amended. A missing [.takeoutignore] gives the empty set and prints
    nothing; a file that cannot be read gives the empty set and one
    printed line that reports the failure. The run then goes on as with
    an empty ignore file: it has the same folder and the same count, and
    what it shows holds the printed line. It returns when the guide can
    be written and every recorded file can be read, and it raises when
    the ignore file itself, lying in [root_dir], cannot be read by
    [shutil.copy2]. *)
Theorem unreadable_ignore_file_survived (cwd : string) (str_float : Qc → string)
    (listdir : folder → list string) (readable : string → bool) (root_dir : string)
    (t : tree) (e : string) (old : option folder) (convert_to_txt empty_before : bool)
    (delete_timer : Qc) (use_gui : bool) :
  lists_entries listdir →
  get_ignored_patterns Missing = (∅, [])
  ∧ get_ignored_patterns (Unreadable e)
    = (∅, [Print ("Error reading .takeoutignore file: " +:+ e)])
  ∧ takeout <$> create_takeout_io cwd str_float listdir readable root_dir t (Unreadable e)
                  old convert_to_txt empty_before delete_timer use_gui
    = takeout <$> create_takeout_io cwd str_float listdir readable root_dir t (Lines [])
                    old convert_to_txt empty_before delete_timer use_gui
  ∧ copied <$> create_takeout_io cwd str_float listdir readable root_dir t (Unreadable e)
                 old convert_to_txt empty_before delete_timer use_gui
    = copied <$> create_takeout_io cwd str_float listdir readable root_dir t (Lines [])
                   old convert_to_txt empty_before delete_timer use_gui
  ∧ (∀ r, create_takeout_io cwd str_float listdir readable root_dir t (Unreadable e)
            old convert_to_txt empty_before delete_timer use_gui = Some r →
          Print ("Error reading .takeoutignore file: " +:+ e) ∈ output r)
  ∧ (is_Some (write_guide cwd ∅ root_dir t) →
     (∀ k paths p, (k, paths) ∈ build_index ∅ root_dir t → p ∈ paths →
                   readable p = true) →
     is_Some (create_takeout_io cwd str_float listdir readable root_dir t (Unreadable e)
                old convert_to_txt empty_before delete_timer use_gui))
  ∧ (root_dir ≠ "" → ".takeoutignore" ∈ files_of t →
     readable (Path.join root_dir ".takeoutignore") = false →
     create_takeout_io cwd str_float listdir readable root_dir t (Unreadable e)
       old convert_to_txt empty_before delete_timer use_gui = None).
Proof.
  intros Hls.
  assert (∀ ignore, (get_ignored_patterns ignore).1 = ∅ →
            create_takeout_io cwd str_float listdir readable root_dir t ignore
              old convert_to_txt empty_before delete_timer use_gui
            = (λ d, Result d (staged cwd root_dir t Missing old empty_before).2
                      (run_output str_float root_dir ignore convert_to_txt empty_before
                         delete_timer use_gui
                         (staged cwd root_dir t Missing old empty_before).2))
              <$> (_ ← write_guide cwd ∅ root_dir t;
                   if forallb (λ c, readable c.1)
                        (flat_map (group_copies cwd root_dir) (build_index ∅ root_dir t))
                   then if convert_to_txt
                        then convert_all
                               (listdir (staged cwd root_dir t Missing old empty_before).1)
                               (staged cwd root_dir t Missing old empty_before).1
                        else Some (staged cwd root_dir t Missing old empty_before).1
                   else None)) as Hrun.
  { intros ignore Hpats. unfold create_takeout_io. rewrite Hpats.
    destruct (write_guide _ _ _ _); [|done]. cbn. destruct (forallb _ _); [|done].
    rewrite create_takeout_stages.
    assert (staged cwd root_dir t ignore old empty_before
            = staged cwd root_dir t Missing old empty_before) as ->; [|done].
    unfold staged. by rewrite Hpats. }
  split_and!; [done|done|..].
  - rewrite !Hrun by done. by rewrite <-!option_fmap_compose.
  - rewrite !Hrun by done. by rewrite <-!option_fmap_compose.
  - intros r. rewrite Hrun by done. intros (d & _ & ->)%fmap_Some. cbn [output].
    unfold run_output. cbn [get_ignored_patterns snd]. set_solver.
  - intros Hguide Hread.
    destruct (create_takeout_returns cwd str_float listdir root_dir t (Unreadable e) old
                convert_to_txt empty_before delete_timer use_gui Hls) as [r Hr].
    exists r. apply create_takeout_io_some. split_and!; [done| |done].
    intros [p n] ([k paths] & Hg & Hc)%copies_elem. cbn [fst].
    apply (Hread k paths); [done|].
    change paths with (k, paths).2. rewrite <-(group_copies_sources cwd root_dir).
    apply list_elem_of_fmap. by exists (p, n).
  - intros Hroot Hfile Hdenied.
    destruct (create_takeout_io _ _ _ _ _ _ _ _ _ _ _ _) as [r|] eqn:Hr; [|done].
    apply create_takeout_io_some in Hr as (_ & Hread & _).
    destruct (recorded_file ∅ root_dir t t [] ".takeoutignore")
      as (paths & Hk & Hp); [done|constructor|constructor|done|apply nothing_ignored|].
    destruct (group_copies_source cwd root_dir (".takeoutignore", paths) _ Hp) as [n Hn].
    cbn [foldl] in Hn.
    assert (readable (Path.join root_dir ".takeoutignore") = true) as Hyes; [|congruence].
    apply (Hread (Path.join root_dir ".takeoutignore", n)).
    apply copies_elem. by eexists.
Qed.

Lemma unreadable_ignore_file_survived_witness :
  ∃ r, create_takeout_io "/home/u" (λ _, "0.0") sorted_listdir (λ _, true) "/p" guarded
         (Unreadable "'utf-8' codec can't decode byte 0xff in position 0: invalid start byte")
         None false true 0%Qc false = Some r
    ∧ Print ("Error reading .takeoutignore file: "
             +:+ "'utf-8' codec can't decode byte 0xff in position 0: invalid start byte")
      ∈ output r
    ∧ takeout r !! ".takeoutignore" = Some (CopyOf "/p/.takeoutignore").
Proof.
  destruct (unreadable_ignore_file_survived "/home/u" (λ _, "0.0") sorted_listdir
              (λ _, true) "/p" guarded
              "'utf-8' codec can't decode byte 0xff in position 0: invalid start byte"
              None false true 0%Qc false sorted_listdir_lists)
    as (_ & _ & _ & _ & Hlog & Hreturns & _).
  destruct Hreturns as [r Hr]; [eexists; vm_compute; reflexivity|reflexivity|].
  exists r. split; [exact Hr|]. split; [exact (Hlog r Hr)|].
  revert Hr. vm_compute. intros [= <-]. reflexivity.
Defined.

(** The claim C7 as stated fails on a comment that is indented: the line
    [ #c] is trimmed to [#c], which starts with [#], yet it is a pattern. *)
Lemma indented_comment_is_a_pattern :
  "#c" ∈ (get_ignored_patterns (Lines [" #c"])).1
  ∧ ("#c" ∉ patterns_as_claimed [" #c"])
  ∧ (get_ignored_patterns (Lines [" #c"])).1 ≠ patterns_as_claimed [" #c"].
Proof.
  assert ("#c" ∈ (get_ignored_patterns (Lines [" #c"])).1) as Hin.
  { cbn. set_solver. }
  assert ("#c" ∉ patterns_as_claimed [" #c"]) as Hout.
  { unfold patterns_as_claimed. cbn. set_solver. }
  split_and!; [done..|]. intros Heq. by rewrite Heq in Hin.
Qed.

(** C7, amended. The patterns are the trimmed texts of the lines that are
    not blank once trimmed and that do not start with [#] as they stand in
    the file, before trimming; the other lines give no pattern, and
    nothing is printed. *)
Theorem ignore_lines_to_patterns (ls : list string) (p : string) :
  (p ∈ (get_ignored_patterns (Lines ls)).1 ↔
   ∃ line, line ∈ ls ∧ Py.strip line ≠ "" ∧ Py.startswith line "#" = false
           ∧ p = Py.strip line)
  ∧ (get_ignored_patterns (Lines ls)).2 = [].
Proof.
  split; [|done]. cbn. rewrite elem_of_list_to_set, list_elem_of_fmap.
  unfold pattern_line. split.
  - intros (line & -> & [Hl Hin]%list_elem_of_filter). exists line.
    apply andb_prop_elim in Hl as [Hs Hh]. apply negb_prop_elim in Hs, Hh.
    split_and!; [done| |by destruct (Py.startswith line "#")|done].
    intros Heq. apply Hs. by rewrite Heq.
  - intros (line & Hin & Hs & Hh & ->). exists line. split; [done|].
    apply list_elem_of_filter. split; [|done].
    by rewrite Hh, bool_decide_eq_false_2.
Qed.

(** ** The deferred deletion *)





(** ** The conversion to [.txt] *)

Lemma bare_guide_staged (cwd : string) :
  staged cwd "/p" bare_guide Missing None true
  = (<["structure_guide" := CopyOf "/p/structure_guide"]>
       (<[guide_name := Written (guide_text cwd ∅ "/p" bare_guide)]> ∅), 1).
Proof.
  unfold staged. cbn [get_ignored_patterns fst].
  assert (build_index ∅ "/p" bare_guide = [("structure_guide", ["/p/structure_guide"])])
    as -> by (vm_compute; reflexivity).
  reflexivity.
Qed.

(** C4, on a failing input. The project holds [notes] and [notes.txt] and
    the folder is listed in lexicographic order. Both files are copied;
    the conversion renames [notes] to [notes.txt], which replaces the copy
    of [notes.txt], and then renames that entry to [notes.txt.txt]: the
    folder ends with a single copy, that of [notes], under a name that is
    not [notes.txt], and no entry holds [notes.txt] of the project. In the
    same way, when the project holds a file [structure_guide], the
    conversion renames its copy to [structure_guide.txt] in whatever order
    the folder is listed, and the folder ends with that single entry, the
    generated guide being lost. *)
Theorem conversion_overwrites_entries :
  (lists_entries sorted_listdir
   ∧ sorted_listdir (staged "/home/u" "/p" siblings Missing None true).1
     = ["notes"; "notes.txt"; "structure_guide.txt"]
   ∧ (staged "/home/u" "/p" siblings Missing None true).1 !! "notes"
     = Some (CopyOf "/p/notes")
   ∧ (staged "/home/u" "/p" siblings Missing None true).1 !! "notes.txt"
     = Some (CopyOf "/p/notes.txt")
   ∧ ∃ r, create_takeout "/home/u" (λ _, "0.0") sorted_listdir "/p" siblings Missing None
            true true 0%Qc false = Some r
       ∧ copied r = 2
       ∧ takeout r !! "notes.txt" = None
       ∧ takeout r !! "notes.txt.txt" = Some (CopyOf "/p/notes")
       ∧ ∀ m, takeout r !! m ≠ Some (CopyOf "/p/notes.txt"))
  ∧ (∀ cwd str_float listdir, lists_entries listdir →
       ∃ r, create_takeout cwd str_float listdir "/p" bare_guide Missing None
              true true 0%Qc false = Some r
         ∧ takeout r !! guide_name = Some (CopyOf "/p/structure_guide")
         ∧ ∀ m, is_Some (takeout r !! m) → m = guide_name).
Proof.
  split.
  - split_and!; [apply sorted_listdir_lists|by vm_compute..|].
    assert ((λ r, (map_to_list (takeout r), copied r))
              <$> create_takeout "/home/u" (λ _, "0.0") sorted_listdir "/p" siblings
                    Missing None true true 0%Qc false
            = Some ([(guide_name,
                      Written (guide_text "/home/u" ∅ "/p" siblings));
                     ("notes.txt.txt", CopyOf "/p/notes")], 2)) as Hrun
      by (vm_compute; reflexivity).
    destruct (create_takeout _ _ _ _ _ _ _ _ _ _ _) as [r|]; [|done].
    injection Hrun as Hlist Hcount. exists r.
    assert (∀ m c, takeout r !! m = Some c →
              (m, c) = (guide_name, Written (guide_text "/home/u" ∅ "/p" siblings))
              ∨ (m, c) = ("notes.txt.txt", CopyOf "/p/notes")) as Honly.
    { intros m c Hm%elem_of_map_to_list. rewrite Hlist in Hm.
      rewrite !elem_of_cons, elem_of_nil in Hm. tauto. }
    split_and!; [done..| | |].
    + apply eq_None_not_Some. intros [c [[=]|[=]]%Honly].
    + apply elem_of_map_to_list. rewrite Hlist. set_solver.
    + intros m [[=]|[=]]%Honly.
  - intros cwd str_float listdir Hls.
    rewrite create_takeout_stages, bare_guide_staged. cbn [fst snd].
    generalize (guide_text cwd ∅ "/p" bare_guide). intros g.
    set (D := <["structure_guide" := CopyOf "/p/structure_guide"]>
                (<[guide_name := Written g]> (∅ : folder))).
    destruct (Hls D) as [Hnd Hin].
    assert (listdir D ≡ₚ ["structure_guide"; guide_name]) as Hperm.
    { apply NoDup_Permutation; [done|by repeat constructor; set_solver|].
      intros n. rewrite Hin. unfold D.
      rewrite !lookup_insert_is_Some', lookup_empty, is_Some_alt.
      rewrite !elem_of_cons, elem_of_nil. naive_solver. }
    symmetry in Hperm. apply Permutation_length_2_inv in Hperm.
    assert (convert_all (listdir D) D
            = Some (<[guide_name := CopyOf "/p/structure_guide"]> ∅)) as ->.
    { destruct Hperm as [-> | ->]; unfold D; by vm_compute. }
    eexists. split; [done|]. cbn [takeout]. split.
    + apply lookup_insert_eq.
    + intros m. rewrite lookup_insert_is_Some', lookup_empty, is_Some_alt. naive_solver.
Qed.

(** ** A source file named like the guide *)






(** * Further properties of the code *)

(** ** Directories named by a pattern *)

Lemma walk_pruned (keep : string → bool) (top : string) (t : tree) :
  walk keep top (pruned keep t) = walk keep top t.
Proof.
  revert top. induction t as [files subdirs IH] using tree_induction; intros top.
  cbn [walk pruned]. f_equal.
  - f_equal. clear IH. induction subdirs as [|[d sub] rest IHrest]; [done|].
    cbn [flat_map fst snd]. rewrite fmap_app, filter_app, IHrest, fmap_cons, filter_cons.
    cbn [fst]. destruct (keep d) eqn:Hk.
    + rewrite (fmap_cons fst), fmap_nil, (filter_cons _ d), filter_nil. cbn [fst].
      rewrite ?Hk. by rewrite !decide_True by done.
    + rewrite ?Hk, fmap_nil, filter_nil. by case_decide.
  - induction IH as [|[d sub] rest Hsub _ IHrest]; [done|].
    cbn [flat_map fst snd]. rewrite flat_map_app, IHrest.
    destruct (keep d) eqn:Hk; cbn [flat_map fst snd]; [|done].
    rewrite Hk, app_nil_r. cbn in Hsub. by rewrite Hsub.
Qed.

Lemma os_walk_pruned (keep : string → bool) (root_dir : string) (t : tree) :
  os_walk keep root_dir (pruned keep t) = os_walk keep root_dir t.
Proof. unfold os_walk. case_bool_decide; [done|]. apply walk_pruned. Qed.

Lemma kept_not_pattern (ignore_patterns : gset string) (d : string) (ds : list string) :
  d +:+ "/" ∈ ignore_patterns →
  Forall (λ d, keep_dir ignore_patterns d = true) ds → d ∉ ds.
Proof.
  intros Hd. rewrite Forall_forall. intros Hds Hin%Hds. unfold keep_dir in Hin.
  apply andb_true_iff in Hin as [Hin%bool_decide_eq_true _]. done.
Qed.

(** X1. A directory [d] whose name followed by [/] is a loaded pattern
    is pruned at every depth, by both walks: no directory that the walk
    yields lists [d] or lies below a [d], no recorded path and no path
    of the project below a [d] is in the index, and the index and the
    guide are those of the tree without these directories. *)
Theorem pattern_directories_pruned (cwd : string) (ignore_patterns : gset string)
    (root_dir : string) (t : tree) (d : string) :
  d +:+ "/" ∈ ignore_patterns →
  (∀ it, it ∈ os_walk (keep_dir ignore_patterns) root_dir t →
     (d ∉ dirnames it)
     ∧ ∃ ds t', at_path t ds t' ∧ (d ∉ ds)
                ∧ dirpath it = foldl Path.join root_dir ds ∧ filenames it = files_of t')
  ∧ (∀ k paths p, (k, paths) ∈ build_index ignore_patterns root_dir t → p ∈ paths →
     ∃ ds t', at_path t ds t' ∧ (d ∉ ds)
              ∧ k ∈ files_of t' ∧ p = Path.join (foldl Path.join root_dir ds) k)
  ∧ (well_formed t = true →
     ∀ ds f k paths,
       Forall (λ d, valid_name d = true) ds → valid_name f = true → d ∈ ds →
       (k, paths) ∈ build_index ignore_patterns root_dir t →
       Path.join (foldl Path.join root_dir ds) f ∉ paths)
  ∧ build_index ignore_patterns root_dir (pruned (keep_dir ignore_patterns) t)
    = build_index ignore_patterns root_dir t
  ∧ guide_text cwd ignore_patterns root_dir (pruned (keep_dir ignore_patterns) t)
    = guide_text cwd ignore_patterns root_dir t.
Proof.
  intros Hd.
  assert (∀ it, it ∈ os_walk (keep_dir ignore_patterns) root_dir t →
     (d ∉ dirnames it)
     ∧ ∃ ds t', at_path t ds t' ∧ (d ∉ ds)
                ∧ dirpath it = foldl Path.join root_dir ds ∧ filenames it = files_of t')
    as Hwalk.
  { intros it (_ & ds & t' & Hat & Hkeep & ->)%os_walk_items. cbn. split.
    - intros [Hk _]%list_elem_of_filter. unfold keep_dir in Hk.
      apply Is_true_true, andb_true_iff in Hk as [Hk%bool_decide_eq_true _]. done.
    - exists ds, t'. split_and!; [done| |done..]. by apply (kept_not_pattern ignore_patterns). }
  split_and!; [done| | |..].
  - intros k paths p Hk Hp.
    destruct (build_index_paths _ _ _ _ _ _ Hk Hp) as (_ & it & Hit & Hf & ->).
    destruct (Hwalk it Hit) as (_ & ds & t' & Hat & Hnd & -> & Hfiles).
    exists ds, t'. by rewrite <-Hfiles.
  - intros Hwf ds f k paths Hds Hf Hin Hk Hp.
    destruct (indexed_path _ _ _ _ _ _ Hwf Hk Hp)
      as (_ & ds' & t' & _ & Hkeep & Hds' & _ & Hvk & Heq).
    apply join_path_inj in Heq as [-> _]; [|done..].
    by apply (kept_not_pattern ignore_patterns d ds').
  - unfold build_index. by rewrite os_walk_pruned.
  - unfold guide_text, guide_lines. by rewrite os_walk_pruned.
Qed.

Lemma pattern_directories_pruned_witness :
  build_index {["build/"]} "/p"
    (pruned (keep_dir {["build/"]}) (Dir ["a"] [("build", Dir ["o"] [])]))
  = build_index {["build/"]} "/p" (Dir ["a"] [("build", Dir ["o"] [])]).
Proof.
  apply (pattern_directories_pruned "/" {["build/"]} "/p"
           (Dir ["a"] [("build", Dir ["o"] [])]) "build").
  vm_compute. reflexivity.
Defined.

(** ** Files that the walk records *)

(** X2. Completeness of the walk: a file that is not ignored, in a
    directory reached through directories that are all kept, is recorded
    under its own name with its joined path, is the source of one of the
    copies, and has its line in the guide one level below its
    directory. *)
Theorem kept_files_recorded (cwd : string) (ignore_patterns : gset string)
    (root_dir : string) (t t' : tree) (ds : list string) (f : string) :
  root_dir ≠ "" →
  at_path t ds t' → Forall (λ d, keep_dir ignore_patterns d = true) ds →
  f ∈ files_of t' → ignored_file ignore_patterns f = false →
  (∃ paths, (f, paths) ∈ build_index ignore_patterns root_dir t
            ∧ Path.join (foldl Path.join root_dir ds) f ∈ paths)
  ∧ (∃ n, (Path.join (foldl Path.join root_dir ds) f, n)
          ∈ flat_map (group_copies cwd root_dir) (build_index ignore_patterns root_dir t))
  ∧ FileLine (level cwd root_dir (foldl Path.join root_dir ds) + 1) f
    ∈ guide_lines cwd ignore_patterns root_dir t.
Proof.
  intros Hroot Hat Hds Hf Hign.
  pose proof (walked_item _ _ _ _ _ Hroot Hat Hds) as Hit.
  assert (∃ paths, (f, paths) ∈ build_index ignore_patterns root_dir t
                   ∧ Path.join (foldl Path.join root_dir ds) f ∈ paths)
    as (paths & Hk & Hp).
  { apply build_index_entry, index_entries_elem. eexists. split; [exact Hit|]. done. }
  split_and!; [by eauto| |].
  - destruct (group_copies_source cwd root_dir (f, paths) _ Hp) as [n Hn].
    exists n. apply list_elem_of_In, in_flat_map. exists (f, paths).
    by rewrite <-!list_elem_of_In.
  - unfold guide_lines. apply list_elem_of_In, in_flat_map. eexists.
    split; [apply list_elem_of_In, Hit|]. apply list_elem_of_In.
    unfold guide_block. cbn [dirpath filenames]. right.
    apply list_elem_of_fmap. exists f. split; [done|].
    apply list_elem_of_filter. rewrite Hign. split; [done|].
    unfold sorted. by rewrite merge_sort_Permutation.
Qed.

Lemma kept_files_recorded_witness :
  ∃ paths, ("x.txt", paths) ∈ build_index ∅ "/p" two_dirs ∧ "/p/a/x.txt" ∈ paths.
Proof.
  apply (kept_files_recorded "/" ∅ "/p" two_dirs (Dir ["x.txt"] []) ["a"] "x.txt").
  - discriminate.
  - apply at_sub with (Dir ["x.txt"] []); [|apply at_here]. cbn. left.
  - repeat constructor.
  - cbn. left.
  - reflexivity.
Defined.

(** ** Counting the copies *)

Lemma copies_sources (cwd root_dir : string) (file_paths : index) :
  (flat_map (group_copies cwd root_dir) file_paths).*1 = flat_map snd file_paths.
Proof.
  induction file_paths as [|g rest IH]; [done|].
  cbn [flat_map]. by rewrite fmap_app, IH, group_copies_sources.
Qed.

Lemma index_add_paths (f p : string) (file_paths : index) :
  length (flat_map snd (index_add f p file_paths)) = S (length (flat_map snd file_paths)).
Proof.
  induction file_paths as [|[k ps] rest IH]; [done|]. simpl.
  case_bool_decide; simpl; rewrite !length_app; [|rewrite IH]; simpl; lia.
Qed.

Lemma entries_paths (entries : list (string * string)) (file_paths : index) :
  length (flat_map snd (foldl add_entry file_paths entries))
  = length (flat_map snd file_paths) + length entries.
Proof.
  revert file_paths. induction entries as [|e entries IH]; intros file_paths; simpl; [lia|].
  rewrite IH. unfold add_entry. rewrite index_add_paths. lia.
Qed.

Lemma guide_file_lines (cwd : string) (ignore_patterns : gset string) (root_dir : string)
    (items : list walk_item) :
  length (filter (λ l, is_file_line l)
            (flat_map (guide_block cwd ignore_patterns root_dir) items))
  = length (index_entries ignore_patterns items).
Proof.
  induction items as [|it items IH]; [done|].
  unfold index_entries in *. cbn [flat_map]. rewrite filter_app, !length_app, IH. f_equal.
  unfold guide_block. rewrite filter_cons, decide_False by (cbn; tauto).
  rewrite !length_fmap.
  assert (∀ l : list string,
            filter (λ l, is_file_line l)
              (FileLine (level cwd root_dir (dirpath it) + 1) <$> l)
            = FileLine (level cwd root_dir (dirpath it) + 1) <$> l) as ->.
  { intros l. induction l as [|x l IHl]; [done|].
    rewrite fmap_cons, filter_cons, decide_True by done. by rewrite IHl. }
  rewrite length_fmap. apply Permutation_length.
  unfold sorted. by rewrite merge_sort_Permutation.
Qed.

Lemma copies_size (cs : list (string * string)) (st : folder * nat) :
  size (foldl copy_step st cs).1 ≤ size st.1 + length cs.
Proof.
  revert st. induction cs as [|c cs IH]; intros st; simpl; [lia|].
  etrans; [apply IH|]. unfold copy_step, copy2. cbn [fst].
  rewrite map_size_insert. destruct (st.1 !! c.2); simpl; lia.
Qed.

Lemma convert_all_size (items : list string) (d res : folder) :
  convert_all items d = Some res → size res ≤ size d.
Proof.
  revert d. induction items as [|x rest IH]; intros d Hres.
  { injection Hres as ->. done. }
  cbn [convert_all] in Hres. unfold convert_item in Hres.
  case_bool_decide as Hg; cbn in Hres; [|by apply IH].
  unfold rename in Hres. destruct (d !! x) as [c|] eqn:Hc; [|done]. cbn in Hres.
  apply IH in Hres. etrans; [exact Hres|].
  rewrite map_size_insert.
  assert (size (delete x d) = pred (size d)) as Hdel
    by (apply map_size_delete_Some; by eexists).
  assert (size d ≠ 0) by (apply map_size_ne_0_lookup_2 with x; by eexists).
  destruct (delete x d !! _); simpl; lia.
Qed.

(** X3. The count that a run reports is the number of recorded paths,
    one call of [shutil.copy2] for each, and the number of file lines of
    the guide; the folder holds at most that many entries more than the
    guide and what was there before. *)
Theorem copied_counts_recorded_files (cwd : string) (str_float : Qc → string)
    (listdir : folder → list string) (readable : string → bool) (root_dir : string)
    (t : tree) (ignore : ignore_file) (old : option folder)
    (convert_to_txt empty_before : bool) (delete_timer : Qc) (use_gui : bool)
    (r : result) :
  create_takeout_io cwd str_float listdir readable root_dir t ignore old convert_to_txt
    empty_before delete_timer use_gui = Some r →
  copied r
  = length (flat_map snd (build_index (get_ignored_patterns ignore).1 root_dir t))
  ∧ (flat_map (group_copies cwd root_dir)
       (build_index (get_ignored_patterns ignore).1 root_dir t)).*1
    = flat_map snd (build_index (get_ignored_patterns ignore).1 root_dir t)
  ∧ copied r
    = length (filter (λ l, is_file_line l)
                (guide_lines cwd (get_ignored_patterns ignore).1 root_dir t))
  ∧ size (takeout r)
    ≤ S (copied r) + size (default (∅ : folder) (if empty_before then None else old)).
Proof.
  intros (_ & _ & Hr)%create_takeout_io_some. rewrite create_takeout_stages in Hr.
  set (pats := (get_ignored_patterns ignore).1).
  assert ((staged cwd root_dir t ignore old empty_before).2
          = length (flat_map snd (build_index pats root_dir t))) as Hcount.
  { unfold staged. rewrite copy_all_flat, copies_count. cbn [snd].
    by rewrite <-(copies_sources cwd root_dir), length_fmap. }
  assert (size (staged cwd root_dir t ignore old empty_before).1
          ≤ S (staged cwd root_dir t ignore old empty_before).2
            + size (default (∅ : folder) (if empty_before then None else old))) as Hsize.
  { rewrite Hcount. unfold staged. rewrite copy_all_flat.
    etrans; [apply copies_size|]. cbn [fst].
    rewrite <-(copies_sources cwd root_dir), length_fmap, map_size_insert.
    fold pats. destruct (_ !! guide_name); simpl; lia. }
  assert (copied r = (staged cwd root_dir t ignore old empty_before).2
          ∧ size (takeout r) ≤ size (staged cwd root_dir t ignore old empty_before).1)
    as [Hc Hs].
  { destruct convert_to_txt.
    - destruct (convert_all _ _) as [res|] eqn:Hres; [|done].
      injection Hr as <-. cbn. split; [done|]. by apply convert_all_size in Hres.
    - injection Hr as <-. done. }
  split_and!.
  - by rewrite Hc.
  - apply copies_sources.
  - rewrite Hc, Hcount. unfold guide_lines. rewrite guide_file_lines.
    unfold build_index. rewrite index_item_entries, entries_paths. done.
  - rewrite Hc. lia.
Qed.

Lemma copied_counts_recorded_files_witness :
  ∃ r, create_takeout_io "/" (λ _, "0.0") sorted_listdir (λ _, true) "/p" siblings
         Missing None true true 0%Qc false = Some r
       ∧ copied r = 2 ∧ size (takeout r) ≤ 3.
Proof.
  destruct (create_takeout_io "/" (λ _, "0.0") sorted_listdir (λ _, true) "/p" siblings
              Missing None true true 0%Qc false) as [r|] eqn:Hr;
    [|by vm_compute in Hr].
  exists r. split; [reflexivity|].
  destruct (copied_counts_recorded_files _ _ _ _ _ _ _ _ _ _ _ _ r Hr)
    as (Hc & _ & _ & Hs).
  split; [exact Hc|]. rewrite Hc in Hs. exact Hs.
Defined.

(** ** Names and contents after the conversion *)

Lemma convert_all_names (items : list string) (d res : folder) :
  convert_all items d = Some res →
  (∀ m, is_Some (d !! m) → m ∈ items ∨ Py.endswith m ".txt" = true) →
  ∀ m, is_Some (res !! m) → Py.endswith m ".txt" = true.
Proof.
  revert d. induction items as [|x rest IH]; intros d Hres Hd.
  { injection Hres as ->. intros m [[]%elem_of_nil|]%Hd. done. }
  cbn [convert_all] in Hres. unfold convert_item in Hres.
  case_bool_decide as Hg; cbn in Hres.
  - unfold rename in Hres. destruct (d !! x) as [c|] eqn:Hc; [|done]. cbn in Hres.
    apply (IH _ Hres). intros m Hm.
    destruct (decide (m = x +:+ ".txt")) as [->|Hne]; [right; apply endswith_app|].
    rewrite lookup_insert_ne in Hm by done.
    destruct (decide (m = x)) as [->|Hmx]; [by rewrite lookup_delete_eq in Hm; destruct Hm|].
    rewrite lookup_delete_ne in Hm by done.
    destruct (Hd m Hm) as [[->|]%elem_of_cons|]; [done|by left|by right].
  - apply (IH _ Hres). intros m Hm.
    destruct (Hd m Hm) as [[->|]%elem_of_cons|]; [|by left|by right].
    right. by rewrite Hg.
Qed.

Lemma convert_all_contents (items : list string) (d res : folder) (m : string)
    (c : content) :
  convert_all items d = Some res → res !! m = Some c → ∃ n, d !! n = Some c.
Proof.
  revert d. induction items as [|x rest IH]; intros d Hres Hm.
  { injection Hres as ->. eauto. }
  cbn [convert_all] in Hres. unfold convert_item in Hres.
  case_bool_decide as Hg; cbn in Hres; [|by eapply IH].
  unfold rename in Hres. destruct (d !! x) as [c'|] eqn:Hc; [|done]. cbn in Hres.
  destruct (IH _ Hres Hm) as [n Hn].
  destruct (decide (n = x +:+ ".txt")) as [->|Hne].
  - rewrite lookup_insert_eq in Hn. injection Hn as <-. eauto.
  - rewrite lookup_insert_ne in Hn by done.
    destruct (decide (n = x)) as [->|Hnx]; [by rewrite lookup_delete_eq in Hn|].
    rewrite lookup_delete_ne in Hn by done. eauto.
Qed.

(** X4. After a run that converts, every name of the folder ends in
    [.txt]; the run that does not convert succeeds too, every content
    of the converted folder is one of the other folder, which holds no
    fewer entries, and both report the same count. *)
Theorem converted_names_end_in_txt (cwd : string) (str_float : Qc → string)
    (listdir : folder → list string) (readable : string → bool) (root_dir : string)
    (t : tree) (ignore : ignore_file) (old : option folder)
    (empty_before : bool) (delete_timer : Qc) (use_gui : bool) (r : result) :
  lists_entries listdir →
  create_takeout_io cwd str_float listdir readable root_dir t ignore old true
    empty_before delete_timer use_gui = Some r →
  (∀ m, is_Some (takeout r !! m) → Py.endswith m ".txt" = true)
  ∧ ∃ r0,
      create_takeout_io cwd str_float listdir readable root_dir t ignore old false
        empty_before delete_timer use_gui = Some r0
      ∧ (∀ m c, takeout r !! m = Some c → ∃ n, takeout r0 !! n = Some c)
      ∧ size (takeout r) ≤ size (takeout r0)
      ∧ copied r = copied r0.
Proof.
  intros Hls (Hguide & Hread & Hr)%create_takeout_io_some.
  rewrite create_takeout_stages in Hr.
  set (D := (staged cwd root_dir t ignore old empty_before).1) in *.
  destruct (Hls D) as [Hnd Hin].
  destruct (convert_all (listdir D) D) as [res|] eqn:Hres; [|done].
  injection Hr as <-. cbn [takeout copied]. split.
  - apply (convert_all_names _ _ _ Hres). intros m Hm. left. by apply Hin.
  - eexists. split.
    + apply create_takeout_io_some. split_and!; [done..|].
      by rewrite create_takeout_stages.
    + cbn [takeout copied]. split_and!; [|by apply convert_all_size in Hres|done].
      intros m c. apply (convert_all_contents _ _ _ _ _ Hres).
Qed.

Lemma converted_names_end_in_txt_witness :
  ∃ r, create_takeout_io "/" (λ _, "0.0") sorted_listdir (λ _, true) "/p" siblings
         Missing None true true 0%Qc false = Some r
       ∧ ∀ m, is_Some (takeout r !! m) → Py.endswith m ".txt" = true.
Proof.
  destruct (create_takeout_io "/" (λ _, "0.0") sorted_listdir (λ _, true) "/p" siblings
              Missing None true true 0%Qc false) as [r|] eqn:Hr;
    [|by vm_compute in Hr].
  exists r. split; [reflexivity|].
  apply (converted_names_end_in_txt _ _ _ _ _ _ _ _ _ _ _ r sorted_listdir_lists Hr).
Defined.

(** ** Entries that were there before, and names that no two files share *)





(** ** Patterns that match nothing *)

Lemma filter_ext_elem {A} (P Q : A → Prop) `{∀ x, Decision (P x)} `{∀ x, Decision (Q x)}
    (l : list A) :
  (∀ x, x ∈ l → P x ↔ Q x) → filter P l = filter Q l.
Proof.
  induction l as [|x l IH]; intros Hl; [done|].
  rewrite !filter_cons, IH by (intros y Hy; apply Hl; by right).
  destruct (decide (P x)) as [HP|HP], (decide (Q x)) as [HQ|HQ]; try done.
  - destruct HQ. apply Hl; [by left|done].
  - destruct HP. apply Hl; [by left|done].
Qed.

Lemma flat_map_ext_elem {A B} (f g : A → list B) (l : list A) :
  (∀ x, x ∈ l → f x = g x) → flat_map f l = flat_map g l.
Proof.
  induction l as [|x l IH]; intros Hl; [done|].
  cbn [flat_map]. rewrite IH by (intros y Hy; apply Hl; by right).
  by rewrite Hl by by left.
Qed.

Lemma wildcard_match_spec (ignore_patterns : gset string) (f : string) :
  wildcard_match ignore_patterns f = true ↔
  ∃ p, p ∈ ignore_patterns ∧ Py.startswith p "*." = true
       ∧ Py.endswith f (Py.tail p) = true.
Proof.
  unfold wildcard_match. rewrite existsb_exists. split.
  - intros (p & [Hs Hp%elem_of_elements]%list_elem_of_In%list_elem_of_filter & He).
    exists p. split_and!; [done| |done]. by destruct (Py.startswith p "*.").
  - intros (p & Hp & Hs & He). exists p. split; [|done].
    apply list_elem_of_In, list_elem_of_filter. rewrite Hs. split; [done|].
    by apply elem_of_elements.
Qed.

Lemma walk_ext (keep keep' : string → bool) (top : string) (t : tree) :
  well_formed t = true → (∀ d, valid_name d = true → keep d = keep' d) →
  walk keep top t = walk keep' top t.
Proof.
  intros Hwf Hk. revert top Hwf.
  induction t as [files subdirs IH] using tree_induction; intros top Hwf.
  cbn in Hwf. apply andb_true_iff in Hwf as [_ Hsubs]. rewrite forallb_forall in Hsubs.
  cbn [walk]. f_equal.
  - f_equal. apply filter_ext_elem. intros d ([d' sub] & -> & Hin)%list_elem_of_fmap.
    apply list_elem_of_In, Hsubs, andb_true_iff in Hin as [Hd _]. cbn in *.
    by rewrite (Hk d' Hd).
  - apply flat_map_ext_elem. intros [d sub] Hin. rewrite Forall_forall in IH.
    pose proof (IH _ Hin) as IHsub.
    apply list_elem_of_In, Hsubs, andb_true_iff in Hin as [Hd Hsub]. cbn in *.
    rewrite <-(Hk d Hd). destruct (keep d); [|done]. by apply IHsub.
Qed.

Lemma walked_names_valid (keep : string → bool) (root_dir : string) (t : tree)
    (it : walk_item) :
  well_formed t = true → it ∈ os_walk keep root_dir t →
  Forall (λ f, valid_name f = true) (filenames it).
Proof.
  intros Hwf (_ & ds & t' & Hat & _ & ->)%os_walk_items. cbn.
  destruct (at_path_well_formed _ _ _ Hat Hwf) as [_ Hwf'].
  destruct t' as [files subdirs]. cbn in *.
  apply andb_true_iff in Hwf' as [Hfiles _]. rewrite forallb_forall in Hfiles.
  apply Forall_forall. intros f Hf. by apply Hfiles, list_elem_of_In.
Qed.

Lemma count_pos_app (c : ascii) (a b : string) :
  0 < Py.count c (a +:+ String c b).
Proof. rewrite count_app. simpl. rewrite bool_decide_eq_true_2 by done. lia. Qed.

Section PathPattern.

Context (ignore_patterns : gset string) (a b : string).
Hypothesis inner : b ≠ "".

Lemma path_pattern_no_directory (d : string) :
  valid_name d = true →
  keep_dir (ignore_patterns ∪ {[a +:+ "/" +:+ b]}) d = keep_dir ignore_patterns d.
Proof.
  intros (_ & _ & _ & Hd)%valid_name_spec. unfold keep_dir. f_equal.
  apply bool_decide_ext. rewrite not_elem_of_union, not_elem_of_singleton.
  split; [tauto|]. intros Hin. split; [done|]. intros Heq.
  assert (Py.count "/" (d +:+ "/") = Py.count "/" (a +:+ "/" +:+ b)) as Hc
    by by rewrite Heq.
  rewrite !count_app in Hc. unfold Path.sep in Hd. rewrite Hd in Hc. simpl in Hc.
  assert (Py.count "/" b = 0) as Hb by lia.
  pose proof (endswith_app d "/") as He. rewrite Heq, <-sapp_assoc in He.
  by rewrite endswith_plain in He.
Qed.

Lemma path_pattern_no_file (f : string) :
  valid_name f = true →
  ignored_file (ignore_patterns ∪ {[a +:+ "/" +:+ b]}) f = ignored_file ignore_patterns f.
Proof.
  intros (_ & _ & _ & Hf)%valid_name_spec. unfold Path.sep in Hf.
  pose proof (count_pos_app "/" a b) as Hpos.
  unfold ignored_file. f_equal.
  - apply bool_decide_ext. rewrite elem_of_union, elem_of_singleton.
    split; [|tauto]. intros [?| ->]; [done|]. change (a +:+ "/" +:+ b) with (a +:+ String "/" b) in Hf. lia.
  - apply eq_true_iff_eq. rewrite !wildcard_match_spec.
    split; intros (p & Hp & Hs & He); exists p; (split_and!; [|done..]).
    + apply elem_of_union in Hp as [Hp| ->%elem_of_singleton]; [done|].
      apply endswith_inv in He as [x ->]. rewrite count_app in Hf.
      destruct a as [|c a']; [done|]. cbn [Py.tail] in Hf.
      rewrite sapp_cons in Hs, Hpos. cbn in Hs, Hpos.
      apply andb_true_iff in Hs as [<-%bool_decide_eq_true _].
      rewrite bool_decide_eq_false_2 in Hpos by done. rewrite sapp_cons in Hf.
      cbn [Py.tail] in Hf. change (a' +:+ "/" +:+ b) with (a' +:+ String "/" b) in Hf.
      unfold Path.sep in *. lia.
    + apply elem_of_union. by left.
Qed.

End PathPattern.

(** X7. A pattern with a separator followed by more text matches
    nothing: directories are compared by their name followed by [/],
    files by their name or its suffix, and no name holds a separator.
    The walk, the index and the guide are those of the other
    patterns. *)
Theorem path_patterns_match_nothing (cwd : string) (ignore_patterns : gset string)
    (a b : string) (root_dir : string) (t : tree) :
  b ≠ "" → well_formed t = true →
  os_walk (keep_dir (ignore_patterns ∪ {[a +:+ "/" +:+ b]})) root_dir t
  = os_walk (keep_dir ignore_patterns) root_dir t
  ∧ build_index (ignore_patterns ∪ {[a +:+ "/" +:+ b]}) root_dir t
    = build_index ignore_patterns root_dir t
  ∧ guide_text cwd (ignore_patterns ∪ {[a +:+ "/" +:+ b]}) root_dir t
    = guide_text cwd ignore_patterns root_dir t.
Proof.
  intros Hb Hwf.
  assert (os_walk (keep_dir (ignore_patterns ∪ {[a +:+ "/" +:+ b]})) root_dir t
          = os_walk (keep_dir ignore_patterns) root_dir t) as Hwalk.
  { unfold os_walk. case_bool_decide; [done|]. apply walk_ext; [done|].
    intros d Hd. by apply path_pattern_no_directory. }
  split_and!; [done| |].
  - unfold build_index. rewrite Hwalk, !index_item_entries. f_equal.
    unfold index_entries. apply flat_map_ext_elem. intros it Hit. f_equal.
    apply filter_ext_elem. intros f Hf.
    pose proof (walked_names_valid _ _ _ _ Hwf Hit) as Hv. rewrite Forall_forall in Hv.
    by rewrite path_pattern_no_file by auto.
  - unfold guide_text.
    assert (guide_lines cwd (ignore_patterns ∪ {[a +:+ "/" +:+ b]}) root_dir t
            = guide_lines cwd ignore_patterns root_dir t) as Hg; [|by rewrite Hg].
    unfold guide_lines. rewrite Hwalk. apply flat_map_ext_elem. intros it Hit. unfold guide_block. do 2 f_equal.
    apply filter_ext_elem. intros f Hf.
    pose proof (walked_names_valid _ _ _ _ Hwf Hit) as Hv. rewrite Forall_forall in Hv.
    rewrite path_pattern_no_file; [done|]. apply Hv.
    unfold sorted in Hf. by rewrite merge_sort_Permutation in Hf.
Qed.

Lemma path_patterns_match_nothing_witness :
  build_index ({["*.log"]} ∪ {["a" +:+ "/" +:+ "x.txt"]}) "/p" two_dirs
  = build_index {["*.log"]} "/p" two_dirs.
Proof.
  apply (path_patterns_match_nothing "/" {["*.log"]} "a" "x.txt" "/p" two_dirs);
    [discriminate|reflexivity].
Defined.

(** ** Trimmed text *)

Lemma rev_app_sapp (s1 s2 : string) : String.rev_app s1 s2 = String.rev s1 +:+ s2.
Proof.
  revert s2. induction s1 as [|a s1 IH]; intros s2; [done|].
  unfold String.rev. cbn [String.rev_app]. by rewrite IH, (IH (String a "")), sapp_assoc.
Qed.

Lemma rev_sapp (s1 s2 : string) : String.rev (s1 +:+ s2) = String.rev s2 +:+ String.rev s1.
Proof.
  induction s1 as [|a s1 IH]; [by rewrite sapp_nil_r|].
  rewrite sapp_cons. unfold String.rev at 1 3. cbn [String.rev_app].
  by rewrite !rev_app_sapp, IH, sapp_assoc.
Qed.

Lemma rev_rev (s : string) : String.rev (String.rev s) = s.
Proof.
  induction s as [|a s IH]; [done|].
  unfold String.rev at 2. cbn [String.rev_app]. by rewrite rev_app_sapp, rev_sapp, IH.
Qed.

Lemma strip_front_suffix (back : bool) (s : string) :
  ∃ x, s = x +:+ Py.strip_front back s.
Proof.
  assert (∀ n s, String.length s ≤ n → ∃ x, s = x +:+ Py.strip_front back s) as Hn;
    [|by apply (Hn (String.length s))].
  clear s. intros n. induction n as [|n IH]; intros s Hle; [destruct s; [by exists ""|simpl in Hle; lia]|].
  destruct s as [|a s1]; [by exists ""|]. cbn [Py.strip_front]. cbn in Hle.
  destruct (Py.space1 a).
  { destruct (IH s1) as [x Hx]; [lia|]. exists (String a x). by rewrite sapp_cons, <-Hx. }
  destruct s1 as [|b s2]; [by exists ""|]. cbn in Hle.
  destruct (if back then Py.space2 b a else Py.space2 a b).
  { destruct (IH s2) as [x Hx]; [lia|]. exists (String a (String b x)).
    by rewrite !sapp_cons, <-Hx. }
  destruct s2 as [|c s3]; [by exists ""|]. cbn in Hle.
  destruct (if back then Py.space3 c b a else Py.space3 a b c); [|by exists ""].
  destruct (IH s3) as [x Hx]; [lia|]. exists (String a (String b (String c x))).
  by rewrite !sapp_cons, <-Hx.
Qed.

Lemma strip_front_length (back : bool) (s : string) :
  String.length (Py.strip_front back s) ≤ String.length s.
Proof.
  destruct (strip_front_suffix back s) as [x Hx].
  apply (f_equal String.length) in Hx. rewrite sapp_length in Hx. lia.
Qed.

Lemma strip_front_idemp (back : bool) (s : string) :
  Py.strip_front back (Py.strip_front back s) = Py.strip_front back s.
Proof.
  assert (∀ n s, String.length s ≤ n → Py.strip_front back (Py.strip_front back s) = Py.strip_front back s) as Hn;
    [|by apply (Hn (String.length s))].
  clear s. intros n. induction n as [|n IH]; intros s Hle;
    [destruct s; [done|simpl in Hle; lia]|].
  destruct s as [|a s1]; [done|]. cbn [Py.strip_front]. cbn in Hle.
  destruct (Py.space1 a) eqn:H1; [apply IH; lia|].
  destruct s1 as [|b s2]; [cbn; by rewrite H1|]. cbn in Hle.
  destruct (if back then Py.space2 b a else Py.space2 a b) eqn:H2; [apply IH; lia|].
  destruct s2 as [|c s3]; [cbn [Py.strip_front]; by rewrite H1, H2|]. cbn in Hle.
  destruct (if back then Py.space3 c b a else Py.space3 a b c) eqn:H3; [apply IH; lia|].
  cbn [Py.strip_front]. by rewrite H1, H2, H3.
Qed.

(** A text that does not start with whitespace has no prefix that does. *)
Lemma strip_front_prefix (y z : string) :
  Py.strip_front false (y +:+ z) = y +:+ z → Py.strip_front false y = y.
Proof.
  assert (∀ (x s : string), x ≠ "" → Py.strip_front false s ≠ x +:+ s) as Hshort.
  { intros x s Hx Heq. pose proof (strip_front_length false s) as Hl.
    rewrite Heq, sapp_length in Hl. destruct x; [done|]. simpl in Hl. lia. }
  destruct y as [|a y1]; [done|]. rewrite sapp_cons. cbn [Py.strip_front].
  destruct (Py.space1 a).
  { intros Heq. by apply (Hshort (String a "")) in Heq. }
  destruct y1 as [|b y2]; [done|]. rewrite sapp_cons.
  destruct (Py.space2 a b).
  { intros Heq. by apply (Hshort (String a (String b ""))) in Heq. }
  destruct y2 as [|c y3]; [done|]. rewrite sapp_cons.
  destruct (Py.space3 a b c); [|done].
  intros Heq. by apply (Hshort (String a (String b (String c "")))) in Heq.
Qed.

Lemma strip_idemp (s : string) : Py.strip (Py.strip s) = Py.strip s.
Proof.
  unfold Py.strip, Py.rstrip, Py.lstrip.
  set (x := Py.strip_front false s).
  set (y := String.rev (Py.strip_front true (String.rev x))).
  assert (Py.strip_front false y = y) as ->.
  { destruct (strip_front_suffix true (String.rev x)) as [w Hw].
    apply (f_equal String.rev) in Hw. rewrite rev_rev, rev_sapp in Hw. fold y in Hw.
    apply (strip_front_prefix y (String.rev w)). rewrite <-Hw.
    apply strip_front_idemp. }
  unfold y. by rewrite rev_rev, strip_front_idemp.
Qed.

(** X8. Every loaded pattern is not empty and carries no whitespace
    at either end, so a name that does cannot be matched literally;
    there are at most as many patterns as lines. *)
Theorem loaded_patterns_trimmed (f : ignore_file) :
  (∀ p, p ∈ (get_ignored_patterns f).1 → p ≠ "" ∧ Py.strip p = p)
  ∧ (∀ name, Py.strip name ≠ name → name ∉ (get_ignored_patterns f).1)
  ∧ (∀ ls, f = Lines ls → size (get_ignored_patterns f).1 ≤ length ls).
Proof.
  assert (∀ p, p ∈ (get_ignored_patterns f).1 → p ≠ "" ∧ Py.strip p = p) as Htrim.
  { destruct f as [|e|ls]; cbn [get_ignored_patterns fst]; [set_solver..|].
    intros p (line & -> & [Hline _]%list_elem_of_filter)%elem_of_list_to_set%list_elem_of_fmap.
    unfold pattern_line in Hline.
    apply Is_true_true, andb_true_iff in Hline as [Hne%negb_true_iff%bool_decide_eq_false _].
    split; [done|apply strip_idemp]. }
  split_and!; [done| |].
  - intros name Hname Hin. by apply Htrim in Hin as [_ ?].
  - intros ls ->. cbn [get_ignored_patterns fst].
    etrans; [|apply (length_filter (λ line, pattern_line line))].
    rewrite <-(length_fmap Py.strip). generalize (Py.strip <$> filter (λ line, pattern_line line) ls).
    intros l. induction l as [|x l IH]; [done|]. cbn [list_to_set length].
    rewrite size_union_alt, size_singleton.
    assert (size ((list_to_set l : gset string) ∖ {[x]}) ≤ size (list_to_set l : gset string))
      by (apply subseteq_size; set_solver).
    lia.
Qed.

(** ** Names without underscores *)

Lemma at_path_plain (t t' : tree) (ds : list string) :
  at_path t ds t' → plain_names t = true →
  Forall (λ d, plain d = true) ds ∧ plain_names t' = true.
Proof.
  induction 1 as [|t d sub ds t' Hin _ IH]; [done|]. intros Hpl.
  destruct t as [files subdirs]. cbn in Hpl, Hin.
  apply andb_true_iff in Hpl as [_ Hsubs]. rewrite forallb_forall in Hsubs.
  apply list_elem_of_In, Hsubs, andb_true_iff in Hin as [Hd Hsub].
  destruct (IH Hsub). auto.
Qed.

Lemma split_concat (c : ascii) (l : list string) :
  l ≠ [] → Forall (λ x, Py.count c x = 0) l →
  Py.split c (String.concat (String c "") l) = l.
Proof.
  intros Hl Hall. induction Hall as [|x l Hx Hall IH]; [done|].
  destruct l as [|y l]; [by apply split_plain|].
  rewrite sconcat_cons, sapp_one, split_app, IH, split_plain by done. done.
Qed.

Lemma concat_plain_inj (c : ascii) (l l' : list string) :
  l ≠ [] → l' ≠ [] →
  Forall (λ x, Py.count c x = 0) l → Forall (λ x, Py.count c x = 0) l' →
  String.concat (String c "") l = String.concat (String c "") l' → l = l'.
Proof.
  intros Hl Hl' Hall Hall' Heq. apply (f_equal (Py.split c)) in Heq.
  by rewrite !split_concat in Heq.
Qed.

Lemma flat_name_inj (ds ds' : list string) (k k' : string) :
  Forall (λ d, valid_name d = true) ds → Forall (λ d, valid_name d = true) ds' →
  Forall (λ d, plain d = true) ds → Forall (λ d, plain d = true) ds' →
  plain k = true → plain k' = true →
  flat_name ds k = flat_name ds' k' → ds = ds' ∧ k = k'.
Proof.
  intros Hv Hv' Hp Hp' Hk Hk' Heq. unfold flat_name in Heq.
  assert (∀ l f, Forall (λ d, plain d = true) l → plain f = true →
            Forall (λ x, Py.count "_" x = 0)
              (match l with [] => ["."] | _ => l end ++ [f])) as Hall.
  { intros l f Hl Hf. apply Forall_app. split.
    - destruct l; [by repeat constructor|].
      eapply Forall_impl; [exact Hl|]. intros x. apply bool_decide_eq_true.
    - repeat constructor. by apply bool_decide_eq_true in Hf. }
  apply (concat_plain_inj "_") in Heq; [|by destruct ds|by destruct ds'|by apply Hall..].
  apply app_inj_2 in Heq as [Hds [= ->]]; [|done]. split; [|done].
  destruct ds as [|d ds], ds' as [|d' ds']; [done| | |done].
  - injection Hds as <- <-. by apply Forall_inv in Hv'.
  - injection Hds as -> ->. by apply Forall_inv in Hv.
Qed.

Lemma flat_name_underscore (ds : list string) (k : string) :
  0 < Py.count "_" (flat_name ds k).
Proof.
  unfold flat_name.
  assert (∀ x l, 0 < Py.count "_" (String.concat "_" (x :: l ++ [k]))) as Hpos.
  { intros x l. destruct l as [|y l]; cbn [app].
    - rewrite sconcat_cons, sapp_one. apply count_pos_app.
    - rewrite sconcat_cons, sapp_one. apply count_pos_app. }
  destruct ds as [|d ds]; apply Hpos.
Qed.

(** Where a copy comes from: the group and the directory of its source. *)
Lemma copy_origin (cwd : string) (ignore_patterns : gset string) (root_dir : string)
    (t : tree) (q m : string) :
  well_formed t = true → plain_names t = true →
  (q, m) ∈ flat_map (group_copies cwd root_dir) (build_index ignore_patterns root_dir t) →
  ∃ k paths ds,
    (k, paths) ∈ build_index ignore_patterns root_dir t ∧ q ∈ paths
    ∧ Forall (λ d, valid_name d = true) ds ∧ Forall (λ d, plain d = true) ds
    ∧ plain k = true
    ∧ q = Path.join (foldl Path.join root_dir ds) k
    ∧ m = (if decide (length paths = 1) then k else flat_name ds k).
Proof.
  intros Hwf Hpl ([k paths] & Hg%list_elem_of_In & Hq%list_elem_of_In)%list_elem_of_In%in_flat_map.
  assert (q ∈ paths ∧ m = if decide (length paths = 1) then k
                          else unique_name cwd root_dir q k) as [Hin Hm].
  { unfold group_copies in Hq. cbn [fst snd] in Hq.
    destruct paths as [|p [|p' rest]]; [by apply elem_of_nil in Hq| |].
    - apply list_elem_of_singleton in Hq. injection Hq as -> ->. split; [by left|done].
    - apply list_elem_of_fmap in Hq as (x & [= -> ->] & Hx). done. }
  destruct (indexed_path _ _ _ _ _ _ Hwf Hg Hin)
    as (Hroot & ds & t' & Hat & _ & Hds & Hf & Hvk & ->).
  destruct (at_path_plain _ _ _ Hat Hpl) as [Hpds Hpl'].
  exists k, paths, ds. split_and!; [done..| |done|].
  - destruct t' as [files subdirs]. cbn in Hpl', Hf.
    apply andb_true_iff in Hpl' as [Hfiles _]. rewrite forallb_forall in Hfiles.
    by apply Hfiles, list_elem_of_In.
  - rewrite Hm. case_decide; [done|].
    apply unique_name_flat; [by apply joins_nonempty|by apply abs_parts_joins|done..].
Qed.

(** X9. In a project without underscore in the names of its files and
    directories no copy overwrites another: after a run that does not
    convert, every recorded path is the source of the entry of its
    name, which is the name of the file when no other file has it and
    the flattened relative path otherwise. *)
Theorem plain_names_lose_no_copy (cwd : string) (str_float : Qc → string)
    (listdir : folder → list string) (readable : string → bool) (root_dir : string)
    (t : tree) (ignore : ignore_file) (old : option folder)
    (empty_before : bool) (delete_timer : Qc) (use_gui : bool) (r : result) :
  well_formed t = true → plain_names t = true →
  create_takeout_io cwd str_float listdir readable root_dir t ignore old false
    empty_before delete_timer use_gui = Some r →
  ∀ k paths p,
    (k, paths) ∈ build_index (get_ignored_patterns ignore).1 root_dir t → p ∈ paths →
    takeout r !! (if decide (length paths = 1) then k
                  else unique_name cwd root_dir p k)
    = Some (CopyOf p).
Proof.
  intros Hwf Hpl (_ & _ & Hr)%create_takeout_io_some. rewrite create_takeout_stages in Hr.
  injection Hr as <-.
  cbn [takeout]. set (pats := (get_ignored_patterns ignore).1).
  intros k paths p Hk Hp.
  set (n := if decide (length paths = 1) then k else unique_name cwd root_dir p k).
  assert ((p, n) ∈ flat_map (group_copies cwd root_dir) (build_index pats root_dir t))
    as Hcopy.
  { apply list_elem_of_In, in_flat_map. exists (k, paths).
    rewrite <-!list_elem_of_In. split; [done|]. unfold n. case_decide as Hlen.
    - destruct paths as [|p' [|]]; [done| |done].
      apply list_elem_of_singleton in Hp as ->. unfold group_copies. cbn. by left.
    - by apply group_copies_shared. }
  apply staged_holds; [done|]. fold pats. intros q Hq.
  destruct (copy_origin _ _ _ _ _ _ Hwf Hpl Hcopy)
    as (k1 & paths1 & ds1 & Hk1 & Hp1 & Hv1 & Hpl1 & Hpk1 & -> & Hn1).
  destruct (copy_origin _ _ _ _ _ _ Hwf Hpl Hq)
    as (k2 & paths2 & ds2 & Hk2 & Hp2 & Hv2 & Hpl2 & Hpk2 & -> & Hn2).
  rewrite Hn1 in Hn2.
  destruct (decide (length paths1 = 1)) as [Hl1|Hl1],
           (decide (length paths2 = 1)) as [Hl2|Hl2].
  - subst k2. apply build_index_elem in Hk1. apply build_index_elem in Hk2.
    assert (paths1 = paths2) as <- by congruence.
    destruct paths1 as [|x [|]]; [done| |done].
    apply list_elem_of_singleton in Hp1, Hp2. congruence.
  - pose proof (flat_name_underscore ds2 k2) as Hpos. rewrite <-Hn2 in Hpos.
    apply bool_decide_eq_true in Hpk1. lia.
  - pose proof (flat_name_underscore ds1 k1) as Hpos. rewrite Hn2 in Hpos.
    apply bool_decide_eq_true in Hpk2. lia.
  - apply flat_name_inj in Hn2 as [-> ->]; done.
Qed.

Lemma plain_names_lose_no_copy_witness :
  ∃ r, create_takeout_io "/" (λ _, "0.0") sorted_listdir (λ _, true) "/p" three_dirs
         Missing None false true 0%Qc false = Some r
       ∧ takeout r !! "b_x" = Some (CopyOf "/p/b/x").
Proof.
  destruct (create_takeout_io "/" (λ _, "0.0") sorted_listdir (λ _, true) "/p" three_dirs
              Missing None false true 0%Qc false) as [r|] eqn:Hr;
    [|by vm_compute in Hr].
  exists r. split; [reflexivity|].
  apply (plain_names_lose_no_copy "/" (λ _, "0.0") sorted_listdir (λ _, true) "/p"
           three_dirs Missing None true 0%Qc false r eq_refl eq_refl Hr
           "x" ["/p/a/x"; "/p/b/x"; "/p/c/x"] "/p/b/x"); [|right; left].
  vm_compute. left.
Defined.

(** ** The groups of the index *)

(** X10. The index as a dictionary: its keys are distinct, every key is
    a name that is not ignored and stands for a list of paths that is
    not empty, looking a key up gives its list, and every path of the
    list ends in the key. *)
Theorem file_index_groups (ignore_patterns : gset string) (root_dir : string) (t : tree) :
  NoDup (build_index ignore_patterns root_dir t).*1
  ∧ (∀ k paths, (k, paths) ∈ build_index ignore_patterns root_dir t →
       paths ≠ [] ∧ ignored_file ignore_patterns k = false
       ∧ index_lookup k (build_index ignore_patterns root_dir t) = Some paths)
  ∧ (∀ k, k ∉ (build_index ignore_patterns root_dir t).*1 →
       index_lookup k (build_index ignore_patterns root_dir t) = None)
  ∧ (well_formed t = true →
     ∀ k paths p, (k, paths) ∈ build_index ignore_patterns root_dir t → p ∈ paths →
                  Path.basename p = k).
Proof.
  assert (NoDup (build_index ignore_patterns root_dir t).*1) as Hnd.
  { unfold build_index. rewrite index_item_entries. apply entries_keys_nodup. constructor. }
  split_and!; [done| | |].
  - intros k paths Hk. split_and!.
    + apply build_index_elem in Hk. rewrite build_index_lookup in Hk.
      destruct (group_of _ _); [done|]. by injection Hk as <-.
    + destruct paths as [|p paths].
      * apply build_index_elem in Hk. rewrite build_index_lookup in Hk.
        by destruct (group_of _ _).
      * by destruct (build_index_paths _ _ _ k p _ Hk) as [? _]; [left|].
    + by apply build_index_elem.
  - intros k Hk. destruct (index_lookup k _) as [paths|] eqn:Hl; [|done].
    apply build_index_elem in Hl. destruct Hk. apply list_elem_of_fmap. by exists (k, paths).
  - intros Hwf k paths p Hk Hp.
    destruct (indexed_path _ _ _ _ _ _ Hwf Hk Hp) as (_ & ds & t' & _ & _ & _ & _ & Hv & ->).
    by apply basename_join.
Qed.

(** ** Where the copies go *)

Lemma count_replace (c r : ascii) (s : string) : r ≠ c → Py.count c (Py.replace c r s) = 0.
Proof.
  intros Hr. induction s as [|a s IH]; [done|]. simpl. rewrite IH.
  destruct (decide (a = c)) as [->|Hac].
  - rewrite (bool_decide_eq_true_2 (c = c)) by done. by rewrite bool_decide_eq_false_2.
  - rewrite (bool_decide_eq_false_2 (a = c)) by done. by rewrite bool_decide_eq_false_2.
Qed.

Lemma flat_name_valid (cwd root_dir p k : string) (ds : list string) :
  unique_name cwd root_dir p k = flat_name ds k → valid_name (flat_name ds k) = true.
Proof.
  intros Hname. apply valid_name_spec.
  pose proof (flat_name_underscore ds k) as Hpos.
  split_and!; try (intros Heq; rewrite Heq in Hpos; simpl in Hpos; lia).
  rewrite <-Hname. unfold unique_name. by apply count_replace.
Qed.

(** X11. The name given to a copy holds no separator, so the copy is
    an entry of [.takeout] itself: the destination is [.takeout]
    followed by that name, below the root. *)
Theorem copies_stay_in_the_folder (cwd : string) (ignore_patterns : gset string)
    (root_dir : string) (t : tree) (p n : string) :
  well_formed t = true →
  (p, n) ∈ flat_map (group_copies cwd root_dir) (build_index ignore_patterns root_dir t) →
  Py.count Path.sep n = 0
  ∧ Path.basename (Path.join (Path.join root_dir ".takeout") n) = n
  ∧ Path.abs_parts cwd (Path.join (Path.join root_dir ".takeout") n)
    = Path.abs_parts cwd root_dir ++ [".takeout"; n].
Proof.
  intros Hwf ([k paths] & Hg%list_elem_of_In & Hq%list_elem_of_In)%list_elem_of_In%in_flat_map.
  assert (valid_name n = true) as Hn.
  { unfold group_copies in Hq. cbn [fst snd] in Hq.
    destruct paths as [|q [|q' rest]]; [by apply elem_of_nil in Hq| |].
    - apply list_elem_of_singleton in Hq. injection Hq as -> ->.
      by destruct (indexed_path _ _ _ _ q _ Hwf Hg) as (_ & ? & ? & _ & _ & _ & _ & ? & _);
        [left|].
    - apply list_elem_of_fmap in Hq as (x & [= -> ->] & Hx).
      destruct (walked_file cwd _ _ _ _ _ _ Hwf Hg Hx) as (ds & t' & _ & _ & _ & Hname).
      rewrite Hname. by apply (flat_name_valid cwd root_dir x k). }
  split_and!.
  - by apply valid_name_spec in Hn as (_ & _ & _ & ?).
  - by apply basename_join.
  - by rewrite !abs_parts_join, <-app_assoc.
Qed.

Lemma copies_stay_in_the_folder_witness :
  Path.basename (Path.join (Path.join "/p" ".takeout") "a_x.txt") = "a_x.txt".
Proof.
  apply (copies_stay_in_the_folder "/" ∅ "/p" two_dirs "/p/a/x.txt" "a_x.txt");
    [reflexivity|]. vm_compute. left.
Defined.

(** ** The working directory *)

Lemma level_walked (cwd cwd' root_dir : string) (keep : string → bool) (t : tree)
    (it : walk_item) :
  well_formed t = true → it ∈ os_walk keep root_dir t →
  level cwd root_dir (dirpath it) = level cwd' root_dir (dirpath it).
Proof.
  intros Hwf (_ & ds & t' & Hat & _ & ->)%os_walk_items. cbn.
  destruct (at_path_well_formed _ _ _ Hat Hwf) as [Hds _].
  by rewrite !(level_depth _ _ _ ds) by (try apply abs_parts_joins; done).
Qed.

Lemma unique_name_walked (cwd cwd' : string) (ignore_patterns : gset string)
    (root_dir : string) (t : tree) (k p : string) (paths : list string) :
  well_formed t = true →
  (k, paths) ∈ build_index ignore_patterns root_dir t → p ∈ paths →
  unique_name cwd root_dir p k = unique_name cwd' root_dir p k.
Proof.
  intros Hwf Hk Hp.
  destruct (indexed_path _ _ _ _ _ _ Hwf Hk Hp)
    as (Hroot & ds & t' & Hat & _ & Hds & Hf & Hvk & ->).
  by rewrite !(unique_name_flat _ _ _ _ ds)
    by (try apply joins_nonempty; try apply abs_parts_joins; done).
Qed.

Lemma guide_lines_walked (cwd cwd' : string) (ignore_patterns : gset string)
    (root_dir : string) (t : tree) :
  well_formed t = true →
  guide_lines cwd ignore_patterns root_dir t = guide_lines cwd' ignore_patterns root_dir t.
Proof.
  intros Hwf. unfold guide_lines. apply flat_map_ext_elem. intros it Hit.
  unfold guide_block. by rewrite (level_walked cwd cwd' root_dir _ _ _ Hwf Hit).
Qed.

Lemma copies_walked (cwd cwd' : string) (ignore_patterns : gset string)
    (root_dir : string) (t : tree) :
  well_formed t = true →
  flat_map (group_copies cwd root_dir) (build_index ignore_patterns root_dir t)
  = flat_map (group_copies cwd' root_dir) (build_index ignore_patterns root_dir t).
Proof.
  intros Hwf. apply flat_map_ext_elem.
  intros [k paths] Hg. unfold group_copies. cbn [fst snd].
  destruct paths as [|q [|q' rest]]; [done..|].
  apply list_fmap_ext. intros i p Hp%list_elem_of_lookup_2. f_equal.
  by apply (unique_name_walked cwd cwd' ignore_patterns root_dir t k p (q :: q' :: rest)).
Qed.

(** X12. [os.path.relpath] makes both of its arguments absolute with
    the working directory; the guide, the copies and so the whole run
    are the same from any working directory. *)
Theorem run_independent_of_cwd (cwd cwd' : string) (str_float : Qc → string)
    (listdir : folder → list string) (readable : string → bool) (root_dir : string)
    (t : tree) (ignore : ignore_file) (old : option folder)
    (convert_to_txt empty_before : bool) (delete_timer : Qc) (use_gui : bool) :
  well_formed t = true →
  write_guide cwd (get_ignored_patterns ignore).1 root_dir t
  = write_guide cwd' (get_ignored_patterns ignore).1 root_dir t
  ∧ flat_map (group_copies cwd root_dir)
      (build_index (get_ignored_patterns ignore).1 root_dir t)
    = flat_map (group_copies cwd' root_dir)
        (build_index (get_ignored_patterns ignore).1 root_dir t)
  ∧ create_takeout_io cwd str_float listdir readable root_dir t ignore old convert_to_txt
      empty_before delete_timer use_gui
    = create_takeout_io cwd' str_float listdir readable root_dir t ignore old
        convert_to_txt empty_before delete_timer use_gui.
Proof.
  intros Hwf. set (pats := (get_ignored_patterns ignore).1).
  assert (write_guide cwd pats root_dir t = write_guide cwd' pats root_dir t) as Hguide.
  { unfold write_guide. by rewrite (guide_lines_walked cwd cwd'). }
  pose proof (copies_walked cwd cwd' pats root_dir t Hwf) as Hcopies.
  split_and!; [done..|].
  unfold create_takeout_io. fold pats. rewrite Hguide, Hcopies.
  destruct (write_guide cwd' pats root_dir t); [|done]. cbn.
  destruct (forallb _ _); [|done].
  rewrite !create_takeout_stages.
  assert (staged cwd root_dir t ignore old empty_before
          = staged cwd' root_dir t ignore old empty_before) as ->; [|done].
  unfold staged. fold pats. rewrite !copy_all_flat, Hcopies.
  unfold guide_text. by rewrite (guide_lines_walked cwd cwd').
Qed.

Lemma run_independent_of_cwd_witness :
  create_takeout_io "/home/u" (λ _, "0.0") sorted_listdir (λ _, true) "p" two_dirs
    Missing None true true 0%Qc false
  = create_takeout_io "/" (λ _, "0.0") sorted_listdir (λ _, true) "p" two_dirs
      Missing None true true 0%Qc false.
Proof.
  apply (run_independent_of_cwd "/home/u" "/" (λ _, "0.0") sorted_listdir (λ _, true)
           "p" two_dirs).
  reflexivity.
Defined.

(** ** The run from the command line *)

Lemma run_output_threads (str_float : Qc → string) (root_dir : string)
    (ignore : ignore_file) (convert_to_txt empty_before : bool) (delete_timer : Qc)
    (use_gui : bool) (n : nat) (d : bool) (p : string) (q : Qc) :
  ThreadStart d p q
    ∈ run_output str_float root_dir ignore convert_to_txt empty_before delete_timer
        use_gui n →
  d = true ∧ p = Path.join root_dir ".takeout" ∧ q = delete_timer ∧ (0 < delete_timer)%Qc.
Proof.
  unfold run_output. rewrite !elem_of_app.
  assert (∀ l : list event, Forall (λ e, ∃ text, e = Print text) l →
            ThreadStart d p q ∈ l → False) as Hprints.
  { intros l Hl Hin. rewrite Forall_forall in Hl. by destruct (Hl _ Hin). }
  intros [Hin|[Hin|[Hin|[Hin|[Hin|Hin]]]]].
  - (exfalso; eapply Hprints; [|exact Hin]; repeat constructor; by eexists).
  - destruct ignore; cbn in Hin;
      (exfalso; eapply Hprints; [|exact Hin]; repeat constructor; by eexists).
  - (exfalso; eapply Hprints; [|exact Hin]; repeat constructor; by eexists).
  - destruct convert_to_txt;
      (exfalso; eapply Hprints; [|exact Hin]; repeat constructor; by eexists).
  - case_bool_decide; [|by apply elem_of_nil in Hin].
    apply list_elem_of_singleton in Hin. by injection Hin as -> -> ->.
  - apply list_elem_of_singleton in Hin. by destruct use_gui.
Qed.

Lemma result_output (cwd : string) (str_float : Qc → string)
    (listdir : folder → list string) (root_dir : string) (t : tree) (ignore : ignore_file)
    (old : option folder) (convert_to_txt empty_before : bool) (delete_timer : Qc)
    (use_gui : bool) (r : result) :
  create_takeout cwd str_float listdir root_dir t ignore old convert_to_txt empty_before
    delete_timer use_gui = Some r →
  output r = run_output str_float root_dir ignore convert_to_txt empty_before delete_timer
               use_gui (staged cwd root_dir t ignore old empty_before).2.
Proof.
  rewrite create_takeout_stages. intros Hr.
  destruct convert_to_txt; [destruct (convert_all _ _)|]; by simplify_eq/=.
Qed.

(** X13. Without [--gui] the script runs [create_takeout] on the
    working directory, and always with the conversion, whether
    [--convert-txt] is given or not ([--no-gui] changes nothing
    either): every name of the folder ends in [.txt], nothing is shown
    in a dialog, and no thread is started when [--timer] is absent. *)
Theorem command_line_always_converts (cwd : string) (str_float : Qc → string)
    (listdir : folder → list string) (readable : string → bool) (a : args) (t : tree)
    (ignore : ignore_file) (old : option folder) :
  lists_entries listdir → gui a = false →
  main cwd str_float listdir readable a t ignore old
  = Cli (create_takeout_io cwd str_float listdir readable cwd t ignore old true
           (empty_flag a) (default 0%Qc (timer a)) false)
  ∧ (∀ r, main cwd str_float listdir readable a t ignore old = Cli (Some r) →
       (∀ m, is_Some (takeout r !! m) → Py.endswith m ".txt" = true)
       ∧ (∀ text, ShowInfo "Success" text ∉ output r)
       ∧ (timer a = None → ∀ d p q, ThreadStart d p q ∉ output r))
  ∧ (∀ a', gui a' = false → timer a' = timer a → empty_flag a' = empty_flag a →
           main cwd str_float listdir readable a' t ignore old
           = main cwd str_float listdir readable a t ignore old).
Proof.
  intros Hls Hgui.
  assert (∀ a', gui a' = false →
            main cwd str_float listdir readable a' t ignore old
            = Cli (create_takeout_io cwd str_float listdir readable cwd t ignore old true
                     (empty_flag a') (default 0%Qc (timer a')) false)) as Hmain.
  { intros a' Ha'. unfold main, run_with_gui, USE_GUI, CONVERT_TO_TXT_NO_GUI_DEFAULT,
      AUTO_DELETE_TIMER_SECONDS. rewrite Ha', orb_true_r.
    by destruct (no_gui a'), (timer a'). }
  split_and!; [by apply Hmain| |].
  - intros r. rewrite Hmain by done.
    intros [= (_ & _ & Hr)%create_takeout_io_some].
    pose proof (result_output _ _ _ _ _ _ _ _ _ _ _ _ Hr) as Hout.
    rewrite create_takeout_stages in Hr.
    set (D := (staged cwd cwd t ignore old (empty_flag a)).1) in *.
    destruct (Hls D) as [Hnd Hin].
    destruct (convert_all (listdir D) D) as [res|] eqn:Hres; [|done].
    injection Hr as <-. cbn [takeout output] in *. split_and!.
    + apply (convert_all_names _ _ _ Hres). intros m Hm. left. by apply Hin.
    + intros text Hin'. unfold run_output in Hin'. rewrite !elem_of_app in Hin'.
      destruct Hin' as [Hin'|[Hin'|[Hin'|[Hin'|[Hin'|Hin']]]]].
      * by repeat (apply elem_of_cons in Hin' as [?|Hin']; [done|]);
          apply elem_of_nil in Hin'.
      * destruct ignore; cbn in Hin';
          by repeat (apply elem_of_cons in Hin' as [?|Hin']; [done|]);
            apply elem_of_nil in Hin'.
      * by repeat (apply elem_of_cons in Hin' as [?|Hin']; [done|]);
          apply elem_of_nil in Hin'.
      * by repeat (apply elem_of_cons in Hin' as [?|Hin']; [done|]);
          apply elem_of_nil in Hin'.
      * case_bool_decide; [|by apply elem_of_nil in Hin'].
        by apply list_elem_of_singleton in Hin'.
      * by apply list_elem_of_singleton in Hin'.
    + intros Ht d p q Hin'%run_output_threads. rewrite Ht in Hin'.
      by destruct Hin' as (_ & _ & _ & ?).
  - intros a' Ha' Ht He. by rewrite !Hmain, Ht, He by done.
Qed.

Lemma command_line_always_converts_witness :
  ∃ r, main "/p" (λ _, "0.0") sorted_listdir (λ _, true)
         (Args false false false None true) two_dirs Missing None = Cli (Some r)
       ∧ ∀ m, is_Some (takeout r !! m) → Py.endswith m ".txt" = true.
Proof.
  destruct (main "/p" (λ _, "0.0") sorted_listdir (λ _, true)
              (Args false false false None true) two_dirs Missing None)
    as [|[r|]] eqn:Hr; [by vm_compute in Hr| |by vm_compute in Hr].
  exists r. split; [reflexivity|].
  apply (command_line_always_converts "/p" (λ _, "0.0") sorted_listdir (λ _, true)
           (Args false false false None true) two_dirs Missing None
           sorted_listdir_lists eq_refl).
  exact Hr.
Defined.

(** ** The thread of the deferred deletion *)

(** X14. The thread of the deferred deletion, once [time.sleep] has
    returned: it prints the removal exactly when the folder was there
    and could be removed, the error exactly when the removal raised (the
    folder is then still there), and nothing when the folder was gone;
    it returns in every case. A run starts such a thread only for a
    timer above zero, as a daemon on [root_dir/.takeout], with the
    timer as delay. *)
Theorem deletion_thread_behaviour (cwd : string) (str_float : Qc → string)
    (listdir : folder → list string) (readable : string → bool) :
  (∀ path delay present failure,
     ∃ log still,
       _delete_folder_after_delay str_float path delay Returned present failure
       = (Print (Py.nl +:+ "Scheduled deletion of '" +:+ path +:+ "' in "
                 +:+ str_float delay +:+ " seconds.") :: log, still, Returned)
       ∧ (still = true ↔ present = true ∧ is_Some failure)
       ∧ (log = [Print ("Automatically deleted '" +:+ path +:+ "'.")]
          ↔ present = true ∧ failure = None)
       ∧ (log = [] ↔ present = false)
       ∧ (∀ e, log = [Print ("Error during scheduled deletion of '" +:+ path +:+ "': "
                             +:+ e)]
               ↔ present = true ∧ failure = Some e))
  ∧ (∀ root_dir t ignore old convert_to_txt empty_before delete_timer use_gui r,
       create_takeout_io cwd str_float listdir readable root_dir t ignore old
         convert_to_txt empty_before delete_timer use_gui = Some r →
       (∀ d p q, ThreadStart d p q ∈ output r →
          d = true ∧ p = Path.join root_dir ".takeout" ∧ q = delete_timer ∧ (0 < q)%Qc)
       ∧ ((delete_timer <= 0)%Qc → ∀ d p q, ThreadStart d p q ∉ output r)).
Proof.
  split.
  - intros path delay present failure. unfold _delete_folder_after_delay.
    destruct present, failure as [e|]; cbn; do 2 eexists; (split; [done|]).
    + split_and!; [naive_solver|naive_solver|naive_solver|].
      intros e'. split; [|naive_solver]. intros [= Heq]. split; [done|].
      rewrite !sapp_nil_l in Heq. apply String.app_inj in Heq.
      apply (String.app_inj "': ") in Heq. by subst.
    + split_and!; [naive_solver..|]. intros e'. naive_solver.
    + split_and!; [naive_solver..|]. intros e'. naive_solver.
    + split_and!; [naive_solver..|]. intros e'. naive_solver.
  - intros root_dir t ignore old convert_to_txt empty_before delete_timer use_gui r.
    intros (_ & _ & Hr)%create_takeout_io_some.
    rewrite (result_output _ _ _ _ _ _ _ _ _ _ _ _ Hr).
    split.
    + intros d p q (-> & -> & -> & Hpos)%run_output_threads. done.
    + intros Hle d p q (_ & _ & _ & Hpos)%run_output_threads.
      by apply Qcle_not_lt in Hle.
Qed.

(** ** A root given with a trailing separator *)

Lemma basename_slash (x : string) : Path.basename (x +:+ "/") = "".
Proof.
  unfold Path.basename, Path.sep. rewrite (rfind1_app "/" x "") by done.
  replace (S (String.length x)) with (String.length (x +:+ "/"))
    by (rewrite sapp_length; simpl; lia).
  rewrite <-(sapp_nil_r (x +:+ "/")) at 2. apply drop_app.
Qed.

Lemma level_root (cwd root_dir : string) : level cwd root_dir root_dir = 0.
Proof.
  unfold level. rewrite (relpath_under _ _ _ []) by by rewrite app_nil_r. done.
Qed.

(** X15. For a root given with a trailing separator
    [os.path.basename] is empty: the head of the guide names no project
    and the line of the root is a lone [/]. *)
Theorem trailing_separator_hides_the_name (cwd : string) (ignore_patterns : gset string)
    (x : string) (t : tree) :
  Path.basename (x +:+ "/") = ""
  ∧ (∃ rest,
       guide_text cwd ignore_patterns (x +:+ "/") t
       = "Project Structure for: " +:+ Py.nl +:+ Py.nl +:+ "/" +:+ Py.nl +:+ rest)
  ∧ (∀ text, write_guide cwd ignore_patterns (x +:+ "/") t = Some text →
       ∃ rest, text = "Project Structure for: " +:+ Py.nl +:+ Py.nl +:+ "/" +:+ Py.nl
                      +:+ rest).
Proof.
  assert (∃ rest,
       guide_text cwd ignore_patterns (x +:+ "/") t
       = "Project Structure for: " +:+ Py.nl +:+ Py.nl +:+ "/" +:+ Py.nl +:+ rest)
    as Hguide.
  { unfold guide_text, guide_lines, os_walk.
    rewrite bool_decide_eq_false_2 by (by intros [_ ?]%sapp_eq_nil).
    destruct t as [files subdirs]. cbn [walk flat_map guide_block dirpath filenames app].
    rewrite fmap_cons. cbn [render]. rewrite level_root, basename_slash. cbn [Py.repeat].
    rewrite !sapp_nil_l.
    match goal with |- context [String.concat "" (?h :: ?l)] =>
      assert (String.concat "" (h :: l) = h +:+ String.concat "" l) as ->
        by (destruct l; [by rewrite sapp_nil_r|done]) end.
    eexists. by rewrite !sapp_assoc. }
  split_and!; [apply basename_slash|done|].
  intros text. rewrite write_guide_text. destruct (forallb _ _); [|done].
  by intros [= <-].
Qed.

(** ** Lines of the ignore file *)

(** X17. The patterns are a set: two ignore files with the same lines,
    in any order and however often repeated, give the same patterns,
    the same number in the output, and the same run. *)
Theorem ignore_lines_as_a_set (cwd : string) (str_float : Qc → string)
    (listdir : folder → list string) (readable : string → bool) (ls ls' : list string) :
  (∀ line, line ∈ ls ↔ line ∈ ls') →
  get_ignored_patterns (Lines ls) = get_ignored_patterns (Lines ls')
  ∧ ∀ root_dir t old convert_to_txt empty_before delete_timer use_gui,
      create_takeout_io cwd str_float listdir readable root_dir t (Lines ls) old
        convert_to_txt empty_before delete_timer use_gui
      = create_takeout_io cwd str_float listdir readable root_dir t (Lines ls') old
          convert_to_txt empty_before delete_timer use_gui.
Proof.
  intros Hls.
  assert (get_ignored_patterns (Lines ls) = get_ignored_patterns (Lines ls')) as Heq.
  { cbn [get_ignored_patterns]. f_equal. apply set_eq. intros p.
    rewrite !elem_of_list_to_set, !list_elem_of_fmap.
    split; intros (line & -> & [Hp Hin]%list_elem_of_filter); exists line;
      (split; [done|]); apply list_elem_of_filter; (split; [done|]); by apply Hls. }
  split; [done|]. intros. unfold create_takeout_io, create_takeout. by rewrite Heq.
Qed.

Lemma ignore_lines_as_a_set_witness :
  get_ignored_patterns (Lines ["*.log"; "build/"; "*.log"])
  = get_ignored_patterns (Lines ["build/"; "*.log"]).
Proof.
  apply (ignore_lines_as_a_set "/" (λ _, "0.0") (λ _, []) (λ _, true)
           ["*.log"; "build/"; "*.log"] ["build/"; "*.log"]).
  intros line. rewrite !elem_of_cons, !elem_of_nil. tauto.
Defined.

(** ** Patterns without a trailing separator *)

Lemma guide_dir_lines (cwd : string) (ignore_patterns : gset string) (root_dir : string)
    (items : list walk_item) :
  filter (λ l, is_dir_line l) (flat_map (guide_block cwd ignore_patterns root_dir) items)
  = (λ it, DirLine (level cwd root_dir (dirpath it)) (Path.basename (dirpath it)))
    <$> items.
Proof.
  induction items as [|it items IH]; [done|].
  cbn [flat_map]. rewrite filter_app, IH, fmap_cons. unfold guide_block at 1.
  rewrite filter_cons, decide_True by done. cbn [app]. f_equal.
  generalize (level cwd root_dir (dirpath it) + 1). intros n.
  generalize (filter (λ file, negb (ignored_file ignore_patterns file))
                (sorted (filenames it))).
  intros l. induction l as [|f l IHl]; [done|].
  by rewrite fmap_cons, filter_cons, decide_False by (cbn; tauto).
Qed.

Lemma walk_ext_all (keep keep' : string → bool) (top : string) (t : tree) :
  (∀ d, keep d = keep' d) → walk keep top t = walk keep' top t.
Proof.
  intros Hk. revert top. induction t as [files subdirs IH] using tree_induction; intros top.
  cbn [walk]. f_equal.
  - f_equal. apply filter_ext_elem. intros d _. by rewrite Hk.
  - apply flat_map_ext_elem. intros [d sub] Hin. rewrite Forall_forall in IH.
    cbn [fst snd]. rewrite <-Hk. destruct (keep d); [|done]. apply (IH _ Hin).
Qed.

(** X18. Only a pattern that ends in [/] can prune: adding any other
    pattern changes neither the directories that the walk enters nor
    the directory lines of the guide. *)
Theorem only_slash_patterns_prune (cwd : string) (ignore_patterns : gset string)
    (p : string) (root_dir : string) (t : tree) :
  Py.endswith p "/" = false →
  (∀ d, keep_dir (ignore_patterns ∪ {[p]}) d = keep_dir ignore_patterns d)
  ∧ os_walk (keep_dir (ignore_patterns ∪ {[p]})) root_dir t
    = os_walk (keep_dir ignore_patterns) root_dir t
  ∧ filter (λ l, is_dir_line l) (guide_lines cwd (ignore_patterns ∪ {[p]}) root_dir t)
    = filter (λ l, is_dir_line l) (guide_lines cwd ignore_patterns root_dir t).
Proof.
  intros Hp.
  assert (∀ d, keep_dir (ignore_patterns ∪ {[p]}) d = keep_dir ignore_patterns d) as Hkeep.
  { intros d. unfold keep_dir. f_equal. apply bool_decide_ext.
    rewrite not_elem_of_union, not_elem_of_singleton. split; [tauto|].
    intros Hin. split; [done|]. intros <-. by rewrite endswith_app in Hp. }
  assert (os_walk (keep_dir (ignore_patterns ∪ {[p]})) root_dir t
          = os_walk (keep_dir ignore_patterns) root_dir t) as Hwalk.
  { unfold os_walk. case_bool_decide; [done|]. by apply walk_ext_all. }
  split_and!; [done..|].
  unfold guide_lines. by rewrite Hwalk, !guide_dir_lines.
Qed.

Lemma only_slash_patterns_prune_witness :
  os_walk (keep_dir (∅ ∪ {["a"]})) "/p" two_dirs = os_walk (keep_dir ∅) "/p" two_dirs.
Proof.
  apply (only_slash_patterns_prune "/" ∅ "a" "/p" two_dirs). reflexivity.
Defined.

(** ** The folder before and after the conversion *)

(** X16. The conversion renames and does nothing else: when no entry
    of the folder after the copies is named like another with [.txt]
    appended, the converted folder holds every entry under its name
    followed by [.txt], the guide under its own name, and nothing
    else; the count is the same. *)
Theorem conversion_appends_suffix (cwd : string) (str_float : Qc → string)
    (listdir : folder → list string) (readable : string → bool) (root_dir : string)
    (t : tree) (ignore : ignore_file) (old : option folder) (empty_before : bool)
    (delete_timer : Qc) (use_gui : bool) (r0 : result) :
  lists_entries listdir →
  create_takeout_io cwd str_float listdir readable root_dir t ignore old false
    empty_before delete_timer use_gui = Some r0 →
  (∀ n, is_Some (takeout r0 !! n) → n ≠ guide_name →
        takeout r0 !! (n +:+ ".txt") = None) →
  ∃ r, create_takeout_io cwd str_float listdir readable root_dir t ignore old true
         empty_before delete_timer use_gui = Some r
    ∧ (∀ n c, takeout r0 !! n = Some c → n ≠ guide_name →
              takeout r !! (n +:+ ".txt") = Some c)
    ∧ takeout r !! guide_name = takeout r0 !! guide_name
    ∧ (∀ m c, takeout r !! m = Some c →
         m = guide_name
         ∨ ∃ n, m = n +:+ ".txt" ∧ n ≠ guide_name ∧ takeout r0 !! n = Some c)
    ∧ copied r = copied r0.
Proof.
  intros Hls (Hguide & Hread & Hr0)%create_takeout_io_some Hfree.
  rewrite create_takeout_stages in Hr0. injection Hr0 as <-. cbn [takeout copied] in *.
  set (D := (staged cwd root_dir t ignore old empty_before).1) in *.
  destruct (Hls D) as [Hnd Hin].
  destruct (convert_all_suffixes (listdir D) D Hnd Hin Hfree)
    as (res & Hres & Hmoved & Hkept & Honly).
  eexists. split.
  { apply create_takeout_io_some. split_and!; [done..|].
    rewrite create_takeout_stages. fold D. by rewrite Hres. }
  cbn [takeout copied].
  assert (is_Some (D !! guide_name)) as [g Hg].
  { unfold D. rewrite staged_lookup. destruct (last _); [done|].
    by rewrite lookup_insert_eq. }
  split_and!; [done| | |done].
  - rewrite Hg. by apply Hkept.
  - intros m c [[-> _]|?]%Honly; [by left|by right].
Qed.

Lemma conversion_appends_suffix_witness :
  ∃ r, create_takeout_io "/" (λ _, "0.0") sorted_listdir (λ _, true) "/p" three_dirs
         Missing None true true 0%Qc false = Some r
       ∧ takeout r !! "b_x.txt" = Some (CopyOf "/p/b/x").
Proof.
  destruct (create_takeout_io "/" (λ _, "0.0") sorted_listdir (λ _, true) "/p" three_dirs
              Missing None false true 0%Qc false) as [r0|] eqn:Hr0;
    [|by vm_compute in Hr0].
  pose proof Hr0 as Hv. vm_compute in Hv. injection Hv as Hv.
  destruct (conversion_appends_suffix "/" (λ _, "0.0") sorted_listdir (λ _, true) "/p"
              three_dirs Missing None true 0%Qc false r0 sorted_listdir_lists Hr0)
    as (r & Hr & Hmoved & _).
  - assert (map_Forall (λ n _, n ≠ guide_name → takeout r0 !! (n +:+ ".txt") = None)
              (takeout r0)) as Hall
      by (rewrite <-Hv; apply (bool_decide_unpack _); vm_compute; exact I).
    intros n [c Hn]. exact (Hall n c Hn).
  - exists r. split; [exact Hr|].
    apply (Hmoved "b_x"); [|done]. rewrite <-Hv. vm_compute. reflexivity.
Defined.
